(** * arffutils: the ARFF header scanner and writer, column resolution and
    the merge / select / split row pipelines, embedded from the Python
    sources under [arffutils/].

    Conventions of the embedding.
    - Text is [string]; a character is a code point below 256.
    - Python integers are [Z]; list indexing and slicing follow Python
      (negative indices count from the end, slices clamp).
    - A call that can raise returns an [outcome]; the two header loops of
      [get_metadata_if_arff] take an iteration budget and answer
      [OutOfFuel] when it is used up.
    - Files are explicit state: an input file is its whole text plus the
      unread suffix, an output file is its [name] attribute (if it has
      one) plus the text written so far. *)

From Stdlib Require Import ZArith Ascii String Lia Sorted.
From stdpp Require Import base numbers list strings gmap.

Local Open Scope Z_scope.

(** ** Outcomes of Python calls *)

Inductive exn : Type :=
| IndexError (site : string)       (* list index out of range, raised at [site] *)
| ValueError (msg : string)        (* [raise ValueError(msg)] in the sources *)
| NotInList (x : string)           (* the ValueError of [list.index(x)] *)
| AttributeError (attr : string).  (* the object has no attribute [attr] *)

Inductive outcome (A : Type) : Type :=
| Ret (a : A)
| Raise (e : exn)
| OutOfFuel.
Arguments Ret {A} a.
Arguments Raise {A} e.
Arguments OutOfFuel {A}.

(** State and exceptions: the state survives a raise, as the contents of a
    Python file object do. *)
Definition M (S A : Type) : Type := S → S * outcome A.

Definition ret {S A} (a : A) : M S A := λ s, (s, Ret a).
Definition raise {S A} (e : exn) : M S A := λ s, (s, Raise e).
Definition bind {S A B} (m : M S A) (k : A → M S B) : M S B :=
  λ s, match m s with
       | (s', Ret a) => k a s'
       | (s', Raise e) => (s', Raise e)
       | (s', OutOfFuel) => (s', OutOfFuel)
       end.
Definition gets {S A} (f : S → A) : M S A := λ s, (s, Ret (f s)).
Definition modify {S} (f : S → S) : M S unit := λ s, (f s, Ret tt).
Definition lift {S A} (o : outcome A) : M S A := λ s, (s, o).

(** Run a computation on a component [get] of a larger state. *)
Definition zoom {S T A} (get : T → S) (set : S → T → T) (m : M S A) : M T A :=
  λ t, let '(s', r) := m (get t) in (set s' t, r).

Notation "x <- m ;; k" := (bind m (λ x, k))
  (at level 100, m at next level, right associativity).
Notation "m ;; k" := (bind m (λ _, k))
  (at level 100, right associativity).

(** ** Python built-ins on strings and lists *)

Module py.

Definition newline : ascii := "010"%char.
(** The line terminator as a text. *)
Definition nl : string := String newline EmptyString.
Definition dquote : ascii := "034"%char.
Definition squote : ascii := "039"%char.

(** [str.isspace] on one code point below 256; it is also the class [\s]
    of [re] on text patterns. *)
Definition isspace (c : ascii) : bool :=
  let n := N_of_ascii c in
  ((9 <=? n) && (n <=? 13) || (28 <=? n) && (n <=? 32)
   || (n =? 133) || (n =? 160))%N.

Fixpoint lstrip (s : string) : string :=
  match s with
  | String c r => if isspace c then lstrip r else s
  | EmptyString => EmptyString
  end.

Fixpoint rstrip (s : string) : string :=
  match s with
  | String c r =>
      match rstrip r with
      | EmptyString => if isspace c then EmptyString else String c EmptyString
      | r' => String c r'
      end
  | EmptyString => EmptyString
  end.

(** [s.strip()] *)
Definition strip (s : string) : string := lstrip (rstrip s).

(** [s.split()]: the maximal runs of characters that are not whitespace. *)
Fixpoint split_go (cur : option string) (s : string) : list string :=
  match s with
  | String c r =>
      if isspace c
      then match cur with
           | Some w => String.rev w :: split_go None r
           | None => split_go None r
           end
      else split_go (Some (String c (default EmptyString cur))) r
  | EmptyString =>
      match cur with Some w => [String.rev w] | None => [] end
  end.
Definition split (s : string) : list string := split_go None s.

(** [s.split(sep)] for a one-character separator. *)
Fixpoint split_on (sep : ascii) (s : string) : list string :=
  match s with
  | String c r =>
      if Ascii.eqb c sep then EmptyString :: split_on sep r
      else match split_on sep r with
           | w :: ws => String c w :: ws
           | [] => [String c EmptyString]
           end
  | EmptyString => [EmptyString]
  end.

(** [sep.join(fields)] *)
Fixpoint join (sep : string) (fields : list string) : string :=
  match fields with
  | [] => EmptyString
  | [x] => x
  | x :: rest => x +:+ sep +:+ join sep rest
  end.

(** ["".join(lines)], what [writelines] appends. *)
Fixpoint concat (lines : list string) : string :=
  match lines with
  | [] => EmptyString
  | x :: rest => x +:+ concat rest
  end.

(** [l[i]], [None] where Python raises [IndexError]. *)
Definition item {A} (l : list A) (i : Z) : option A :=
  let n := Z.of_nat (length l) in
  let j := if i <? 0 then i + n else i in
  if (0 <=? j) && (j <? n) then l !! Z.to_nat j else None.

(** [l[i]] as evaluated at the place [site] of the sources. *)
Definition index {A} (site : string) (l : list A) (i : Z) : outcome A :=
  match item l i with
  | Some x => Ret x
  | None => Raise (IndexError site)
  end.

(** A slice bound, clamped to [0 .. len] as [PySlice_AdjustIndices] does
    for step 1. *)
Definition clamp (n : Z) (i : Z) : Z :=
  if i <? 0 then Z.max (i + n) 0 else Z.min i n.

(** [l[lo:hi]], with [None] for an omitted bound. *)
Definition slice {A} (l : list A) (lo hi : option Z) : list A :=
  let n := Z.of_nat (length l) in
  let a := match lo with Some i => clamp n i | None => 0 end in
  let b := match hi with Some i => clamp n i | None => n end in
  take (Z.to_nat (b - a)) (drop (Z.to_nat a) l).

(** [l.index(x)], the position of the first occurrence. *)
Fixpoint list_index (x : string) (l : list string) : option nat :=
  match l with
  | [] => None
  | y :: rest => if String.eqb y x then Some 0%nat
                 else S <$> list_index x rest
  end.

Definition digit_value (c : ascii) : option Z :=
  let n := N_of_ascii c in
  if ((48 <=? n) && (n <=? 57))%N then Some (Z.of_N n - 48) else None.

(** The digits of a decimal literal; a single underscore may separate
    two digits. *)
Fixpoint parse_digits (acc : Z) (after_digit : bool) (s : string) : option Z :=
  match s with
  | String c r =>
      match digit_value c with
      | Some d => parse_digits (10 * acc + d) true r
      | None =>
          if Ascii.eqb c "_"%char && after_digit
          then parse_digits acc false r
          else None
      end
  | EmptyString => if after_digit then Some acc else None
  end.

(** The whitespace [int] accepts around a literal: the ASCII class of
    the C parser (tab to carriage return, and the space) and, of the
    code points from 128 on, those [str.isspace] holds of, which [int]
    turns into spaces first.  The separators 28 to 31, which
    [str.strip] removes, are not among them. *)
Definition int_space (c : ascii) : bool :=
  let n := N_of_ascii c in
  ((9 <=? n) && (n <=? 13) || (n =? 32) || (n =? 133) || (n =? 160))%N.

Fixpoint int_lstrip (s : string) : string :=
  match s with
  | String c r => if int_space c then int_lstrip r else s
  | EmptyString => EmptyString
  end.

Fixpoint int_rstrip (s : string) : string :=
  match s with
  | String c r =>
      match int_rstrip r with
      | EmptyString => if int_space c then EmptyString else String c EmptyString
      | r' => String c r'
      end
  | EmptyString => EmptyString
  end.

(** The number of digits of a literal, underscores apart. *)
Fixpoint count_digits (s : string) : N :=
  match s with
  | String c r =>
      ((match digit_value c with Some _ => 1 | None => 0 end)
       + count_digits r)%N
  | EmptyString => 0%N
  end.

(** [sys.get_int_max_str_digits()], as CPython 3.11 and later set it
    by default. *)
Definition int_max_str_digits : N := 4300.

(** [int(s)]: [Some n], or [None] where Python raises [ValueError], as
    it also does for a literal of more than [int_max_str_digits]
    digits. *)
Definition int (s : string) : option Z :=
  let t := int_lstrip (int_rstrip s) in
  if (int_max_str_digits <? count_digits t)%N then None
  else match t with
       | String "-"%char r => Z.opp <$> parse_digits 0 false r
       | String "+"%char r => parse_digits 0 false r
       | _ => parse_digits 0 false t
       end.

(** A [dict] with string keys, in insertion order. *)
Definition dict (V : Type) : Type := list (string * V).

(** [d[k] = v]: a present key keeps its place and takes the new value. *)
Fixpoint dict_set {V} (k : string) (v : V) (d : dict V) : dict V :=
  match d with
  | [] => [(k, v)]
  | (k', v') :: rest =>
      if String.eqb k' k then (k, v) :: rest
      else (k', v') :: dict_set k v rest
  end.

(** [d[k]], [None] where Python raises [KeyError]. *)
Fixpoint dict_get {V} (k : string) (d : dict V) : option V :=
  match d with
  | [] => None
  | (k', v) :: rest => if String.eqb k' k then Some v else dict_get k rest
  end.

(** [list(d.values())] *)
Definition dict_values {V} (d : dict V) : list V := snd <$> d.

(** [re.sub(".(arff|csv|txt)$", "", s)].  The pattern matches at the
    first position holding a character other than a newline that is
    followed by exactly one of the three words and then the end of the
    text or a final newline, which stays. *)
Definition ext_end (s : string) : option string :=
  if bool_decide (s ∈ ["arff"; "csv"; "txt"]) then Some EmptyString
  else if bool_decide (s ∈ (λ e, e +:+ nl) <$> ["arff"; "csv"; "txt"])
       then Some nl
       else None.

Fixpoint sub_known_extension (s : string) : string :=
  match s with
  | String c r =>
      match (if Ascii.eqb c newline then None else ext_end r) with
      | Some tail => tail
      | None => String c (sub_known_extension r)
      end
  | EmptyString => EmptyString
  end.

(** [os.path.basename] (posix): what follows the last slash. *)
Fixpoint basename (p : string) : string :=
  match p with
  | String c r =>
      if Ascii.eqb c "/"%char then basename r
      else if existsb (Ascii.eqb "/"%char) (list_ascii_of_string r)
           then basename r else p
  | EmptyString => EmptyString
  end.

(** [re.split(r"\s+", s)]: the pieces between the maximal runs of
    whitespace, an empty piece where the text starts or ends with a
    run.  [cur] holds the piece being read, last character first. *)
Fixpoint re_split_spaces_go (cur : string) (in_run : bool) (s : string)
  : list string :=
  match s with
  | String c r =>
      if isspace c
      then if in_run then re_split_spaces_go cur true r
           else String.rev cur :: re_split_spaces_go EmptyString true r
      else re_split_spaces_go (String c cur) false r
  | EmptyString => [String.rev cur]
  end.
Definition re_split_spaces (s : string) : list string :=
  re_split_spaces_go EmptyString false s.

(** A line boundary of [str.splitlines], a carriage return apart. *)
Definition is_linebreak (c : ascii) : bool :=
  let n := N_of_ascii c in
  ((10 <=? n) && (n <=? 12) || (28 <=? n) && (n <=? 30) || (n =? 133))%N.

(** [s.splitlines()]; a carriage return followed by a newline is one
    boundary. *)
Fixpoint splitlines_go (cur : string) (s : string) : list string :=
  match s with
  | String c r =>
      if Ascii.eqb c "013"%char
      then match r with
           | String d r' =>
               if Ascii.eqb d newline
               then String.rev cur :: splitlines_go EmptyString r'
               else String.rev cur :: splitlines_go EmptyString r
           | EmptyString => [String.rev cur]
           end
      else if is_linebreak c
           then String.rev cur :: splitlines_go EmptyString r
           else splitlines_go (String c cur) r
  | EmptyString =>
      match cur with EmptyString => [] | _ => [String.rev cur] end
  end.
Definition splitlines (s : string) : list string :=
  splitlines_go EmptyString s.

(** [enumerate(l)] counted from [i] *)
Fixpoint enumerate_from {A} (i : nat) (l : list A) : list (nat * A) :=
  match l with
  | [] => []
  | x :: rest => (i, x) :: enumerate_from (S i) rest
  end.
Definition enumerate {A} (l : list A) : list (nat * A) := enumerate_from 0 l.

(** [s.startswith(prefix)] *)
Fixpoint startswith (prefix s : string) : bool :=
  match prefix with
  | EmptyString => true
  | String p prefix' =>
      match s with
      | String c r => Ascii.eqb c p && startswith prefix' r
      | EmptyString => false
      end
  end.

End py.

(** ** [arffutils/utils.py] *)

Module utils.

(** *** The regular expressions of [get_metadata_if_arff]

    Each matcher answers whether [re.match] finds a match, by trying the
    split points a backtracking matcher would try. *)

(** [$]: the end of the text, or just before a final newline. *)
Definition at_end (s : string) : bool :=
  match s with
  | EmptyString => true
  | String c EmptyString => Ascii.eqb c py.newline
  | _ => false
  end.

(** [\s*] followed by [k] *)
Fixpoint spaces_then (k : string → bool) (s : string) : bool :=
  k s || match s with
         | String c r => py.isspace c && spaces_then k r
         | EmptyString => false
         end.

(** [\S*$] *)
Fixpoint nonspaces_end (s : string) : bool :=
  at_end s || match s with
              | String c r => negb (py.isspace c) && nonspaces_end r
              | EmptyString => false
              end.

(** [.*$] *)
Fixpoint dots_end (s : string) : bool :=
  at_end s || match s with
              | String c r => negb (Ascii.eqb c py.newline) && dots_end r
              | EmptyString => false
              end.

(** [.*q$] for a quote character [q] *)
Fixpoint dots_quote_end (q : ascii) (s : string) : bool :=
  match s with
  | String c r =>
      Ascii.eqb c q && at_end r
      || negb (Ascii.eqb c py.newline) && dots_quote_end q r
  | EmptyString => false
  end.

(** A keyword matched letter by letter in either case, as [[Rr][Ee]...];
    [kw] is given in lower case.  Returns what follows the keyword. *)
Fixpoint keyword (kw : string) (s : string) : option string :=
  match kw with
  | EmptyString => Some s
  | String k kw' =>
      match s with
      | String c r =>
          if Ascii.eqb c k
             || Ascii.eqb c (ascii_of_N (N_of_ascii k - 32))
          then keyword kw' r else None
      | EmptyString => None
      end
  end.

(** [@] followed by a keyword *)
Definition at_keyword (kw : string) (s : string) : option string :=
  match s with
  | String c r => if Ascii.eqb c "@"%char then keyword kw r else None
  | EmptyString => None
  end.

(** [[^{},%]] *)
Definition not_brace_comma_percent (c : ascii) : bool :=
  negb (Ascii.eqb c "{"%char || Ascii.eqb c "}"%char
        || Ascii.eqb c ","%char || Ascii.eqb c "%"%char).

(** [q[^{},%].*q$] *)
Definition quoted_name (q : ascii) (s : string) : bool :=
  match s with
  | String c (String d r) =>
      Ascii.eqb c q && not_brace_comma_percent d && dots_quote_end q r
  | _ => false
  end.

(** The name group of [relation] with its [$]: a character other than
    a single quote followed by [\S*], or a name in single quotes, or a
    name in double quotes. *)
Definition relation_name (s : string) : bool :=
  match s with
  | String c r => negb (Ascii.eqb c py.squote) && nonspaces_end r
  | EmptyString => false
  end
  || quoted_name py.squote s
  || quoted_name py.dquote s.

(** [comment]: [^%] *)
Definition comment (line : string) : bool :=
  match line with
  | String c _ => Ascii.eqb c "%"%char
  | EmptyString => false
  end.

(** [empty]: [^\s+$] *)
Definition empty (line : string) : bool :=
  match line with
  | String c r => py.isspace c && spaces_then at_end r
  | EmptyString => false
  end.

(** [relation]: [^@[Rr][Ee][Ll][Aa][Tt][Ii][Oo][Nn]\s*], the name group,
    [$] *)
Definition relation (line : string) : bool :=
  match at_keyword "relation" line with
  | Some r => spaces_then relation_name r
  | None => false
  end.

(** [datameta]: [^@[Dd][Aa][Tt][Aa]] *)
Definition datameta (line : string) : bool :=
  bool_decide (is_Some (at_keyword "data" line)).

(** [attribute]: [^@[Aa][Tt][Tt][Rr][Ii][Bb][Uu][Tt][Ee]\s*], one
    character other than a newline, [.*$] *)
Definition attribute (line : string) : bool :=
  match at_keyword "attribute" line with
  | Some r =>
      spaces_then (λ s, match s with
                        | String c r' =>
                            negb (Ascii.eqb c py.newline) && dots_end r'
                        | EmptyString => false
                        end) r
  | None => false
  end.

(** *** The input file object: its text and the part not read yet *)

Record stream : Type := Stream { buffer : string; unread : string }.

(** [open(path)] or [StringIO(text)], positioned at the start *)
Definition from_text (text : string) : stream :=
  {| buffer := text; unread := text |}.

(** One line with its terminator, and what follows it. *)
Fixpoint cut_line (s : string) : string * string :=
  match s with
  | String c r =>
      if Ascii.eqb c py.newline then (String c EmptyString, r)
      else let '(l, r') := cut_line r in (String c l, r')
  | EmptyString => (EmptyString, EmptyString)
  end.

(** [in_file.readline()]: the empty string at the end of the file. *)
Definition readline : M stream string :=
  λ f, let '(l, r) := cut_line (unread f) in
       ({| buffer := buffer f; unread := r |}, Ret l).

(** [in_file.seek(0)] *)
Definition seek0 : M stream unit :=
  modify (λ f, {| buffer := buffer f; unread := buffer f |}).

(** *** [get_metadata_if_arff] *)

(** What the function returns:
    [is_arff, attr_names, attr_lines, all_metadata_lines]. *)
Record metadata : Type := Metadata {
  is_arff : bool;
  attr_names : list string;
  attr_lines : list string;
  all_metadata_lines : list string
}.

(** The loop [while comment.match(line) or empty.match(line)]. *)
Fixpoint skip_comments (fuel : nat) (line : string) (all : list string)
  : M stream (string * list string) :=
  match fuel with
  | O => lift OutOfFuel
  | S fuel' =>
      if comment line || empty line
      then l <- readline ;;
           skip_comments fuel' (py.strip l) (all ++ [line])
      else ret (line, all)
  end.

(** The loop [while not datameta.match(line)]. *)
Fixpoint read_metadata (fuel : nat) (line : string)
    (names lines all : list string)
  : M stream (list string * list string * list string) :=
  match fuel with
  | O => lift OutOfFuel
  | S fuel' =>
      if datameta line then ret (names, lines, all)
      else
        l <- readline ;;
        let line := py.strip l in
        let all := all ++ [line] in
        if attribute line
        then name <- lift (py.index "line.split()[1]" (py.split line) 1) ;;
             read_metadata fuel' line (names ++ [name]) (lines ++ [line]) all
        else read_metadata fuel' line names lines all
  end.

Definition get_metadata_if_arff (fuel : nat) : M stream metadata :=
  l <- readline ;;
  r <- skip_comments fuel (py.strip l) [] ;;
  let '(line, all) := r in
  if relation line
  then r <- read_metadata fuel line [] [] (all ++ [line]) ;;
       let '(names, lines, all) := r in
       ret (Metadata true names lines all)
  else seek0 ;;
       ret (Metadata false [] [] all).

(** *** [create_metadata_rows] *)
Definition create_metadata_rows (rel_name : string) (attr_lines : list string)
  : list string :=
  let lines := ["@relation " +:+ rel_name; ""] ++ attr_lines ++ [""; "@data"] in
  (λ line, line +:+ py.nl) <$> lines.

End utils.

(** ** [arffutils/io.py] *)

Module io.

(** The file objects of the process that are open, and the next unused
    handle. *)
Record files : Type := Files { opened : gset nat; fresh : nat }.

(** The argument [file_]: a path, or an object that has a [read]
    attribute, here the handle of a file object. *)
Inductive file_arg : Type :=
| Path (p : string)
| Handle (h : nat).

(** [open(file_, mode)], taken to succeed. *)
Definition open (p : string) (mode : string) : M files nat :=
  λ σ, ({| opened := {[fresh σ]} ∪ opened σ; fresh := S (fresh σ) |},
        Ret (fresh σ)).

(** [handle.close()] *)
Definition close (h : nat) : M files unit :=
  modify (λ σ, {| opened := opened σ ∖ {[h]}; fresh := fresh σ |}).

(** [handle != file_]: a file object differs from every path, and from
    every file object but itself. *)
Definition differs (handle : nat) (file_ : file_arg) : bool :=
  match file_ with
  | Path _ => true
  | Handle h => negb (Nat.eqb handle h)
  end.

(** A generator function with a single [yield], as [contextmanager]
    takes it: the code before the [yield] with the value it yields, the
    code after it, and what the generator does with an exception thrown
    into it at the [yield]. *)
Record generator (S R : Type) : Type := Generator {
  before_yield : M S R;
  after_yield : R → M S unit;
  on_throw : R → exn → M S unit
}.
Arguments Generator {S R}.
Arguments before_yield {S R}.
Arguments after_yield {S R}.
Arguments on_throw {S R}.

(** [with g as r: body]: on normal completion [__exit__] resumes the
    generator after its [yield]; when the body raises, [__exit__] throws
    the exception into the generator and the exception goes on to the
    caller. *)
Definition with_ {S R A} (g : generator S R) (body : R → M S A) : M S A :=
  r <- before_yield g ;;
  λ s, match body r s with
       | (s', Ret a) => (after_yield g r ;; ret a) s'
       | (s', Raise e) => (on_throw g r e ;; raise e) s'
       | (s', OutOfFuel) => (s', OutOfFuel)
       end.

(** [io_handler].  Its [yield] stands outside any [try] statement, so an
    exception thrown in at the [yield] leaves the generator at once. *)
Definition io_handler (file_ : file_arg) (mode : string)
  : generator files nat :=
  {| before_yield :=
       match file_ with
       | Handle h => ret h
       | Path p => open p mode
       end;
     after_yield := λ handle,
       if differs handle file_ then close handle else ret tt;
     on_throw := λ _ e, raise e |}.

(** A file object written to: its [name] attribute, which an in-memory
    buffer lacks, and the text written so far. *)
Record ofile : Type := OFile { name : option string; written : string }.

(** [out.write(text)] *)
Definition write (text : string) (out : ofile) : ofile :=
  {| name := name out; written := written out +:+ text |}.

(** [out.writelines(lines)] *)
Definition writelines (lines : list string) (out : ofile) : ofile :=
  write (py.concat lines) out.

(** [out.name] *)
Definition get_name (out : ofile) : outcome string :=
  match name out with
  | Some n => Ret n
  | None => Raise (AttributeError "name")
  end.

End io.

(** ** The [csv] module of the standard library, as an interface

  [csv_reader delim text] is the list of rows [csv.reader] yields from
  the unread text of a file; [csv_writerow delim row] is the text that
  [writerow] writes with [lineterminator] set to a newline. *)
Class Csv : Type := {
csv_reader : string → string → list (list string);
csv_writerow : string → list string → string
}.

(** [for line in csv.reader(in_file, delimiter=delim)]: the rows left in
  the file.  The rows are taken at once, where the reader of the
  library takes them as the loop asks for them: when the loop runs to
  its end the file is exhausted either way, but when the loop body
  raises, the real file stands after the row being handled and not at
  its end.  The theorems about a failure inside a row loop therefore
  state the exception and the output files, not the position of the
  input file. *)
Definition read_rows `{Csv} (delim : string) : M utils.stream (list (list string)) :=
λ f, ({| utils.buffer := utils.buffer f; utils.unread := EmptyString |},
      Ret (csv_reader delim (utils.unread f))).

(** Rows and the monadic list traversals the pipelines use. *)
Abbreviation row := (list string).

(** [[f(x) for x in l]] where [f] can raise: the first failure ends it. *)
Fixpoint traverse {A B} (f : A → outcome B) (l : list A) : outcome (list B) :=
match l with
| [] => Ret []
| x :: rest =>
    match f x with
    | Ret y =>
        match traverse f rest with
        | Ret ys => Ret (y :: ys)
        | Raise e => Raise e
        | OutOfFuel => OutOfFuel
        end
    | Raise e => Raise e
    | OutOfFuel => OutOfFuel
    end
end.

(** [for x in l: body(x)] *)
Fixpoint for_each {S A} (body : A → M S unit) (l : list A) : M S unit :=
match l with
| [] => ret tt
| x :: rest => body x ;; for_each body rest
end.

(** ** Exceptions beyond those of the pipelines *)

(** What the deprecated helpers of [utils.py] and [get_columns_list]
    raise besides the exceptions above. *)
Inductive error : Type :=
| Builtin (e : exn)
| TypeError (msg : string)
| KeyError (msg : string)
| SyntaxError (msg : string).

Inductive result (A : Type) : Type :=
| Returned (a : A)
| Failed (e : error).
Arguments Returned {A} a.
Arguments Failed {A} e.

(** ** [arffutils/utils.py]: the deprecated helpers *)

Module utils_deprecated.

(** [read_file], on the text of the file. *)
Definition read_file (text : string) : list string := py.splitlines text.

(** [split_rows] *)
Definition split_rows (rows : list string) : list row :=
  py.split_on ","%char <$> rows.

(** [join_rows] *)
Definition join_rows (rows : list row) : list string :=
  py.join "," <$> rows.

(** The loop of [split_on_condition] with its three flags; [str] is
    what [format] makes of an item. *)
Fixpoint split_on_condition_loop {A} (str : A → string)
    (condition_func : A → bool) (in_pre in_mid in_post : bool)
    (pre mid post : list A) (lis_ : list A)
  : result (list A * list A * list A) :=
  match lis_ with
  | [] => Returned (pre, mid, post)
  | item :: rest =>
      if in_pre
      then if condition_func item
           then split_on_condition_loop str condition_func false true in_post
                  pre (mid ++ [item]) post rest
           else split_on_condition_loop str condition_func in_pre in_mid in_post
                  (pre ++ [item]) mid post rest
      else if in_mid
      then if condition_func item
           then split_on_condition_loop str condition_func in_pre in_mid in_post
                  pre (mid ++ [item]) post rest
           else split_on_condition_loop str condition_func in_pre false true
                  pre mid (post ++ [item]) rest
      else if in_post
      then if condition_func item
           then Failed (TypeError
                  ("condition is true in post-condition segment of list on item "
                     +:+ str item))
           else split_on_condition_loop str condition_func in_pre in_mid in_post
                  pre mid (post ++ [item]) rest
      else split_on_condition_loop str condition_func in_pre in_mid in_post
             pre mid post rest
  end.

Definition split_on_condition {A} (str : A → string) (lis_ : list A)
    (condition_func : A → bool) : result (list A * list A * list A) :=
  split_on_condition_loop str condition_func true false false [] [] [] lis_.

(** [separate_arff_headers] with [details=False], on the text of the
    file. *)
Definition separate_arff_headers (text : string)
  : result (list string * list string) :=
  let lines := read_file text in
  match py.list_index "@data" lines with
  | Some pos =>
      let data_pos := (1 + Z.of_nat pos)%Z in
      Returned (py.slice lines None (Some data_pos),
                py.slice lines (Some data_pos) None)
  | None => Failed (Builtin (NotInList "@data"))
  end.

(** [separate_arff_headers] with [details=True]. *)
Definition separate_arff_headers_details (text : string)
  : result (list string * list string * list string * list string) :=
  match separate_arff_headers text with
  | Returned (meta, data) =>
      match split_on_condition id meta (py.startswith "@attribute") with
      | Returned (pre, cols, post) => Returned (pre, cols, post, data)
      | Failed e => Failed e
      end
  | Failed e => Failed e
  end.

(** [get_column_pos_by_name(arff_cols, *wanted_cols)] *)
Definition get_column_pos_by_name (arff_cols : list string)
    (wanted_cols : list string) : result (list nat) :=
  match mapM (λ row, py.item (py.split row) 1) arff_cols with
  | None => Failed (Builtin (IndexError "row.split()[1]"))
  | Some arff_cols =>
      let arff_cols_set : gset string := list_to_set arff_cols in
      let missing :=
        List.filter (λ col, negb (bool_decide (col ∈ arff_cols_set)))
          wanted_cols in
      if bool_decide (missing ≠ [])
      then Failed (KeyError ("Missing column(s): " +:+ py.join ", " missing))
      else
        let wanted_cols : gset string := list_to_set wanted_cols in
        Returned
          (fst <$> List.filter (λ ic, bool_decide (ic.2 ∈ wanted_cols))
                     (py.enumerate arff_cols))
  end.

(** [_delete_specified_positions] *)
Definition _delete_specified_positions {A} (list_ : list A)
    (positions_to_delete : list nat) : list A :=
  snd <$> List.filter (λ ix, negb (bool_decide (ix.1 ∈ positions_to_delete)))
            (py.enumerate list_).

(** [delete_columns] *)
Definition delete_columns (pre cols post data cols_to_delete : list string)
  : result (list string * list string * list string * list string) :=
  match get_column_pos_by_name cols cols_to_delete with
  | Returned indices_to_delete =>
      let new_cols := _delete_specified_positions cols indices_to_delete in
      let new_data :=
        join_rows ((λ row, _delete_specified_positions row indices_to_delete)
                     <$> split_rows data) in
      Returned (pre, new_cols, post, new_data)
  | Failed e => Failed e
  end.

End utils_deprecated.

(** ** [arffutils/arffmerge.py] *)

Module arffmerge.
Section with_csv.
Context `{Csv}.

(** The parsed command line. *)
Record args : Type := Args {
  output_position : Z;
  add_input_position : string;
  main_csv_delim : string;
  add_csv_delim : string;
  output_csv_delim : string;
  main_key_col : Z;
  add_key_col : Z
}.

(** The files of one run and the diagnostic stream, one entry per
    [print(..., file=sys.stderr)]. *)
Record world : Type := World {
  add_file : utils.stream;
  in_file : utils.stream;
  out_file : io.ofile;
  stderr : list string
}.

Definition on_add_file {A} : M utils.stream A → M world A :=
  zoom add_file (λ f w, World f (in_file w) (out_file w) (stderr w)).
Definition on_in_file {A} : M utils.stream A → M world A :=
  zoom in_file (λ f w, World (add_file w) f (out_file w) (stderr w)).
Definition on_out_file (f : io.ofile → io.ofile) : M world unit :=
  modify (λ w, World (add_file w) (in_file w) (f (out_file w)) (stderr w)).
Definition print_stderr (text : string) : M world unit :=
  modify (λ w, World (add_file w) (in_file w) (out_file w) (stderr w ++ [text])).

Definition remove_known_extensions (filename : string) : string :=
  py.sub_known_extension filename.

(** The inner function [get_column_pos] of [parse_additional_cols_args].
    [attr_names.index] raises on an absent name, so the test
    [pos == -1] that follows it in the source never holds. *)
Definition get_column_pos (is_arff : bool) (attr_names : list string)
    (pos_str : string) : outcome Z :=
  match py.int pos_str with
  | Some n => Ret n
  | None =>
      if negb is_arff
      then Raise (ValueError ("can't specify column-pos by name ("
                                +:+ pos_str +:+ ") with non-arff csv"))
      else match py.list_index pos_str attr_names with
           | Some pos => Ret (Z.of_nat pos)
           | None => Raise (NotInList pos_str)
           end
  end.

Definition parse_additional_cols_args (pos_string : string) (is_arff : bool)
    (attr_names : list string) : outcome (Z * option Z) :=
  let pos_pair := py.split_on ":" pos_string in
  match py.index "pos_pair[0]" pos_pair 0 with
  | Ret p0 =>
      match get_column_pos is_arff attr_names p0 with
      | Ret first =>
          match pos_pair with
          | _ :: p1 :: _ =>
              if bool_decide (p1 = EmptyString) then Ret (first, None)
              else match get_column_pos is_arff attr_names p1 with
                   | Ret second => Ret (first, Some second)
                   | Raise e => Raise e
                   | OutOfFuel => OutOfFuel
                   end
          | _ => Ret (first, None)
          end
      | Raise e => Raise e
      | OutOfFuel => OutOfFuel
      end
  | Raise e => Raise e
  | OutOfFuel => OutOfFuel
  end.

(** The dict comprehension [{line[key_col]: line[first:last] for line in
    reader}]. *)
Fixpoint build_add_data (key_col first : Z) (last : option Z)
    (rows : list row) (d : py.dict row) : outcome (py.dict row) :=
  match rows with
  | [] => Ret d
  | line :: rest =>
      match py.index "line[key_col]" line key_col with
      | Ret k =>
          build_add_data key_col first last rest
            (py.dict_set k (py.slice line (Some first) last) d)
      | Raise e => Raise e
      | OutOfFuel => OutOfFuel
      end
  end.

Definition get_additional_csv (fuel : nat) (a : args)
  : M world (list string * py.dict row) :=
  md <- on_add_file (utils.get_metadata_if_arff fuel) ;;
  r <- lift (parse_additional_cols_args (add_input_position a)
               (utils.is_arff md) (utils.attr_names md)) ;;
  let '(first, last) := r in
  let add_attr_lines := py.slice (utils.attr_lines md) (Some first) last in
  rows <- on_add_file (read_rows (add_csv_delim a)) ;;
  add_data <- lift (build_add_data (add_key_col a) first last rows []) ;;
  ret (add_attr_lines, add_data).

Definition get_data_width (dict_of_lists : py.dict row) : outcome Z :=
  match py.index "get_data_width" (py.dict_values dict_of_lists) 0 with
  | Ret first_row => Ret (Z.of_nat (length first_row))
  | Raise e => Raise e
  | OutOfFuel => OutOfFuel
  end.

Definition handle_arff_headers (fuel : nat) (add_attr_lines : list string)
    (output_pos : Z) : M world bool :=
  md <- on_in_file (utils.get_metadata_if_arff fuel) ;;
  attr_lines <-
    (if bool_decide (utils.attr_lines md ≠ [])
        && bool_decide (add_attr_lines ≠ [])
     then ret (py.slice (utils.attr_lines md) None (Some output_pos)
                 ++ add_attr_lines
                 ++ py.slice (utils.attr_lines md) (Some output_pos) None)
     else print_stderr "Warning: merging non-arff csv into arff; you'll need to hand-edit the metadata." ;;
          ret (utils.attr_lines md)) ;;
  out_name <- (λ w, (w, io.get_name (out_file w))) ;;
  on_out_file (io.writelines
    (utils.create_metadata_rows
       (remove_known_extensions (py.basename out_name)) attr_lines)) ;;
  ret (utils.is_arff md).

(** One turn of the loop [for line in reader] of [read_add_write]. *)
Definition merge_line (a : args) (add_data : py.dict row) (missing : row)
    (line : row) : M world unit :=
  inv_id <- lift (py.index "line[key_col]" line (main_key_col a)) ;;
  line_to_add <-
    match py.dict_get inv_id add_data with
    | Some found => ret found
    | None =>
        print_stderr ("Warning: key " +:+ inv_id
                        +:+ " does not have additional data row") ;;
        ret missing
    end ;;
  let output_line :=
    py.slice line None (Some (output_position a))
      ++ line_to_add
      ++ py.slice line (Some (output_position a)) None in
  on_out_file (io.write (csv_writerow (output_csv_delim a) output_line)).

(** The body of the [with] statement of [read_add_write], on the open
    file objects. *)
Definition read_add_write (fuel : nat) (a : args)
    (add_attr_lines : list string) (add_data : py.dict row) : M world unit :=
  is_arff <- handle_arff_headers fuel add_attr_lines (output_position a) ;;
  width <- lift (get_data_width add_data) ;;
  let missing :=
    replicate (Z.to_nat width) (if is_arff : bool then "?" else "") in
  rows <- on_in_file (read_rows (main_csv_delim a)) ;;
  for_each (merge_line a add_data missing) rows.

Definition main_with_args (fuel : nat) (a : args) : M world unit :=
  r <- get_additional_csv fuel a ;;
  let '(add_attr_lines, add_data) := r in
  read_add_write fuel a add_attr_lines add_data.

End with_csv.
End arffmerge.

(** ** [arffutils/arffselect.py] *)

Module arffselect.
Section with_csv.
Context `{Csv}.

Record world : Type := World { in_ : utils.stream; out_ : io.ofile }.

Definition on_in {A} : M utils.stream A → M world A :=
  zoom in_ (λ f w, World f (out_ w)).
Definition on_out (f : io.ofile → io.ofile) : M world unit :=
  modify (λ w, World (in_ w) (f (out_ w))).

Definition remove_known_file_extensions (filename : string) : string :=
  py.sub_known_extension filename.

Definition get_column_to_select (col_str : string) (is_arff : bool)
    (attr_names : list string) : outcome Z :=
  match py.int col_str with
  | Some n => Ret n
  | None =>
      if negb is_arff
      then Raise (ValueError ("can't specify column-pos by name ("
                                +:+ col_str +:+ ") with non-arff csv"))
      else match py.list_index col_str attr_names with
           | Some pos => Ret (Z.of_nat pos)
           | None => Raise (ValueError
                              (col_str +:+ " is not a valid column in the csv/arff"))
           end
  end.

Definition handle_metadata_and_get_columns (fuel : nat)
    (col_strs_to_select : list string) : M world (list Z) :=
  md <- on_in (utils.get_metadata_if_arff fuel) ;;
  cols_to_select <-
    lift (traverse (λ col_str, get_column_to_select col_str
                                 (utils.is_arff md) (utils.attr_names md))
            col_strs_to_select) ;;
  (if utils.is_arff md
   then attr_lines_to_select <-
          lift (traverse (py.index "attr_lines[i]" (utils.attr_lines md))
                  cols_to_select) ;;
        out <- gets out_ ;;
        let name :=
          match io.name out with
          | Some n => remove_known_file_extensions (py.basename n)
          | None => "output"
          end in
        on_out (io.writelines
                  (utils.create_metadata_rows name attr_lines_to_select))
   else ret tt) ;;
  ret cols_to_select.

(** One turn of the loop [for line in reader] of [select]. *)
Definition select_line (output_csv_delim : string) (cols_to_select : list Z)
    (line : row) : M world unit :=
  output_line <- lift (traverse (py.index "line[i]" line) cols_to_select) ;;
  on_out (io.write (csv_writerow output_csv_delim output_line)).

(** The body of the [with] statement of [select], on the open file
    objects. *)
Definition select (fuel : nat) (col_strs_to_select : list string)
    (input_csv_delim output_csv_delim : string) : M world unit :=
  cols_to_select <- handle_metadata_and_get_columns fuel col_strs_to_select ;;
  rows <- on_in (read_rows input_csv_delim) ;;
  for_each (select_line output_csv_delim cols_to_select) rows.

(** [get_columns_list]: [columns] is the list given on the command line,
    if any; [config_file] is the text of the config file, if one was
    named. *)
Definition get_columns_list (columns : option (list string))
    (config_file : option string) : result (list string) :=
  match columns with
  | Some cols => Returned cols
  | None =>
      match config_file with
      | Some config => Returned (py.re_split_spaces (py.strip config))
      | None =>
          Failed (SyntaxError
            "Dude, don't confuse me by giving both -n (--columns) and -f (--config-file).")
      end
  end.

End with_csv.
End arffselect.

(** ** [arffutils/arffsplit.py] *)

Module arffsplit.
Section with_csv.
Context `{Csv}.

(** What [split_file] prints on standard output. *)
Inductive printed : Type :=
| Progress (i : N)     (* [print(i, "...", end="")] *)
| Done.                (* [print("done!")] *)

Record world : Type := World {
  in_file : utils.stream;
  out_files : list io.ofile;
  rmdr_file : io.ofile;
  stdout : list printed
}.

Definition on_in_file {A} : M utils.stream A → M world A :=
  zoom in_file (λ f w, World f (out_files w) (rmdr_file w) (stdout w)).
Definition on_rmdr (f : io.ofile → io.ofile) : M world unit :=
  modify (λ w, World (in_file w) (out_files w) (f (rmdr_file w)) (stdout w)).
Definition print (p : printed) : M world unit :=
  modify (λ w, World (in_file w) (out_files w) (rmdr_file w) (stdout w ++ [p])).

(** [writers[index].writerow(line)] *)
Definition writer_writerow (delimiter : string) (index : nat) (line : row)
  : M world unit :=
  λ w, match out_files w !! index with
       | Some out =>
           (World (in_file w)
              (<[index := io.write (csv_writerow delimiter line) out]>
                 (out_files w))
              (rmdr_file w) (stdout w), Ret tt)
       | None => (w, Raise (IndexError "writers[index]"))
       end.

Definition remove_known_extensions (filename : string) : string :=
  py.sub_known_extension filename.

(** The loop [for out_file in out_files] of [copy_metadata_if_arff]. *)
Fixpoint write_headers (attr_lines : list string) (outs : list io.ofile)
  : list io.ofile * outcome unit :=
  match outs with
  | [] => ([], Ret tt)
  | out_file :: rest =>
      match io.get_name out_file with
      | Ret n =>
          let rel_name := remove_known_extensions (py.basename n) in
          let out_file' :=
            io.writelines (utils.create_metadata_rows rel_name attr_lines)
              out_file in
          let '(rest', r) := write_headers attr_lines rest in
          (out_file' :: rest', r)
      | Raise e => (outs, Raise e)
      | OutOfFuel => (outs, OutOfFuel)
      end
  end.

(** [copy_metadata_if_arff(in_file, out_files + [rmdr_file])]: the list
    holds the output file objects followed by the remainder file
    object. *)
Definition copy_metadata_if_arff (fuel : nat) : M world unit :=
  md <- on_in_file (utils.get_metadata_if_arff fuel) ;;
  if utils.is_arff md
  then λ w,
    let '(outs', r) :=
      write_headers (utils.attr_lines md) (out_files w ++ [rmdr_file w]) in
    (World (in_file w)
       (take (length (out_files w)) outs')
       (default (rmdr_file w) (last outs'))
       (stdout w), r)
  else ret tt.

(** The loop [for index, key_set in enumerate(key_sets)]; returns
    [written]. *)
Fixpoint write_to_sets (delimiter : string) (key_ : string) (line : row)
    (index : nat) (key_sets : list (gset string)) (written : bool)
  : M world bool :=
  match key_sets with
  | [] => ret written
  | key_set :: rest =>
      if bool_decide (key_ ∈ key_set)
      then writer_writerow delimiter index line ;;
           write_to_sets delimiter key_ line (S index) rest true
      else write_to_sets delimiter key_ line (S index) rest written
  end.

(** The loop [for i, line in enumerate(reader)] of [split_file]. *)
Fixpoint split_rows (delimiter : string) (key_column : Z)
    (key_sets : list (gset string)) (i : N) (rows : list row)
  : M world unit :=
  match rows with
  | [] => ret tt
  | line :: rest =>
      (if (i mod 500000 =? 0)%N then print (Progress i) else ret tt) ;;
      key_ <- lift (py.index "line[key_column]" line key_column) ;;
      written <- write_to_sets delimiter key_ line 0 key_sets false ;;
      (if negb written
       then on_rmdr (io.write (csv_writerow delimiter line))
       else ret tt) ;;
      split_rows delimiter key_column key_sets (i + 1)%N rest
  end.

Definition split_file (delimiter : string) (rows : list row)
    (key_column : Z) (key_sets : list (gset string)) : M world unit :=
  split_rows delimiter key_column key_sets 0%N rows ;;
  print Done.

(** The body of the [with] statement of [set_up_and_do_split], on the
    open file objects. *)
Definition set_up_and_do_split (fuel : nat) (delimiter : string)
    (key_column_in_main_csv : Z) (key_sets : list (gset string))
  : M world unit :=
  copy_metadata_if_arff fuel ;;
  rows <- on_in_file (read_rows delimiter) ;;
  split_file delimiter rows key_column_in_main_csv key_sets.

(** The comprehension [[line[key_column] for line in reader if line]] of
    [read_set]. *)
Fixpoint read_set_keys (key_column : Z) (rows : list row)
  : outcome (list string) :=
  match rows with
  | [] => Ret []
  | line :: rest =>
      if bool_decide (line = [])
      then read_set_keys key_column rest
      else match py.index "line[key_column]" line key_column with
           | Ret k =>
               match read_set_keys key_column rest with
               | Ret ks => Ret (k :: ks)
               | Raise e => Raise e
               | OutOfFuel => OutOfFuel
               end
           | Raise e => Raise e
           | OutOfFuel => OutOfFuel
           end
  end.

(** The inner function [read_set] of [read_key_sets], on the text of
    the key-set file. *)
Definition read_set (key_column : Z) (delimiter : string) (file_ : string)
  : outcome (gset string) :=
  match read_set_keys key_column (csv_reader delimiter file_) with
  | Ret ks => Ret (list_to_set ks)
  | Raise e => Raise e
  | OutOfFuel => OutOfFuel
  end.

Definition read_key_sets (key_set_files : list string) (key_column : Z)
    (delimiter : string) : outcome (list (gset string)) :=
  traverse (read_set key_column delimiter) key_set_files.

(** [main_with_args], with the parsed arguments spelled out and the
    key-set files given by their texts. *)
Definition main_with_args (fuel : nat) (delimiter : string)
    (key_column_in_main_csv key_column_in_sets : Z)
    (delimiter_in_sets : string) (set_files : list string) : M world unit :=
  key_sets <- lift (read_key_sets set_files key_column_in_sets
                      delimiter_in_sets) ;;
  set_up_and_do_split fuel delimiter key_column_in_main_csv key_sets.

End with_csv.
End arffsplit.

(** ** A delimited-text dialect without quoting

  What [csv] reads and writes when no field holds a quote character,
  the delimiter or a line break: a row is its fields joined by the
  delimiter, an empty line is the empty row.  The reader here is for
  texts without quote characters only. *)
Module plain.

Definition delim_char (delim : string) : ascii :=
  match delim with String c _ => c | EmptyString => ","%char end.

(** The lines of a text without their terminators. *)
Definition lines (text : string) : list string :=
  let ls := py.split_on py.newline text in
  if bool_decide (last ls = Some EmptyString) then removelast ls else ls.

Definition reader (delim : string) (text : string) : list row :=
  (λ l, if bool_decide (l = EmptyString) then []
        else py.split_on (delim_char delim) l) <$> lines text.

(** The row that holds one empty field is the exception to the rule:
    the writer quotes it, to tell it from the empty row. *)
Definition writerow (delim : string) (fields : row) : string :=
  (if bool_decide (fields = [EmptyString])
   then String py.dquote (String py.dquote EmptyString)
   else py.join delim fields) +:+ py.nl.

Definition csv : Csv :=
  {| csv_reader := reader; csv_writerow := writerow |}.

End plain.

(** ** Vocabulary of the statements *)

(** The text made of the given lines, each ended by a newline. *)
Definition text (lines : list string) : string :=
  py.concat ((λ l, l +:+ py.nl) <$> lines).

(** The text [writerow] produces for a list of rows, one after the
    other. *)
Definition rows_text `{Csv} (delim : string) (rows : list row) : string :=
  py.concat (csv_writerow delim <$> rows).

(** The row has a key column and its key is in the set. *)
Definition key_in (key_column : Z) (key_set : gset string) (line : row) : bool :=
  match py.item line key_column with
  | Some k => bool_decide (k ∈ key_set)
  | None => false
  end.

(** The key of the row is in none of the sets. *)
Definition key_in_none (key_column : Z) (key_sets : list (gset string))
    (line : row) : bool :=
  negb (existsb (λ key_set, key_in key_column key_set line) key_sets).

(** The header Split writes to an output file: the relation is named
    after the file. *)
Definition split_header (attr_lines : list string) (out : io.ofile) : string :=
  py.concat
    (utils.create_metadata_rows
       (arffsplit.remove_known_extensions
          (py.basename (default EmptyString (io.name out))))
       attr_lines).

(** The later state of an output file holds the earlier text and, after
    it, what was written since. *)
Definition extends (out out' : io.ofile) : Prop :=
  io.name out' = io.name out
  ∧ ∃ tail, io.written out' = io.written out +:+ tail.

(** Every output file of the later world extends its earlier state. *)
Definition grows (w w' : arffsplit.world) : Prop :=
  Forall2 extends (arffsplit.out_files w) (arffsplit.out_files w')
  ∧ extends (arffsplit.rmdr_file w) (arffsplit.rmdr_file w').

(** The warning Merge prints for a key without additional data. *)
Definition missing_key_warning (key_ : string) : string :=
  "Warning: key " +:+ key_ +:+ " does not have additional data row".

(** The text holds no line break. *)
Fixpoint no_newline (s : string) : bool :=
  match s with
  | String c r => negb (Ascii.eqb c py.newline) && no_newline r
  | EmptyString => true
  end.

(** A line as the scanner keeps it: one line, nothing to strip. *)
Definition plain_line (l : string) : Prop :=
  no_newline l = true ∧ py.strip l = l.

(** A line the scanner takes for the relation line. *)
Definition relation_line (l : string) : Prop :=
  plain_line l ∧ utils.relation l = true.

(** A line the scanner takes for the declaration of attribute [name]. *)
Definition attribute_line (l name : string) : Prop :=
  plain_line l ∧ utils.attribute l = true
  ∧ py.item (py.split l) 1 = Some name.

(** The relation name Select gives its output. *)
Definition select_name (out : io.ofile) : string :=
  match io.name out with
  | Some n => arffselect.remove_known_file_extensions (py.basename n)
  | None => "output"
  end.


(** What Split adds for one row to the output file paired with a key
    set. *)
Definition split_row `{Csv} (delimiter : string) (key_column : Z) (line : row)
    (out : io.ofile) (key_set : gset string) : io.ofile :=
  if key_in key_column key_set line
  then io.write (csv_writerow delimiter line) out else out.

(** The row Merge writes for a primary row with key [key_]. *)
Definition merged_row (output_pos : Z) (add_data : py.dict row) (missing : row)
    (line : row) (key_ : string) : row :=
  py.slice line None (Some output_pos)
    ++ default missing (py.dict_get key_ add_data)
    ++ py.slice line (Some output_pos) None.

(** The text holds a dot. *)
Fixpoint has_dot (s : string) : bool :=
  match s with
  | String c r => Ascii.eqb c "."%char || has_dot r
  | EmptyString => false
  end.

(** The character occurs in the text. *)
Fixpoint contains (c : ascii) (s : string) : bool :=
  match s with
  | String d r => Ascii.eqb d c || contains c r
  | EmptyString => false
  end.

(** What is left of a list laid out like the columns [names] once the
    columns named in [to_delete] are gone. *)
Definition keep_columns {A} (names to_delete : list string) (l : list A)
  : list A :=
  fst <$> List.filter (λ xn, negb (bool_decide (xn.2 ∈ to_delete)))
            (zip l names).

(** The first [n] lines [readline] gives from a text, each with its
    terminator, and what is left unread after them. *)
Fixpoint readlines (n : nat) (s : string) : list string * string :=
  match n with
  | O => ([], s)
  | S n' =>
      let '(l, r) := utils.cut_line s in
      let '(ls, r') := readlines n' r in
      (l :: ls, r')
  end.

(** The extensions the tools know. *)
Definition known_extensions : list string := ["arff"; "csv"; "txt"].

(** The text ends, after at least one character, in one of the three
    words, a last newline apart. *)
Fixpoint ends_in_known_word (s : string) : bool :=
  match s with
  | String _ r =>
      bool_decide (r ∈ known_extensions
                         ++ ((λ e, e +:+ py.nl) <$> known_extensions))
      || ends_in_known_word r
  | EmptyString => false
  end.

(** The file name [n] stands for the relation [stem]: its base name is
    [stem] followed by a dot and a known extension, or it is [stem]
    itself and does not end in one of the three words. *)
Definition names_relation (n stem : string) : Prop :=
  (∃ e, e ∈ known_extensions ∧ py.basename n = stem +:+ "." +:+ e)
  ∨ (py.basename n = stem ∧ ends_in_known_word stem = false).

(** The file object has a name, and it stands for the relation [stem]. *)
Definition file_named (out : io.ofile) (stem : string) : Prop :=
  ∃ n, io.name out = Some n ∧ names_relation n stem.


(** * Properties *)

(** ** Appending texts *)

Lemma string_app_cons c (s t : string) : String c s +:+ t = String c (s +:+ t).
Proof. reflexivity. Qed.

Lemma string_app_nil_r (s : string) : s +:+ "" = s.
Proof. induction s as [|c s IH]; [done|]. by rewrite string_app_cons, IH. Qed.

Lemma string_app_assoc (s t u : string) : (s +:+ t) +:+ u = s +:+ (t +:+ u).
Proof.
  induction s as [|c s IH]; [done|]. by rewrite !string_app_cons, IH.
Qed.

(** ** The scenarios of the test suite *)

(** [test_get_metadata_works_on_arff] *)
Example test_get_metadata_works_on_arff :
  utils.get_metadata_if_arff 9
    (utils.from_text
       (text ["% comment"; "@relation foo"; ""; "@attribute a {A,B,C}"; "";
              "@attribute b {D,E,F}"; ""; "@data"; "A,D"; "% comment"; "B,E";
              "C,F"]))
  = (utils.Stream
       (text ["% comment"; "@relation foo"; ""; "@attribute a {A,B,C}"; "";
              "@attribute b {D,E,F}"; ""; "@data"; "A,D"; "% comment"; "B,E";
              "C,F"])
       (text ["A,D"; "% comment"; "B,E"; "C,F"]),
     Ret (utils.Metadata true ["a"; "b"]
            ["@attribute a {A,B,C}"; "@attribute b {D,E,F}"]
            ["% comment"; "@relation foo"; ""; "@attribute a {A,B,C}"; "";
             "@attribute b {D,E,F}"; ""; "@data"])).
Proof. reflexivity. Qed.

(** [test_get_metadata_works_on_nonarff_csv] *)
Example test_get_metadata_works_on_nonarff_csv :
  utils.get_metadata_if_arff 9 (utils.from_text (text ["A,D"; "B,E"; "C,F"]))
  = (utils.from_text (text ["A,D"; "B,E"; "C,F"]),
     Ret (utils.Metadata false [] [] [])).
Proof. reflexivity. Qed.

(** [test_col_swap] *)
Example test_col_swap :
  @arffselect.select plain.csv 9 ["col2"; "col1"] "," ","
    (arffselect.World
       (utils.from_text
          (text ["@relation foo"; ""; "@attribute col0 numeric";
                 "@attribute col1 numeric"; "@attribute col2 numeric"; "";
                 "@data"; "1,2,5"; "3,4,6"]))
       (io.OFile None EmptyString))
  = (arffselect.World
       (utils.Stream
          (text ["@relation foo"; ""; "@attribute col0 numeric";
                 "@attribute col1 numeric"; "@attribute col2 numeric"; "";
                 "@data"; "1,2,5"; "3,4,6"])
          EmptyString)
       (io.OFile None
          (text ["@relation output"; ""; "@attribute col2 numeric";
                 "@attribute col1 numeric"; ""; "@data"; "5,2"; "6,4"])),
     Ret tt).
Proof. reflexivity. Qed.

(** The example of the module docstring of [arffmerge]. *)
Example arffmerge_docstring :
  (@arffmerge.main_with_args plain.csv 9
     (arffmerge.Args (-1) "add_col:target" "," "," "," 0 0)
     (arffmerge.World
        (utils.from_text
           (text ["@relation additional_input_cols";
                  "@attribute key_col numeric"; "@attribute add_col numeric";
                  "@attribute target {a,b}"; "@data";
                  "1,11,a"; "2,12,b"; "3,13,a"]))
        (utils.from_text
           (text ["@relation main"; "@attribute key_col numeric";
                  "@attribute target {true,false}"; "@data";
                  "1,true"; "2,false"]))
        (io.OFile (Some "output.arff") EmptyString) [])).1
  = arffmerge.World
      (utils.Stream
         (text ["@relation additional_input_cols";
                "@attribute key_col numeric"; "@attribute add_col numeric";
                "@attribute target {a,b}"; "@data";
                "1,11,a"; "2,12,b"; "3,13,a"])
         EmptyString)
      (utils.Stream
         (text ["@relation main"; "@attribute key_col numeric";
                "@attribute target {true,false}"; "@data";
                "1,true"; "2,false"])
         EmptyString)
      (io.OFile (Some "output.arff")
         (text ["@relation output"; ""; "@attribute key_col numeric";
                "@attribute add_col numeric"; "@attribute target {true,false}";
                ""; "@data"; "1,11,true"; "2,12,false"]))
      [].
Proof. reflexivity. Qed.

(** ** Extension stripping *)

(** Where the pattern does what its docstring says. *)
Example remove_known_extensions_examples :
  py.sub_known_extension <$> ["a.arff"; "b.csv"; "c.txt"; "x.csv.csv"; "a.CSV";
                              "a.txt.bak"; "csv"]
  = ["a"; "b"; "c"; "x.csv"; "a.CSV"; "a.txt.bak"; "csv"].
Proof. reflexivity. Qed.

Lemma ext_end_no_dot s tail : py.ext_end s = Some tail → has_dot s = false.
Proof.
  unfold py.ext_end.
  destruct (bool_decide (s ∈ ["arff"; "csv"; "txt"])) eqn:H1.
  - apply bool_decide_eq_true in H1. intros _.
    repeat (apply elem_of_cons in H1 as [->|H1]; [reflexivity|]).
    by apply elem_of_nil in H1.
  - clear H1.
    destruct (bool_decide (s ∈ _)) eqn:H2; [|done].
    apply bool_decide_eq_true in H2. intros _. simpl in H2.
    repeat (apply elem_of_cons in H2 as [->|H2]; [reflexivity|]).
    by apply elem_of_nil in H2.
Qed.

Lemma has_dot_app s t : has_dot (s +:+ "." +:+ t) = true.
Proof.
  induction s as [|c s IH]; [done|].
  rewrite string_app_cons. simpl. by rewrite IH, orb_true_r.
Qed.

(** A trailing [.arff], [.csv] or [.txt] is removed, once, whatever
    comes before it. *)
Lemma sub_known_extension_strips_dot_extension s e :
  e ∈ ["arff"; "csv"; "txt"] →
  py.sub_known_extension (s +:+ "." +:+ e) = s.
Proof.
  intros He. induction s as [|c s IH].
  - repeat (apply elem_of_cons in He as [->|He]; [reflexivity|]).
    by apply elem_of_nil in He.
  - rewrite string_app_cons. simpl.
    destruct (py.ext_end (s +:+ "." +:+ e)) as [tail|] eqn:Hend.
    + apply ext_end_no_dot in Hend. by rewrite has_dot_app in Hend.
    + rewrite IH. by destruct (Ascii.eqb c py.newline).
Qed.

(** A name that does not end in one of the three words is left as it
    is. *)
Lemma sub_known_extension_no_word s :
  ends_in_known_word s = false → py.sub_known_extension s = s.
Proof.
  induction s as [|c s IH]; [done|].
  change (ends_in_known_word (String c s))
    with (bool_decide (s ∈ known_extensions
                           ++ ((λ e, e +:+ py.nl) <$> known_extensions))
          || ends_in_known_word s).
  intros [Hword Hrest]%orb_false_iff.
  apply bool_decide_eq_false in Hword.
  assert (Hend : py.ext_end s = None).
  { unfold py.ext_end.
    rewrite bool_decide_eq_false_2
      by (intros Hin; apply Hword, elem_of_app; by left).
    rewrite bool_decide_eq_false_2
      by (intros Hin; apply Hword, elem_of_app; by right).
    done. }
  simpl. rewrite Hend, (IH Hrest). by destruct (Ascii.eqb c py.newline).
Qed.

(** On the names that stand for a relation the pattern does what its
    docstring says. *)
Lemma names_relation_stem n stem :
  names_relation n stem → py.sub_known_extension (py.basename n) = stem.
Proof.
  intros [(e & He & ->) | [-> Hword]].
  - by apply sub_known_extension_strips_dot_extension.
  - by apply sub_known_extension_no_word.
Qed.

(** C8: the pattern of [remove_known_extensions] begins with an unescaped
    dot, which stands for any character, so a base name that ends in none
    of [.arff], [.csv], [.txt] is still cut: [datacsv] becomes [dat] in
    all three modules. *)
Theorem remove_known_extensions_cuts_undotted_name :
  arffmerge.remove_known_extensions "datacsv" = "dat"
  ∧ arffselect.remove_known_file_extensions "datacsv" = "dat"
  ∧ arffsplit.remove_known_extensions "datacsv" = "dat".
Proof. repeat split; reflexivity. Qed.

(** ** The scanner, one step at a time *)

Lemma read_metadata_done fuel line names lines all f :
  utils.datameta line = true →
  utils.read_metadata (S fuel) line names lines all f = (f, Ret (names, lines, all)).
Proof. intros Hd. simpl. by rewrite Hd. Qed.

Lemma read_metadata_other fuel line names lines all f l r :
  utils.datameta line = false →
  utils.cut_line (utils.unread f) = (l, r) →
  utils.attribute (py.strip l) = false →
  utils.read_metadata (S fuel) line names lines all f
  = utils.read_metadata fuel (py.strip l) names lines (all ++ [py.strip l])
      (utils.Stream (utils.buffer f) r).
Proof.
  intros Hd Hcut Ha. simpl. rewrite Hd.
  unfold bind, utils.readline. rewrite Hcut, Ha. reflexivity.
Qed.

Lemma read_metadata_attribute fuel line names lines all f l r name :
  utils.datameta line = false →
  utils.cut_line (utils.unread f) = (l, r) →
  utils.attribute (py.strip l) = true →
  py.index "line.split()[1]" (py.split (py.strip l)) 1 = Ret name →
  utils.read_metadata (S fuel) line names lines all f
  = utils.read_metadata fuel (py.strip l) (names ++ [name])
      (lines ++ [py.strip l]) (all ++ [py.strip l])
      (utils.Stream (utils.buffer f) r).
Proof.
  intros Hd Hcut Ha Hn. simpl. rewrite Hd.
  unfold bind, utils.readline, lift. rewrite Hcut, Ha, Hn. reflexivity.
Qed.

Lemma skip_comments_stop fuel line all f :
  utils.comment line || utils.empty line = false →
  utils.skip_comments (S fuel) line all f = (f, Ret (line, all)).
Proof. intros Hs. simpl. by rewrite Hs. Qed.

Lemma get_metadata_if_arff_relation fuel f l r f1 line all :
  utils.cut_line (utils.unread f) = (l, r) →
  utils.skip_comments fuel (py.strip l) [] (utils.Stream (utils.buffer f) r)
  = (f1, Ret (line, all)) →
  utils.relation line = true →
  utils.get_metadata_if_arff fuel f
  = match utils.read_metadata fuel line [] [] (all ++ [line]) f1 with
    | (f2, Ret (names, lines, all')) =>
        (f2, Ret (utils.Metadata true names lines all'))
    | (f2, Raise e) => (f2, Raise e)
    | (f2, OutOfFuel) => (f2, OutOfFuel)
    end.
Proof.
  intros Hcut Hskip Hrel.
  unfold utils.get_metadata_if_arff, bind, utils.readline.
  rewrite Hcut, Hskip, Hrel.
  destruct (utils.read_metadata _ _ _ _ _ _) as [f2 [[[names lines] all']| |]];
    reflexivity.
Qed.

Lemma get_metadata_if_arff_other fuel f l r f1 line all :
  utils.cut_line (utils.unread f) = (l, r) →
  utils.skip_comments fuel (py.strip l) [] (utils.Stream (utils.buffer f) r)
  = (f1, Ret (line, all)) →
  utils.relation line = false →
  utils.get_metadata_if_arff fuel f
  = (utils.Stream (utils.buffer f1) (utils.buffer f1),
     Ret (utils.Metadata false [] [] all)).
Proof.
  intros Hcut Hskip Hrel.
  unfold utils.get_metadata_if_arff, bind, utils.readline.
  rewrite Hcut, Hskip, Hrel. reflexivity.
Qed.

(** ** The scanner at the end of the file *)

Lemma read_metadata_at_eof fuel line names lines all buf :
  utils.datameta line = false →
  utils.read_metadata fuel line names lines all (utils.Stream buf EmptyString)
  = (utils.Stream buf EmptyString, OutOfFuel).
Proof.
  revert line names lines all.
  induction fuel as [|fuel IH]; intros line names lines all Hline; [done|].
  erewrite read_metadata_other; [|done|reflexivity|reflexivity].
  apply IH. reflexivity.
Qed.

(** C5: on the finite stream holding the single line [@relation foo] the
    scanner returns for no iteration budget: once the file is exhausted
    [readline] keeps answering the empty string, which never matches
    [@data]. *)
Theorem get_metadata_if_arff_loops_without_data :
  ∀ fuel,
    (utils.get_metadata_if_arff fuel (utils.from_text (text ["@relation foo"]))).2
    = OutOfFuel.
Proof.
  intros [|fuel]; [reflexivity|].
  erewrite get_metadata_if_arff_relation; [|reflexivity..].
  erewrite read_metadata_other; [|reflexivity..].
  by rewrite read_metadata_at_eof.
Qed.

(** ** [io_handler] *)

Lemma io_handler_returns_callers_handle {A} h mode (body : nat → M io.files A) σ :
  io.with_ (io.io_handler (io.Handle h) mode) body σ = body h σ.
Proof.
  unfold io.with_, bind; simpl.
  destruct (body h σ) as [σ' [a| |]]; try reflexivity.
  unfold bind. simpl. by rewrite Nat.eqb_refl.
Qed.

Lemma io_handler_closes_own_handle_on_return {A} p mode
    (body : nat → M io.files A) σ σ' a :
  body (io.fresh σ) (io.Files ({[io.fresh σ]} ∪ io.opened σ) (S (io.fresh σ)))
  = (σ', Ret a) →
  io.with_ (io.io_handler (io.Path p) mode) body σ
  = (io.Files (io.opened σ' ∖ {[io.fresh σ]}) (io.fresh σ'), Ret a).
Proof.
  intros Hbody. unfold io.with_, bind; simpl. rewrite Hbody. reflexivity.
Qed.

(** C4: [io_handler] given a path opens a handle; when the enclosed body
    raises, the [with] statement ends with that exception and the handle
    is still among the open ones: the [close] after the [yield] is not
    reached. *)
Theorem io_handler_leaves_own_handle_open_on_error :
  ∀ (p mode : string) (e : exn) (σ : io.files),
    ∃ σ', io.with_ (io.io_handler (io.Path p) mode)
            (λ _, raise (A := unit) e) σ = (σ', Raise e)
          ∧ io.fresh σ ∈ io.opened σ'.
Proof.
  intros p mode e σ. eexists. split; [reflexivity|].
  simpl. set_solver.
Qed.

(** ** Indexing *)

Lemma index_item {A} site (l : list A) i x :
  py.item l i = Some x → py.index site l i = Ret x.
Proof. unfold py.index. by intros ->. Qed.

Lemma item_head {A} (x : A) l : py.item (x :: l) 0 = Some x.
Proof. reflexivity. Qed.

(** ** Column resolution *)

Lemma list_index_None x l : py.list_index x l = None ↔ x ∉ l.
Proof.
  induction l as [|y l IH]; simpl.
  - split; [intros _; apply not_elem_of_nil | done].
  - rewrite not_elem_of_cons. destruct (String.eqb_spec y x) as [->|Hne].
    + split; [done | intros [? _]; done].
    + destruct (py.list_index x l); simpl.
      * split; [done | intros [_ Hl]; by apply IH in Hl].
      * split; [intros _; split; [congruence | by apply IH] | done].
Qed.

(** A comprehension raises what its first failing element raises. *)
Lemma traverse_first_raise {A B} (f : A → outcome B) pre x post e :
  Forall (λ y, ∃ b, f y = Ret b) pre →
  f x = Raise e →
  traverse f (pre ++ x :: post) = Raise e.
Proof.
  intros Hpre Hx. induction Hpre as [|y pre [b Hb] _ IH]; simpl.
  - by rewrite Hx.
  - by rewrite Hb, IH.
Qed.

(** C7: a spec that [int] parses resolves to that integer for ARFF and
    plain inputs alike; a spec that [int] does not parse fails with the
    "can't specify column-pos by name" error against a plain input and
    with a name-not-found error when the ARFF header lacks it (the
    ValueError of [get_column_to_select] in Select, the ValueError of
    [list.index] in Merge), and resolves to the first position of the
    name when the header has it; such a failure ends Select and Merge
    with the output file as it was, nothing written.  In Merge both
    ends of a range [first:second] are resolved in this way, the first
    before the second; a range without a second end has none. *)
Theorem column_resolution :
  (∀ s n is_arff names,
     py.int s = Some n →
     arffselect.get_column_to_select s is_arff names = Ret n
     ∧ arffmerge.get_column_pos is_arff names s = Ret n)
  ∧ (∀ s names,
       py.int s = None →
       arffselect.get_column_to_select s false names
       = Raise (ValueError ("can't specify column-pos by name (" +:+ s
                              +:+ ") with non-arff csv"))
       ∧ arffmerge.get_column_pos false names s
         = Raise (ValueError ("can't specify column-pos by name (" +:+ s
                                +:+ ") with non-arff csv")))
  ∧ (∀ s names,
       py.int s = None → s ∉ names →
       arffselect.get_column_to_select s true names
       = Raise (ValueError (s +:+ " is not a valid column in the csv/arff"))
       ∧ arffmerge.get_column_pos true names s = Raise (NotInList s))
  ∧ (∀ (C : Csv) fuel pre s post input_delim output_delim w f' md e,
       utils.get_metadata_if_arff fuel (arffselect.in_ w) = (f', Ret md) →
       Forall (λ s', ∃ n, arffselect.get_column_to_select s'
                            (utils.is_arff md) (utils.attr_names md) = Ret n) pre →
       arffselect.get_column_to_select s (utils.is_arff md) (utils.attr_names md)
       = Raise e →
       arffselect.select fuel (pre ++ s :: post) input_delim output_delim w
       = (arffselect.World f' (arffselect.out_ w), Raise e))
  ∧ (∀ pos_string is_arff names first rest e,
       py.split_on ":" pos_string = first :: rest →
       arffmerge.get_column_pos is_arff names first = Raise e →
       arffmerge.parse_additional_cols_args pos_string is_arff names = Raise e)
  ∧ (∀ (C : Csv) fuel a w f' md e,
       utils.get_metadata_if_arff fuel (arffmerge.add_file w) = (f', Ret md) →
       arffmerge.parse_additional_cols_args (arffmerge.add_input_position a)
         (utils.is_arff md) (utils.attr_names md) = Raise e →
       arffmerge.main_with_args fuel a w
       = (arffmerge.World f' (arffmerge.in_file w) (arffmerge.out_file w)
            (arffmerge.stderr w), Raise e))
  ∧ (∀ s names i,
       py.int s = None → py.list_index s names = Some i →
       arffselect.get_column_to_select s true names = Ret (Z.of_nat i)
       ∧ arffmerge.get_column_pos true names s = Ret (Z.of_nat i))
  ∧ (∀ pos_string is_arff names p0 rest first,
       py.split_on ":" pos_string = p0 :: rest →
       arffmerge.get_column_pos is_arff names p0 = Ret first →
       rest = [] ∨ head rest = Some EmptyString →
       arffmerge.parse_additional_cols_args pos_string is_arff names
       = Ret (first, None))
  ∧ (∀ pos_string is_arff names p0 p1 rest first second,
       py.split_on ":" pos_string = p0 :: p1 :: rest →
       p1 ≠ EmptyString →
       arffmerge.get_column_pos is_arff names p0 = Ret first →
       arffmerge.get_column_pos is_arff names p1 = Ret second →
       arffmerge.parse_additional_cols_args pos_string is_arff names
       = Ret (first, Some second))
  ∧ (∀ pos_string is_arff names p0 p1 rest first e,
       py.split_on ":" pos_string = p0 :: p1 :: rest →
       p1 ≠ EmptyString →
       arffmerge.get_column_pos is_arff names p0 = Ret first →
       arffmerge.get_column_pos is_arff names p1 = Raise e →
       arffmerge.parse_additional_cols_args pos_string is_arff names
       = Raise e).
Proof.
  repeat apply conj.
  - intros s n is_arff names Hs.
    unfold arffselect.get_column_to_select, arffmerge.get_column_pos.
    by rewrite Hs.
  - intros s names Hs.
    unfold arffselect.get_column_to_select, arffmerge.get_column_pos.
    by rewrite Hs.
  - intros s names Hs Hnot. apply list_index_None in Hnot.
    unfold arffselect.get_column_to_select, arffmerge.get_column_pos.
    by rewrite Hs, Hnot.
  - intros C fuel pre s post input_delim output_delim w f' md e Hscan Hpre Hs.
    unfold arffselect.select, arffselect.handle_metadata_and_get_columns,
      bind, arffselect.on_in, zoom, lift.
    rewrite Hscan.
    by rewrite (traverse_first_raise _ pre s post e Hpre Hs).
  - intros pos_string is_arff names first rest e Hsplit Hfirst.
    unfold arffmerge.parse_additional_cols_args. rewrite Hsplit.
    unfold py.index. rewrite item_head. by rewrite Hfirst.
  - intros C fuel a w f' md e Hscan Hparse.
    unfold arffmerge.main_with_args, arffmerge.get_additional_csv,
      bind, arffmerge.on_add_file, zoom, lift.
    by rewrite Hscan, Hparse.
  - intros s names i Hs Hi.
    unfold arffselect.get_column_to_select, arffmerge.get_column_pos.
    by rewrite Hs, Hi.
  - intros pos_string is_arff names p0 rest first Hsplit Hfirst Hrest.
    unfold arffmerge.parse_additional_cols_args. rewrite Hsplit.
    unfold py.index. rewrite item_head, Hfirst.
    destruct Hrest as [->|Hrest]; [done|].
    destruct rest as [|p1 rest]; [done|]. injection Hrest as ->.
    by rewrite bool_decide_eq_true_2.
  - intros pos_string is_arff names p0 p1 rest first second
      Hsplit Hp1 Hfirst Hsecond.
    unfold arffmerge.parse_additional_cols_args. rewrite Hsplit.
    unfold py.index. rewrite item_head, Hfirst.
    by rewrite bool_decide_eq_false_2, Hsecond.
  - intros pos_string is_arff names p0 p1 rest first e
      Hsplit Hp1 Hfirst Hsecond.
    unfold arffmerge.parse_additional_cols_args. rewrite Hsplit.
    unfold py.index. rewrite item_head, Hfirst.
    by rewrite bool_decide_eq_false_2, Hsecond.
Qed.

Lemma column_resolution_witness :
  arffselect.get_column_to_select "1" false [] = Ret 1
  ∧ arffmerge.get_column_pos false ["col0"] "col0"
    = Raise (ValueError "can't specify column-pos by name (col0) with non-arff csv")
  ∧ arffselect.get_column_to_select "col3" true ["col0"; "col1"]
    = Raise (ValueError "col3 is not a valid column in the csv/arff")
  ∧ @arffselect.select plain.csv 9 ["0"; "col3"] "," ","
      (arffselect.World
         (utils.from_text (text ["@relation r"; "@attribute col0 numeric"; "@data"; "7"]))
         (io.OFile None EmptyString))
    = (arffselect.World
         (utils.Stream
            (text ["@relation r"; "@attribute col0 numeric"; "@data"; "7"])
            (text ["7"]))
         (io.OFile None EmptyString),
       Raise (ValueError "col3 is not a valid column in the csv/arff"))
  ∧ @arffmerge.main_with_args plain.csv 9
      (arffmerge.Args (-1) "extra" "," "," "," 0 0)
      (arffmerge.World (utils.from_text (text ["1,11"]))
         (utils.from_text (text ["1,true"]))
         (io.OFile (Some "output.csv") EmptyString) [])
    = (arffmerge.World (utils.from_text (text ["1,11"]))
         (utils.from_text (text ["1,true"]))
         (io.OFile (Some "output.csv") EmptyString) [],
       Raise (ValueError "can't specify column-pos by name (extra) with non-arff csv"))
  ∧ arffmerge.get_column_pos true ["col0"; "col1"] "col1" = Ret 1
  ∧ arffmerge.parse_additional_cols_args "1:" false [] = Ret (1, None)
  ∧ arffmerge.parse_additional_cols_args "col1:2" true ["col0"; "col1"]
    = Ret (1, Some 2)
  ∧ @arffmerge.main_with_args plain.csv 9
      (arffmerge.Args (-1) "1:extra" "," "," "," 0 0)
      (arffmerge.World (utils.from_text (text ["1,11"]))
         (utils.from_text (text ["1,true"]))
         (io.OFile (Some "output.csv") EmptyString) [])
    = (arffmerge.World (utils.from_text (text ["1,11"]))
         (utils.from_text (text ["1,true"]))
         (io.OFile (Some "output.csv") EmptyString) [],
       Raise (ValueError "can't specify column-pos by name (extra) with non-arff csv")).
Proof.
  destruct column_resolution
    as (Hint & Hplain & Habsent & Hselect & _ & Hmerge & Hname & Hopen
        & Hrange & Hsecond).
  repeat apply conj.
  - apply (Hint "1" 1 false []). reflexivity.
  - apply (Hplain "col0" ["col0"]). reflexivity.
  - apply (Habsent "col3" ["col0"; "col1"]); [reflexivity|].
    apply list_index_None. reflexivity.
  - apply (Hselect plain.csv 9%nat ["0"] "col3" [] "," ","
             (arffselect.World
                (utils.from_text
                   (text ["@relation r"; "@attribute col0 numeric"; "@data"; "7"]))
                (io.OFile None EmptyString))
             _ (utils.Metadata true ["col0"] ["@attribute col0 numeric"]
                  ["@relation r"; "@attribute col0 numeric"; "@data"])).
    + reflexivity.
    + repeat constructor. by exists 0.
    + reflexivity.
  - apply (Hmerge plain.csv 9%nat (arffmerge.Args (-1) "extra" "," "," "," 0 0)
             (arffmerge.World (utils.from_text (text ["1,11"]))
                (utils.from_text (text ["1,true"]))
                (io.OFile (Some "output.csv") EmptyString) [])
             _ (utils.Metadata false [] [] [])).
    + reflexivity.
    + reflexivity.
  - apply (Hname "col1" ["col0"; "col1"] 1%nat); reflexivity.
  - apply (Hopen "1:" false [] "1" [EmptyString] 1);
      [reflexivity | reflexivity | by right].
  - apply (Hrange "col1:2" true ["col0"; "col1"] "col1" "2" [] 1 2);
      (reflexivity || discriminate).
  - apply (Hmerge plain.csv 9%nat
             (arffmerge.Args (-1) "1:extra" "," "," "," 0 0)
             (arffmerge.World (utils.from_text (text ["1,11"]))
                (utils.from_text (text ["1,true"]))
                (io.OFile (Some "output.csv") EmptyString) [])
             _ (utils.Metadata false [] [] [])).
    + reflexivity.
    + apply (Hsecond "1:extra" false [] "1" "extra" [] 1);
        (reflexivity || discriminate).
Defined.

(** ** Merge: the header step *)

(** What a completed [handle_arff_headers] has done: scanned the primary
    file and appended one header to the output file. *)
Lemma handle_arff_headers_returns fuel add_attr_lines output_pos w w1 is_arff :
  arffmerge.handle_arff_headers fuel add_attr_lines output_pos w
  = (w1, Ret is_arff) →
  ∃ md n attr_lines,
    utils.get_metadata_if_arff fuel (arffmerge.in_file w)
    = (arffmerge.in_file w1, Ret md)
    ∧ is_arff = utils.is_arff md
    ∧ arffmerge.add_file w1 = arffmerge.add_file w
    ∧ io.name (arffmerge.out_file w) = Some n
    ∧ arffmerge.out_file w1
      = io.writelines
          (utils.create_metadata_rows
             (arffmerge.remove_known_extensions (py.basename n)) attr_lines)
          (arffmerge.out_file w).
Proof.
  unfold arffmerge.handle_arff_headers, bind, arffmerge.on_in_file, zoom.
  destruct (utils.get_metadata_if_arff fuel (arffmerge.in_file w))
    as [f [md| |]]; [|done..].
  destruct (bool_decide _ && bool_decide _); simpl;
    unfold io.get_name; simpl;
    destruct (io.name (arffmerge.out_file w)) as [n|] eqn:Hn; simpl;
    intros [= <- <-]; simpl; eauto 10.
Qed.

(** C10: with an empty auxiliary mapping, once the header step has
    completed [read_add_write] raises the IndexError of [get_data_width];
    the state it leaves is the one the header step produced: the header
    is in the output file and the primary file stands right after its
    own header, no row read or written. *)
Theorem read_add_write_empty_add_data :
  ∀ (C : Csv) fuel a add_attr_lines w w1 is_arff,
    arffmerge.handle_arff_headers fuel add_attr_lines
      (arffmerge.output_position a) w = (w1, Ret is_arff) →
    arffmerge.get_data_width [] = Raise (IndexError "get_data_width")
    ∧ arffmerge.read_add_write fuel a add_attr_lines [] w
      = (w1, Raise (IndexError "get_data_width"))
    ∧ (∃ md, utils.get_metadata_if_arff fuel (arffmerge.in_file w)
             = (arffmerge.in_file w1, Ret md))
    ∧ (∃ n attr_lines,
         io.name (arffmerge.out_file w) = Some n
         ∧ io.written (arffmerge.out_file w1)
           = io.written (arffmerge.out_file w)
             +:+ py.concat (utils.create_metadata_rows
                              (arffmerge.remove_known_extensions (py.basename n))
                              attr_lines)).
Proof.
  intros C fuel a add_attr_lines w w1 is_arff Hhead.
  split; [reflexivity|]. split.
  - unfold arffmerge.read_add_write, bind. by rewrite Hhead.
  - apply handle_arff_headers_returns in Hhead
      as (md & n & attr_lines & Hscan & _ & _ & Hn & Hout).
    split; [by exists md|].
    exists n, attr_lines. split; [done|]. by rewrite Hout.
Qed.

Lemma read_add_write_empty_add_data_witness :
  @arffmerge.read_add_write plain.csv 9
    (arffmerge.Args (-1) "1:" "," "," "," 0 0) [] []
    (arffmerge.World (utils.from_text EmptyString)
       (utils.from_text
          (text ["@relation main"; "@attribute key numeric"; "@data"; "1"]))
       (io.OFile (Some "out.arff") EmptyString) [])
  = (arffmerge.World (utils.from_text EmptyString)
       (utils.Stream
          (text ["@relation main"; "@attribute key numeric"; "@data"; "1"])
          (text ["1"]))
       (io.OFile (Some "out.arff")
          (text ["@relation out"; ""; "@attribute key numeric"; ""; "@data"]))
       ["Warning: merging non-arff csv into arff; you'll need to hand-edit the metadata."],
     Raise (IndexError "get_data_width")).
Proof.
  apply (read_add_write_empty_add_data plain.csv 9%nat
           (arffmerge.Args (-1) "1:" "," "," "," 0 0) [] _ _ true).
  reflexivity.
Defined.

(** ** Texts and output files *)

Lemma concat_app (l1 l2 : list string) :
  py.concat (l1 ++ l2) = py.concat l1 +:+ py.concat l2.
Proof.
  induction l1 as [|x l1 IH]; [done|].
  simpl. by rewrite IH, string_app_assoc.
Qed.

Lemma write_empty (out : io.ofile) : io.write "" out = out.
Proof. destruct out. unfold io.write; simpl. by rewrite string_app_nil_r. Qed.

Lemma write_write (a b : string) (out : io.ofile) :
  io.write b (io.write a out) = io.write (a +:+ b) out.
Proof. unfold io.write; simpl. by rewrite string_app_assoc. Qed.

(** ** Split *)

Section split_properties.
Context `{Csv}.
Variables (delimiter : string) (key_column : Z).

#[local] Abbreviation add_row := (split_row delimiter key_column).

Lemma write_to_sets_spec line key_ :
  py.item line key_column = Some key_ →
  ∀ key_sets pre outs written w,
    arffsplit.out_files w = pre ++ outs →
    length outs = length key_sets →
    arffsplit.write_to_sets delimiter key_ line (length pre) key_sets written w
    = (arffsplit.World (arffsplit.in_file w)
         (pre ++ zip_with (add_row line) outs key_sets)
         (arffsplit.rmdr_file w) (arffsplit.stdout w),
       Ret (written || existsb (λ ks, key_in key_column ks line) key_sets)).
Proof.
  intros Hkey key_sets.
  induction key_sets as [|key_set key_sets IH]; intros pre outs written w Hw Hlen.
  - destruct outs; [|done]. simpl. rewrite orb_false_r.
    destruct w; simpl in *. by rewrite Hw.
  - destruct outs as [|out outs]; [done|]. simpl in Hlen.
    simpl. unfold add_row at 1, key_in at 1 2. rewrite Hkey.
    destruct (bool_decide (key_ ∈ key_set)) eqn:Hin.
    + unfold bind, arffsplit.writer_writerow.
      rewrite Hw, list_lookup_middle by done.
      replace (S (length pre))
        with (length (pre ++ [io.write (csv_writerow delimiter line) out]))
        by (rewrite length_app; simpl; lia).
      rewrite IH with (outs := outs); simpl.
      * rewrite <- app_assoc. by rewrite orb_true_r.
      * replace (length pre) with (length pre + 0)%nat by lia.
        rewrite insert_app_r. simpl. by rewrite <- app_assoc.
      * lia.
    + replace (S (length pre)) with (length (pre ++ [out]))
        by (rewrite length_app; simpl; lia).
      rewrite IH with (outs := outs); simpl.
      * by rewrite <- app_assoc.
      * by rewrite <- app_assoc.
      * lia.
Qed.

Lemma zip_with_add_rows line rows outs key_sets :
  zip_with (λ out ks,
      io.write (rows_text delimiter (List.filter (key_in key_column ks) rows)) out)
    (zip_with (add_row line) outs key_sets) key_sets
  = zip_with (λ out ks,
      io.write (rows_text delimiter
                  (List.filter (key_in key_column ks) (line :: rows))) out)
      outs key_sets.
Proof.
  revert key_sets.
  induction outs as [|out outs IH]; intros [|ks key_sets]; [done..|].
  simpl. rewrite IH. f_equal.
  unfold add_row. destruct (key_in key_column ks line); [|done].
  by rewrite write_write.
Qed.

Lemma split_rows_spec key_sets rows :
  Forall (λ line, is_Some (py.item line key_column)) rows →
  ∀ i w,
    length (arffsplit.out_files w) = length key_sets →
    ∃ log,
      arffsplit.split_rows delimiter key_column key_sets i rows w
      = (arffsplit.World (arffsplit.in_file w)
           (zip_with (λ out ks,
                io.write (rows_text delimiter
                            (List.filter (key_in key_column ks) rows)) out)
              (arffsplit.out_files w) key_sets)
           (io.write (rows_text delimiter
                        (List.filter (key_in_none key_column key_sets) rows))
              (arffsplit.rmdr_file w))
           (arffsplit.stdout w ++ log),
         Ret tt).
Proof.
  induction 1 as [|line rows [key_ Hkey] _ IH]; intros i w Hlen.
  - exists []. simpl. unfold ret. f_equal. destruct w; simpl. f_equal.
    + simpl in Hlen. revert key_sets Hlen.
      induction out_files as [|o os IHo]; intros [|ks kss] Hlen; [done..|].
      simpl in *. rewrite <- IHo by lia.
      unfold rows_text; simpl. by rewrite write_empty.
    + by rewrite write_empty.
    + by rewrite app_nil_r.
  - set (w1 := if (i mod 500000 =? 0)%N
               then arffsplit.World (arffsplit.in_file w) (arffsplit.out_files w)
                      (arffsplit.rmdr_file w)
                      (arffsplit.stdout w ++ [arffsplit.Progress i])
               else w).
    assert (Hw1 : arffsplit.in_file w1 = arffsplit.in_file w
                  ∧ arffsplit.out_files w1 = arffsplit.out_files w
                  ∧ arffsplit.rmdr_file w1 = arffsplit.rmdr_file w
                  ∧ ∃ log1, arffsplit.stdout w1 = arffsplit.stdout w ++ log1).
    { unfold w1. destruct (_ =? _)%N; simpl; repeat split; eauto.
      exists []. by rewrite app_nil_r. }
    destruct Hw1 as (Hin1 & Hout1 & Hrm1 & log1 & Hlog1).
    pose proof (write_to_sets_spec line key_ Hkey key_sets [] 
                  (arffsplit.out_files w1) false w1 eq_refl) as Hsets.
    rewrite Hout1 in Hsets. specialize (Hsets Hlen). simpl in Hsets.
    set (w2 := arffsplit.World (arffsplit.in_file w1)
                 (zip_with (add_row line) (arffsplit.out_files w) key_sets)
                 (arffsplit.rmdr_file w1) (arffsplit.stdout w1)) in Hsets.
    set (written := existsb (λ ks, key_in key_column ks line) key_sets) in Hsets.
    set (w3 := if negb written
               then arffsplit.World (arffsplit.in_file w2) (arffsplit.out_files w2)
                      (io.write (csv_writerow delimiter line) (arffsplit.rmdr_file w2))
                      (arffsplit.stdout w2)
               else w2).
    destruct (IH (i + 1)%N w3) as [log3 Hrest].
    { unfold w3. destruct (negb written); simpl; by rewrite length_zip_with_l_eq. }
    exists (log1 ++ log3).
    transitivity (arffsplit.split_rows delimiter key_column key_sets (i + 1)%N rows w3).
    { simpl. unfold bind at 1.
      assert ((if (i mod 500000 =? 0)%N then arffsplit.print (arffsplit.Progress i)
               else ret tt) w = (w1, Ret tt)) as ->.
      { unfold w1. by destruct (_ =? _)%N. }
      unfold bind at 1, lift. rewrite (index_item _ _ _ _ Hkey).
      unfold bind at 1. rewrite Hsets.
      unfold bind at 1. fold written.
      unfold w3. by destruct (negb written). }
    rewrite Hrest. f_equal.
    assert (Hw3 : arffsplit.in_file w3 = arffsplit.in_file w
                  ∧ arffsplit.out_files w3
                    = zip_with (add_row line) (arffsplit.out_files w) key_sets
                  ∧ arffsplit.rmdr_file w3
                    = (if negb written
                       then io.write (csv_writerow delimiter line) (arffsplit.rmdr_file w)
                       else arffsplit.rmdr_file w)
                  ∧ arffsplit.stdout w3 = arffsplit.stdout w ++ log1).
    { unfold w3. destruct (negb written); simpl; by rewrite ?Hin1, ?Hrm1, ?Hlog1. }
    destruct Hw3 as (-> & -> & -> & ->).
    rewrite zip_with_add_rows, <- app_assoc. f_equal.
    simpl. unfold key_in_none at 2. fold written.
    destruct (negb written); [|done]. by rewrite write_write.
Qed.

End split_properties.

(** C2: when every row has a key column and there is one output stream
    per key set, [split_file] completes, and it appends to the output
    stream of index [i] the rows whose key is in key set [i], in source
    order, and to the remainder stream the rows whose key is in no set,
    in source order: a row goes to exactly the outputs whose sets hold
    its key, and to the remainder only when none does. *)
Theorem split_file_routes_rows :
  ∀ (C : Csv) delimiter rows key_column key_sets w,
    length (arffsplit.out_files w) = length key_sets →
    Forall (λ line, is_Some (py.item line key_column)) rows →
    ∃ w',
      arffsplit.split_file delimiter rows key_column key_sets w = (w', Ret tt)
      ∧ length (arffsplit.out_files w') = length (arffsplit.out_files w)
      ∧ (∀ i key_set out,
           key_sets !! i = Some key_set →
           arffsplit.out_files w !! i = Some out →
           arffsplit.out_files w' !! i
           = Some (io.write
                     (rows_text delimiter
                        (List.filter (key_in key_column key_set) rows)) out))
      ∧ arffsplit.rmdr_file w'
        = io.write
            (rows_text delimiter
               (List.filter (key_in_none key_column key_sets) rows))
            (arffsplit.rmdr_file w).
Proof.
  intros C delimiter rows key_column key_sets w Hlen Hrows.
  destruct (split_rows_spec delimiter key_column key_sets rows Hrows 0%N w Hlen)
    as [log Hsplit].
  eexists. unfold arffsplit.split_file, bind. rewrite Hsplit.
  split; [reflexivity|]. simpl. repeat split.
  - by rewrite length_zip_with_l_eq.
  - intros i key_set out Hks Hout.
    rewrite lookup_zip_with, Hout. simpl. by rewrite Hks.
Qed.

Lemma split_file_routes_rows_witness :
  ∃ w',
    @arffsplit.split_file plain.csv ","
      [["1"; "a"]; ["2"; "b"]; ["3"; "c"]; ["4"; "d"]; ["5"; "e"]] 0
      [{["1"; "2"; "3"]}; {["3"; "4"]}]
      (arffsplit.World (utils.from_text EmptyString)
         [io.OFile None EmptyString; io.OFile None EmptyString]
         (io.OFile None EmptyString) [])
    = (w', Ret tt)
    ∧ arffsplit.out_files w' !! 0%nat = Some (io.OFile None (text ["1,a"; "2,b"; "3,c"]))
    ∧ arffsplit.out_files w' !! 1%nat = Some (io.OFile None (text ["3,c"; "4,d"]))
    ∧ arffsplit.rmdr_file w' = io.OFile None (text ["5,e"]).
Proof.
  destruct (split_file_routes_rows plain.csv ","
              [["1"; "a"]; ["2"; "b"]; ["3"; "c"]; ["4"; "d"]; ["5"; "e"]] 0
              [{["1"; "2"; "3"]}; {["3"; "4"]}]
              (arffsplit.World (utils.from_text EmptyString)
                 [io.OFile None EmptyString; io.OFile None EmptyString]
                 (io.OFile None EmptyString) []))
    as (w' & Hrun & _ & Houts & Hrmdr).
  - reflexivity.
  - repeat constructor; by eexists.
  - exists w'. split; [exact Hrun|]. repeat split.
    + rewrite (Houts 0%nat {["1"; "2"; "3"]} (io.OFile None EmptyString))
        by reflexivity.
      reflexivity.
    + rewrite (Houts 1%nat {["3"; "4"]} (io.OFile None EmptyString))
        by reflexivity.
      reflexivity.
    + rewrite Hrmdr. reflexivity.
Defined.

(** ** Split: the header *)

Lemma write_headers_spec attr_lines outs :
  Forall (λ out, is_Some (io.name out)) outs →
  arffsplit.write_headers attr_lines outs
  = ((λ out, io.write (split_header attr_lines out) out) <$> outs, Ret tt).
Proof.
  induction 1 as [|out outs [n Hn] _ IH]; [done|].
  simpl. unfold io.get_name. rewrite Hn, IH.
  unfold split_header, io.writelines. by rewrite Hn.
Qed.

Lemma copy_metadata_if_arff_spec fuel w f md :
  utils.get_metadata_if_arff fuel (arffsplit.in_file w) = (f, Ret md) →
  utils.is_arff md = true →
  Forall (λ out, is_Some (io.name out))
    (arffsplit.out_files w ++ [arffsplit.rmdr_file w]) →
  arffsplit.copy_metadata_if_arff fuel w
  = (arffsplit.World f
       ((λ out, io.write (split_header (utils.attr_lines md) out) out)
          <$> arffsplit.out_files w)
       (io.write (split_header (utils.attr_lines md) (arffsplit.rmdr_file w))
          (arffsplit.rmdr_file w))
       (arffsplit.stdout w),
     Ret tt).
Proof.
  intros Hscan Harff Hnames.
  unfold arffsplit.copy_metadata_if_arff, bind, arffsplit.on_in_file, zoom.
  rewrite Hscan, Harff. simpl.
  rewrite (write_headers_spec _ _ Hnames), fmap_app. simpl.
  rewrite last_snoc. simpl. f_equal. f_equal.
  rewrite take_app_length'; [done|]. by rewrite length_fmap.
Qed.

#[local] Instance extends_refl : Reflexive extends.
Proof. intros out. split; [done|]. exists "". by rewrite string_app_nil_r. Qed.

#[local] Instance extends_trans : Transitive extends.
Proof.
  intros o1 o2 o3 [Hn1 [t1 H1]] [Hn2 [t2 H2]]. split; [congruence|].
  exists (t1 +:+ t2). by rewrite H2, H1, string_app_assoc.
Qed.

Lemma extends_write s out : extends out (io.write s out).
Proof. split; [done|]. by exists s. Qed.

#[local] Instance grows_refl : Reflexive grows.
Proof. intros w. split; reflexivity. Qed.

Lemma grows_same_files w w' :
  arffsplit.out_files w' = arffsplit.out_files w →
  arffsplit.rmdr_file w' = arffsplit.rmdr_file w →
  grows w w'.
Proof. intros Ho Hr. split; [rewrite Ho | rewrite Hr]; reflexivity. Qed.

#[local] Instance grows_trans : Transitive grows.
Proof.
  intros w1 w2 w3 [Ho1 Hr1] [Ho2 Hr2]. split; by etrans.
Qed.

(** A computation all of whose steps let the files grow lets them grow. *)
Lemma bind_grows {A B} (m : M arffsplit.world A) (k : A → M arffsplit.world B) :
  (∀ w, grows w (m w).1) →
  (∀ a w, grows w (k a w).1) →
  ∀ w, grows w (bind m k w).1.
Proof.
  intros Hm Hk w. unfold bind. specialize (Hm w).
  destruct (m w) as [w1 [a| |]]; simpl in *; [|done..].
  etrans; [exact Hm | apply Hk].
Qed.

Section split_grows.
Context `{Csv}.

Lemma writer_writerow_grows delimiter index line w :
  grows w (arffsplit.writer_writerow delimiter index line w).1.
Proof.
  unfold arffsplit.writer_writerow.
  destruct (arffsplit.out_files w !! index) as [out|] eqn:Hout; simpl;
    [|reflexivity].
  split; simpl; [|reflexivity].
  apply Forall2_same_length_lookup_2; [by rewrite length_insert|].
  intros i o o' Ho Ho'.
  destruct (decide (i = index)) as [->|Hne].
  - rewrite list_lookup_insert_eq in Ho' by (by eapply lookup_lt_Some).
    simplify_eq. apply extends_write.
  - rewrite list_lookup_insert_ne in Ho' by done. by simplify_eq.
Qed.

Lemma write_to_sets_grows delimiter key_ line key_sets :
  ∀ index written w,
    grows w (arffsplit.write_to_sets delimiter key_ line index key_sets written w).1.
Proof.
  induction key_sets as [|key_set key_sets IH]; intros index written w; simpl.
  - reflexivity.
  - destruct (bool_decide (key_ ∈ key_set)); [|apply IH].
    apply bind_grows; [apply writer_writerow_grows | intros _ w'; apply IH].
Qed.

Lemma split_rows_grows delimiter key_column key_sets rows :
  ∀ i w, grows w (arffsplit.split_rows delimiter key_column key_sets i rows w).1.
Proof.
  induction rows as [|line rows IH]; intros i w; simpl; [reflexivity|].
  apply bind_grows.
  { intros w'. destruct (_ =? _)%N; simpl; by apply grows_same_files. }
  intros _ w1. apply bind_grows; [intros w'; reflexivity|].
  intros key_ w2. apply bind_grows; [apply write_to_sets_grows|].
  intros written w3. apply bind_grows; [|intros _ w4; apply IH].
  intros w'. destruct (negb written); simpl; [|reflexivity].
  split; simpl; [reflexivity | apply extends_write].
Qed.

Lemma split_file_grows delimiter rows key_column key_sets w :
  grows w (arffsplit.split_file delimiter rows key_column key_sets w).1.
Proof.
  unfold arffsplit.split_file.
  apply bind_grows; [apply split_rows_grows|].
  intros _ w'. by apply grows_same_files.
Qed.

End split_grows.

Lemma split_headers_named attr_lines outs stems :
  Forall2 file_named outs stems →
  Forall (λ out, is_Some (io.name out)) outs
  ∧ (λ out, io.write (split_header attr_lines out) out) <$> outs
    = zip_with (λ out stem,
          io.write (text (["@relation " +:+ stem; ""] ++ attr_lines
                            ++ [""; "@data"])) out)
        outs stems.
Proof.
  induction 1 as [|out stem outs stems (n & Hn & Hstem) _ [IHn IH]];
    [by split|].
  split; [constructor; [by exists n | done]|].
  rewrite fmap_cons, IH. simpl. f_equal.
  unfold split_header, arffsplit.remove_known_extensions.
  rewrite Hn. simpl. by rewrite (names_relation_stem n stem Hstem).
Qed.

(** C6, as the code has it: when the file being split is ARFF and every
    output file has a name that stands for a relation (a base name
    ending in [.arff], [.csv] or [.txt], the relation being what comes
    before, or a base name that does not end in one of these three
    words, the relation being the base name), [copy_metadata_if_arff]
    appends to every output stream and to the remainder stream a header
    written afresh: the relation line with the relation of that output
    file, a blank line, the attribute lines of the source in order, a
    blank line and [@data].  The data rows are written after it: every
    file at the end of [set_up_and_do_split] extends its state at the
    end of the header step. *)
Theorem split_writes_fresh_header_first :
  ∀ (C : Csv) fuel delimiter key_column key_sets w f md stems rmdr_stem,
    utils.get_metadata_if_arff fuel (arffsplit.in_file w) = (f, Ret md) →
    utils.is_arff md = true →
    Forall2 file_named (arffsplit.out_files w) stems →
    file_named (arffsplit.rmdr_file w) rmdr_stem →
    ∃ w1,
      arffsplit.copy_metadata_if_arff fuel w = (w1, Ret tt)
      ∧ arffsplit.out_files w1
        = zip_with (λ out stem,
              io.write (text (["@relation " +:+ stem; ""]
                                ++ utils.attr_lines md ++ [""; "@data"])) out)
            (arffsplit.out_files w) stems
      ∧ arffsplit.rmdr_file w1
        = io.write (text (["@relation " +:+ rmdr_stem; ""]
                            ++ utils.attr_lines md ++ [""; "@data"]))
            (arffsplit.rmdr_file w)
      ∧ grows w1
          (arffsplit.set_up_and_do_split fuel delimiter key_column key_sets w).1.
Proof.
  intros C fuel delimiter key_column key_sets w f md stems rmdr_stem
    Hscan Harff Houts Hrmdr.
  destruct (split_headers_named (utils.attr_lines md) _ _ Houts)
    as [Hnames Hheaders].
  destruct (split_headers_named (utils.attr_lines md)
              [arffsplit.rmdr_file w] [rmdr_stem])
    as [Hname Hheader]; [by repeat constructor|].
  assert (Hall : Forall (λ out, is_Some (io.name out))
                   (arffsplit.out_files w ++ [arffsplit.rmdr_file w]))
    by (by apply Forall_app).
  pose proof (copy_metadata_if_arff_spec fuel w f md Hscan Harff Hall) as Hcopy.
  eexists. split; [exact Hcopy|]. simpl.
  split; [exact Hheaders|]. split.
  { exact (f_equal (λ l, default (arffsplit.rmdr_file w) (head l)) Hheader). }
  unfold arffsplit.set_up_and_do_split, bind at 1. rewrite Hcopy.
  apply bind_grows; [|intros rows w'; apply split_file_grows].
  intros w'. by apply grows_same_files.
Qed.

Lemma split_writes_fresh_header_first_witness :
  ∃ w1,
    arffsplit.copy_metadata_if_arff 9
      (arffsplit.World
         (utils.from_text
            (text ["@relation foo"; ""; "@attribute a numeric"; ""; "@data"; "1"]))
         [io.OFile (Some "parts/out.arff") EmptyString]
         (io.OFile (Some "rest") EmptyString) [])
    = (w1, Ret tt)
    ∧ arffsplit.out_files w1
      = [io.OFile (Some "parts/out.arff")
           (text ["@relation out"; ""; "@attribute a numeric"; ""; "@data"])]
    ∧ arffsplit.rmdr_file w1
      = io.OFile (Some "rest")
          (text ["@relation rest"; ""; "@attribute a numeric"; ""; "@data"]).
Proof.
  destruct (split_writes_fresh_header_first plain.csv 9%nat "," 0 [{["1"]}]
              (arffsplit.World
                 (utils.from_text
                    (text ["@relation foo"; ""; "@attribute a numeric"; "";
                           "@data"; "1"]))
                 [io.OFile (Some "parts/out.arff") EmptyString]
                 (io.OFile (Some "rest") EmptyString) [])
              (utils.Stream
                 (text ["@relation foo"; ""; "@attribute a numeric"; "";
                        "@data"; "1"])
                 (text ["1"]))
              (utils.Metadata true ["a"] ["@attribute a numeric"]
                 ["@relation foo"; ""; "@attribute a numeric"; ""; "@data"])
              ["out"] "rest")
    as (w1 & Hcopy & Houts & Hrmdr & _).
  - reflexivity.
  - reflexivity.
  - repeat constructor. exists "parts/out.arff". split; [reflexivity|].
    left. exists "arff". split; [|reflexivity]. by apply (bool_decide_unpack _).
  - exists "rest". split; [reflexivity|]. right. by split.
  - exists w1. split; [exact Hcopy|]. split.
    + rewrite Houts. reflexivity.
    + rewrite Hrmdr. reflexivity.
Defined.

(** C6 as stated fails: the source below has its header already in the
    layout Split writes, yet no output receives that header unmodified,
    the relation name being replaced by the name of the output file. *)
Lemma split_header_is_not_the_source_header :
  ∃ w1,
    arffsplit.copy_metadata_if_arff 9
      (arffsplit.World
         (utils.from_text
            (text ["@relation foo"; ""; "@attribute a numeric"; ""; "@data"; "1"]))
         [io.OFile (Some "parts/out.arff") EmptyString]
         (io.OFile (Some "rest.arff") EmptyString) [])
    = (w1, Ret tt)
    ∧ utils.buffer (arffsplit.in_file w1)
      = text ["@relation foo"; ""; "@attribute a numeric"; ""; "@data"]
        +:+ utils.unread (arffsplit.in_file w1)
    ∧ Forall (λ out, io.written out
                     ≠ text ["@relation foo"; ""; "@attribute a numeric"; ""; "@data"])
        (arffsplit.out_files w1 ++ [arffsplit.rmdr_file w1]).
Proof.
  eexists. split; [reflexivity|]. split; [reflexivity|].
  repeat constructor; intros Heq; by vm_compute in Heq.
Qed.

(** ** Merge: the rows *)

Lemma clamp_bounds n i : 0 ≤ n → 0 ≤ py.clamp n i ≤ n.
Proof. unfold py.clamp. destruct (i <? 0) eqn:Hi; lia. Qed.

(** [l[:p] + l[p:] == l] for every integer [p]. *)
Lemma slice_split {A} (l : list A) p :
  py.slice l None (Some p) ++ py.slice l (Some p) None = l.
Proof.
  unfold py.slice.
  pose proof (clamp_bounds (Z.of_nat (length l)) p ltac:(lia)) as Hc.
  set (c := py.clamp (Z.of_nat (length l)) p) in *.
  rewrite Z.sub_0_r. change (Z.to_nat 0) with 0%nat. rewrite drop_0.
  rewrite (take_ge (drop _ _)) by (rewrite length_drop; lia).
  apply take_drop.
Qed.

Lemma slice_split_length {A} (l : list A) p :
  (length (py.slice l None (Some p)) + length (py.slice l (Some p) None))%nat
  = length l.
Proof. by rewrite <- length_app, slice_split. Qed.

Lemma dict_get_elem {V} k (d : py.dict V) v :
  py.dict_get k d = Some v → ∃ k', (k', v) ∈ d.
Proof.
  induction d as [|[k' v'] d IH]; [done|]. simpl.
  destruct (String.eqb k' k).
  - intros [= ->]. exists k'. apply list_elem_of_here.
  - intros Hget. destruct (IH Hget) as [k'' Hin].
    exists k''. by apply list_elem_of_further.
Qed.

Lemma get_data_width_uniform (add_data : py.dict row) (width : nat) :
  add_data ≠ [] →
  Forall (λ kv, length kv.2 = width) add_data →
  arffmerge.get_data_width add_data = Ret (Z.of_nat width).
Proof.
  destruct add_data as [|[k0 v0] rest]; [done|]. intros _ Hwidth.
  unfold arffmerge.get_data_width, py.index.
  assert (py.item (py.dict_values ((k0, v0) :: rest)) 0 = Some v0) as ->
    by apply item_head.
  apply Forall_cons_1 in Hwidth as [Hv0 _]. simpl in Hv0. by rewrite Hv0.
Qed.

Section merge_properties.
Context `{Csv}.
Variables (a : arffmerge.args) (add_data : py.dict row) (missing : row).

#[local] Abbreviation merged :=
  (merged_row (arffmerge.output_position a) add_data missing).

Lemma merge_line_spec line key_ w :
  py.item line (arffmerge.main_key_col a) = Some key_ →
  arffmerge.merge_line a add_data missing line w
  = (arffmerge.World (arffmerge.add_file w) (arffmerge.in_file w)
       (io.write (csv_writerow (arffmerge.output_csv_delim a) (merged line key_))
          (arffmerge.out_file w))
       (arffmerge.stderr w
          ++ (if bool_decide (py.dict_get key_ add_data = None)
              then [missing_key_warning key_] else [])),
     Ret tt).
Proof.
  intros Hkey. unfold arffmerge.merge_line, bind at 1, lift.
  rewrite (index_item _ _ _ _ Hkey). unfold merged.
  destruct (py.dict_get key_ add_data) as [found|]; simpl.
  - unfold bind, ret, arffmerge.on_out_file, modify; simpl.
    by rewrite app_nil_r.
  - reflexivity.
Qed.

Lemma merge_rows_spec rows keys :
  Forall2 (λ line k, py.item line (arffmerge.main_key_col a) = Some k) rows keys →
  ∀ w,
    for_each (arffmerge.merge_line a add_data missing) rows w
    = (arffmerge.World (arffmerge.add_file w) (arffmerge.in_file w)
         (io.write
            (rows_text (arffmerge.output_csv_delim a) (zip_with merged rows keys))
            (arffmerge.out_file w))
         (arffmerge.stderr w
            ++ (missing_key_warning
                  <$> List.filter
                        (λ k, bool_decide (py.dict_get k add_data = None)) keys)),
       Ret tt).
Proof.
  induction 1 as [|line key_ rows keys Hkey _ IH]; intros w.
  - simpl. unfold ret, rows_text. simpl.
    rewrite write_empty, app_nil_r. by destruct w.
  - simpl. unfold bind. rewrite (merge_line_spec line key_ w Hkey), IH. simpl.
    f_equal. f_equal.
    + by rewrite write_write.
    + rewrite <- app_assoc. f_equal.
      by destruct (bool_decide (py.dict_get key_ add_data = None)).
Qed.

End merge_properties.

Lemma get_data_width_first k0 (seg0 : row) (rest : py.dict row) :
  arffmerge.get_data_width ((k0, seg0) :: rest)
  = Ret (Z.of_nat (length seg0)).
Proof.
  unfold arffmerge.get_data_width, py.index.
  assert (py.item (py.dict_values ((k0, seg0) :: rest)) 0 = Some seg0) as ->
    by apply item_head.
  done.
Qed.

(** C3, as the code has it: with an auxiliary mapping that is not
    empty, once the header step has completed and when every primary
    row has a key column, [read_add_write] runs to completion whatever
    keys are missing.  It appends one output row per primary row: the
    row with, spliced in at the insertion position, the segment of its
    key or, for a key absent from the mapping, as many placeholders as
    the first segment of the mapping has columns, question marks when
    the primary file is ARFF and empty strings when it is not (the
    header step has written an ARFF header to the output in both
    cases).  When all segments have that width, every output row has
    the width of its primary row plus that width.  The diagnostic
    stream receives one warning for each primary row whose key is
    absent from the mapping, naming that key, and nothing else. *)
Theorem read_add_write_fills_missing_keys :
  ∀ (C : Csv) fuel a add_attr_lines k0 (seg0 : row) (rest : py.dict row)
    w w1 is_arff keys,
    arffmerge.handle_arff_headers fuel add_attr_lines
      (arffmerge.output_position a) w = (w1, Ret is_arff) →
    Forall2 (λ line k, py.item line (arffmerge.main_key_col a) = Some k)
      (csv_reader (arffmerge.main_csv_delim a)
         (utils.unread (arffmerge.in_file w1))) keys →
    let add_data := (k0, seg0) :: rest in
    let width := length seg0 in
    let rows := csv_reader (arffmerge.main_csv_delim a)
                  (utils.unread (arffmerge.in_file w1)) in
    let missing := replicate width (if is_arff : bool then "?" else "") in
    let merged := λ (line : row) (k : string),
      py.slice line None (Some (arffmerge.output_position a))
        ++ default missing (py.dict_get k add_data)
        ++ py.slice line (Some (arffmerge.output_position a)) None in
    (∃ md n attr_lines,
       utils.get_metadata_if_arff fuel (arffmerge.in_file w)
       = (arffmerge.in_file w1, Ret md)
       ∧ is_arff = utils.is_arff md
       ∧ io.name (arffmerge.out_file w) = Some n
       ∧ arffmerge.out_file w1
         = io.writelines
             (utils.create_metadata_rows
                (arffmerge.remove_known_extensions (py.basename n)) attr_lines)
             (arffmerge.out_file w))
    ∧ ∃ w2,
        arffmerge.read_add_write fuel a add_attr_lines add_data w = (w2, Ret tt)
        ∧ arffmerge.out_file w2
          = io.write
              (rows_text (arffmerge.output_csv_delim a)
                 (zip_with merged rows keys))
              (arffmerge.out_file w1)
        ∧ (Forall (λ kv, length kv.2 = width) add_data →
           ∀ line k, length (merged line k) = (length line + width)%nat)
        ∧ arffmerge.stderr w2
          = arffmerge.stderr w1
            ++ (missing_key_warning
                  <$> List.filter
                        (λ k, bool_decide (py.dict_get k add_data = None)) keys).
Proof.
  intros C fuel a add_attr_lines k0 seg0 rest w w1 is_arff keys
    Hhead Hkeys add_data width rows missing merged.
  split.
  { apply handle_arff_headers_returns in Hhead
      as (md & n & attr_lines & Hscan & His & _ & Hn & Hout).
    by exists md, n, attr_lines. }
  eexists. split; [|split; [|split]].
  - unfold arffmerge.read_add_write, bind at 1. rewrite Hhead.
    unfold bind at 1, lift, add_data. rewrite get_data_width_first.
    unfold bind, arffmerge.on_in_file, zoom, read_rows. simpl.
    rewrite Nat2Z.id.
    apply (merge_rows_spec a ((k0, seg0) :: rest) missing _ _ Hkeys).
  - reflexivity.
  - intros Hwidth line k. unfold merged.
    rewrite !length_app.
    pose proof (slice_split_length line (arffmerge.output_position a)) as Hl.
    assert (length (default missing (py.dict_get k add_data)) = width) as ->;
      [|lia].
    destruct (py.dict_get k add_data) as [v|] eqn:Hget; simpl.
    + destruct (dict_get_elem _ _ _ Hget) as [k' Hin].
      by apply (proj1 (Forall_forall _ _) Hwidth (k', v)).
    + apply length_replicate.
  - reflexivity.
Qed.

Lemma read_add_write_fills_missing_keys_witness :
  ∃ w2,
    @arffmerge.read_add_write plain.csv 9
      (arffmerge.Args (-1) "1:2" "," "," "," 0 0)
      ["@attribute add_col numeric"]
      [("1", ["11"]); ("2", ["12"]); ("3", ["13"])]
      (arffmerge.World (utils.from_text EmptyString)
         (utils.from_text
            (text ["@relation main"; "@attribute key_col numeric";
                   "@attribute target {true,false}"; "@data";
                   "1,true"; "4,false"]))
         (io.OFile (Some "output.arff") EmptyString) [])
    = (w2, Ret tt)
    ∧ io.written (arffmerge.out_file w2)
      = text ["@relation output"; ""; "@attribute key_col numeric";
              "@attribute add_col numeric"; "@attribute target {true,false}";
              ""; "@data"; "1,11,true"; "4,?,false"]
    ∧ arffmerge.stderr w2 = ["Warning: key 4 does not have additional data row"].
Proof.
  edestruct (read_add_write_fills_missing_keys plain.csv 9%nat
               (arffmerge.Args (-1) "1:2" "," "," "," 0 0)
               ["@attribute add_col numeric"]
               "1" ["11"] [("2", ["12"]); ("3", ["13"])]
               (arffmerge.World (utils.from_text EmptyString)
                  (utils.from_text
                     (text ["@relation main"; "@attribute key_col numeric";
                            "@attribute target {true,false}"; "@data";
                            "1,true"; "4,false"]))
                  (io.OFile (Some "output.arff") EmptyString) [])
               (arffmerge.World (utils.from_text EmptyString)
                  (utils.Stream
                     (text ["@relation main"; "@attribute key_col numeric";
                            "@attribute target {true,false}"; "@data";
                            "1,true"; "4,false"])
                     (text ["1,true"; "4,false"]))
                  (io.OFile (Some "output.arff")
                     (text ["@relation output"; "";
                            "@attribute key_col numeric";
                            "@attribute add_col numeric";
                            "@attribute target {true,false}"; ""; "@data"]))
                  [])
               true ["1"; "4"])
    as (_ & w2 & Hrun & Hout & _ & Herr).
  - reflexivity.
  - repeat constructor.
  - exists w2. split; [exact Hrun|]. split.
    + rewrite Hout. reflexivity.
    + rewrite Herr. reflexivity.
Defined.

(** C3 as stated fails on two counts.  With an auxiliary file that
    holds no row the mapping is empty, every primary key is missing,
    and the run aborts in [get_data_width]: the header is written, no
    row is emitted and no warning names the key.  And against a primary
    file that is not ARFF the placeholder of a missing key is the empty
    string although the output carries an ARFF header. *)
Lemma merge_missing_key_aborts_or_blank :
  (∃ w',
     @arffmerge.main_with_args plain.csv 9
       (arffmerge.Args (-1) "1:" "," "," "," 0 0)
       (arffmerge.World (utils.from_text EmptyString)
          (utils.from_text (text ["1,true"]))
          (io.OFile (Some "output.csv") EmptyString) [])
     = (w', Raise (IndexError "get_data_width"))
     ∧ io.written (arffmerge.out_file w')
       = text ["@relation output"; ""; ""; "@data"]
     ∧ arffmerge.stderr w'
       = ["Warning: merging non-arff csv into arff; you'll need to hand-edit the metadata."])
  ∧ (∃ w',
       @arffmerge.main_with_args plain.csv 9
         (arffmerge.Args (-1) "1:" "," "," "," 0 0)
         (arffmerge.World (utils.from_text (text ["1,11"]))
            (utils.from_text (text ["4,false"]))
            (io.OFile (Some "output.csv") EmptyString) [])
       = (w', Ret tt)
       ∧ io.written (arffmerge.out_file w')
         = text ["@relation output"; ""; ""; "@data"; "4,,false"]).
Proof.
  split.
  - eexists. split; [vm_compute; reflexivity|]. by split.
  - eexists. split; [vm_compute; reflexivity|]. reflexivity.
Qed.

(** ** The scanner on a header in the layout of the writer *)

Lemma text_app l1 l2 : text (l1 ++ l2) = text l1 +:+ text l2.
Proof. unfold text. by rewrite fmap_app, concat_app. Qed.

Lemma text_cons_app x l rest :
  text (x :: l) +:+ rest = x +:+ py.nl +:+ (text l +:+ rest).
Proof. unfold text. simpl. by rewrite !string_app_assoc. Qed.

Lemma header_text rel_name attr_lines :
  py.concat (utils.create_metadata_rows rel_name attr_lines)
  = text (["@relation " +:+ rel_name; ""] ++ attr_lines ++ [""; "@data"]).
Proof. reflexivity. Qed.

Lemma cut_line_app line rest :
  no_newline line = true →
  utils.cut_line (line +:+ py.nl +:+ rest) = (line +:+ py.nl, rest).
Proof.
  induction line as [|c line IH]; [done|]. simpl.
  intros [Hc Hline]%andb_true_iff. rewrite !string_app_cons. simpl.
  apply negb_true_iff in Hc. by rewrite Hc, (IH Hline).
Qed.

Lemma rstrip_app_nl s : py.rstrip (s +:+ py.nl) = py.rstrip s.
Proof.
  induction s as [|c s IH]; [done|].
  rewrite string_app_cons. simpl. by rewrite IH.
Qed.

Lemma strip_plain_line l : plain_line l → py.strip (l +:+ py.nl) = l.
Proof. intros [_ Hl]. unfold py.strip in *. by rewrite rstrip_app_nl. Qed.

Lemma at_keyword_first kw s r :
  utils.at_keyword kw s = Some r →
  ∃ s', s = String "@" s' ∧ utils.keyword kw s' = Some r.
Proof.
  destruct s as [|c s']; [done|]. simpl.
  destruct (Ascii.eqb_spec c "@") as [->|]; [eauto | done].
Qed.

Lemma keyword_head k kw c s r :
  utils.keyword (String k kw) (String c s) = Some r →
  c = k ∨ c = ascii_of_N (N_of_ascii k - 32).
Proof.
  simpl.
  destruct (Ascii.eqb_spec c k) as [->|]; [by left|].
  destruct (Ascii.eqb_spec c (ascii_of_N (N_of_ascii k - 32))) as [->|];
    [by right | done].
Qed.

Lemma relation_not_datameta l : utils.relation l = true → utils.datameta l = false.
Proof.
  unfold utils.relation, utils.datameta.
  destruct (utils.at_keyword "relation" l) as [r|] eqn:Hr; [|done]. intros _.
  apply at_keyword_first in Hr as (s' & -> & Hr).
  destruct s' as [|c s']; [done|].
  apply keyword_head in Hr as [-> | ->]; by vm_compute.
Qed.

Lemma attribute_not_datameta l : utils.attribute l = true → utils.datameta l = false.
Proof.
  unfold utils.attribute, utils.datameta.
  destruct (utils.at_keyword "attribute" l) as [r|] eqn:Hr; [|done]. intros _.
  apply at_keyword_first in Hr as (s' & -> & Hr).
  destruct s' as [|c s']; [done|].
  apply keyword_head in Hr as [-> | ->]; by vm_compute.
Qed.

Lemma relation_not_skipped l :
  utils.relation l = true → utils.comment l || utils.empty l = false.
Proof.
  unfold utils.relation.
  destruct (utils.at_keyword "relation" l) as [r|] eqn:Hr; [|done]. intros _.
  by apply at_keyword_first in Hr as (s' & -> & Hr).
Qed.

Lemma read_metadata_line fuel line line' names lines all f :
  utils.datameta line = utils.datameta line' →
  utils.read_metadata fuel line names lines all f
  = utils.read_metadata fuel line' names lines all f.
Proof. intros Hd. destruct fuel; [done|]. simpl. by rewrite Hd. Qed.

Lemma read_metadata_attributes attrs names' :
  Forall2 attribute_line attrs names' →
  ∀ fuel line names lines all buf rest,
    utils.datameta line = false →
    utils.read_metadata (length attrs + fuel) line names lines all
      (utils.Stream buf (text attrs +:+ rest))
    = utils.read_metadata fuel "" (names ++ names') (lines ++ attrs)
        (all ++ attrs) (utils.Stream buf rest).
Proof.
  induction 1 as [|a name attrs names' (Hplain & Hattr & Hname) _ IH];
    intros fuel line names lines all buf rest Hline.
  - rewrite !app_nil_r. by apply read_metadata_line.
  - simpl length. rewrite Nat.add_succ_l, text_cons_app.
    erewrite read_metadata_attribute;
      [ | done | apply cut_line_app, Hplain
        | by rewrite strip_plain_line
        | rewrite strip_plain_line by done; apply index_item, Hname ].
    rewrite strip_plain_line by done.
    rewrite IH by by apply attribute_not_datameta.
    by rewrite <- !app_assoc.
Qed.

Lemma read_metadata_end fuel line names lines all buf rest :
  utils.datameta line = false →
  utils.read_metadata (3 + fuel) line names lines all
    (utils.Stream buf (text [""; "@data"] +:+ rest))
  = (utils.Stream buf rest, Ret (names, lines, all ++ [""; "@data"])).
Proof.
  intros Hline. change (3 + fuel)%nat with (S (S (S fuel))).
  rewrite text_cons_app.
  erewrite read_metadata_other; [|done|by apply cut_line_app|reflexivity].
  rewrite text_cons_app.
  erewrite read_metadata_other; [|done|by apply cut_line_app|reflexivity].
  rewrite read_metadata_done by reflexivity.
  by rewrite <- app_assoc.
Qed.

(** Scanning the header that [create_metadata_rows] writes gives back the
    attribute lines it was written from and leaves the file at the first
    data row. *)
Lemma scan_written_header rel_name attrs names data fuel :
  relation_line ("@relation " +:+ rel_name) →
  Forall2 attribute_line attrs names →
  (length attrs + 4 ≤ fuel)%nat →
  utils.get_metadata_if_arff fuel
    (utils.from_text
       (py.concat (utils.create_metadata_rows rel_name attrs) +:+ data))
  = (utils.Stream
       (py.concat (utils.create_metadata_rows rel_name attrs) +:+ data) data,
     Ret (utils.Metadata true names attrs
            (["@relation " +:+ rel_name; ""] ++ attrs ++ [""; "@data"]))).
Proof.
  intros [Hplain Hrel] Hattrs Hfuel.
  replace fuel with (S (length attrs + (3 + (fuel - length attrs - 4))))
    by lia.
  set (k := (fuel - length attrs - 4)%nat).
  rewrite header_text. unfold utils.from_text.
  set (buf := text _ +:+ data).
  assert (Hbuf : buf = ("@relation " +:+ rel_name) +:+ py.nl
                       +:+ (text ("" :: attrs ++ [""; "@data"]) +:+ data)).
  { unfold buf. simpl app. by rewrite text_cons_app. }
  erewrite get_metadata_if_arff_relation; cycle 1.
  - simpl utils.unread. rewrite Hbuf at 1. apply cut_line_app, Hplain.
  - rewrite strip_plain_line by done.
    by apply skip_comments_stop, relation_not_skipped.
  - done.
  - rewrite text_cons_app.
    erewrite read_metadata_other;
      [|by apply relation_not_datameta|by apply cut_line_app|reflexivity].
    rewrite text_app, string_app_assoc.
    rewrite read_metadata_attributes with (names' := names) by done.
    rewrite read_metadata_end by done.
    reflexivity.
Qed.

(** C1, as the code has it: for an ARFF input whose header already has
    the layout of the writer (the relation line, a blank line, the
    attribute lines, a blank line and [@data], each ended by a newline
    and none carrying surrounding whitespace), the scanner returns with
    the file at the first data row, and the writer, given the relation
    name of the input and the scanned attribute lines, reproduces the
    header character for character. *)
Theorem scan_then_emit_written_header :
  ∀ rel_name attrs names data fuel,
    relation_line ("@relation " +:+ rel_name) →
    Forall2 attribute_line attrs names →
    (length attrs + 4 ≤ fuel)%nat →
    let header := py.concat (utils.create_metadata_rows rel_name attrs) in
    ∃ md,
      utils.get_metadata_if_arff fuel (utils.from_text (header +:+ data))
      = (utils.Stream (header +:+ data) data, Ret md)
      ∧ utils.is_arff md = true
      ∧ utils.attr_names md = names
      ∧ py.concat (utils.create_metadata_rows rel_name (utils.attr_lines md))
        = header.
Proof.
  intros rel_name attrs names data fuel Hrel Hattrs Hfuel header.
  eexists. split; [by apply scan_written_header|]. done.
Qed.

Lemma scan_then_emit_written_header_witness :
  ∃ md,
    utils.get_metadata_if_arff 9
      (utils.from_text
         (text ["@relation foo"; ""; "@attribute a numeric";
                "@attribute b {x,y}"; ""; "@data"; "1,x"]))
    = (utils.Stream
         (text ["@relation foo"; ""; "@attribute a numeric";
                "@attribute b {x,y}"; ""; "@data"; "1,x"])
         (text ["1,x"]),
       Ret md)
    ∧ utils.attr_names md = ["a"; "b"]
    ∧ py.concat (utils.create_metadata_rows "foo" (utils.attr_lines md))
      = text ["@relation foo"; ""; "@attribute a numeric";
              "@attribute b {x,y}"; ""; "@data"].
Proof.
  destruct (scan_then_emit_written_header "foo"
              ["@attribute a numeric"; "@attribute b {x,y}"] ["a"; "b"]
              (text ["1,x"]) 9%nat)
    as (md & Hscan & _ & Hnames & Hemit).
  - by repeat split.
  - by repeat constructor.
  - simpl. lia.
  - exists md. split; [exact Hscan|]. split; [exact Hnames | exact Hemit].
Defined.

(** C1 as stated fails: the ARFF input below opens with a comment line;
    the scanner recognises it and returns, and whatever relation name the
    writer is given, its header differs from the header of the input,
    whose comment line is not written back. *)
Lemma scan_then_emit_drops_comment_line :
  ∃ md,
    utils.get_metadata_if_arff 9
      (utils.from_text
         (text ["% c"; "@relation foo"; ""; "@attribute a numeric"; "";
                "@data"; "1"]))
    = (utils.Stream
         (text ["% c"; "@relation foo"; ""; "@attribute a numeric"; "";
                "@data"; "1"])
         (text ["1"]),
       Ret md)
    ∧ utils.is_arff md = true
    ∧ ∀ rel_name,
        py.concat (utils.create_metadata_rows rel_name (utils.attr_lines md))
        ≠ text ["% c"; "@relation foo"; ""; "@attribute a numeric"; ""; "@data"].
Proof.
  eexists. split; [reflexivity|]. split; [reflexivity|].
  intros rel_name Heq. vm_compute in Heq. discriminate Heq.
Qed.

(** ** Select with every column in its place *)






Lemma skip_comments_buffer fuel :
  ∀ line all f f' r,
    utils.skip_comments fuel line all f = (f', r) →
    utils.buffer f' = utils.buffer f.
Proof.
  induction fuel as [|fuel IH]; intros line all f f' r; simpl.
  - by intros [= <- _].
  - destruct (utils.comment line || utils.empty line).
    + unfold bind, utils.readline.
      destruct (utils.cut_line (utils.unread f)) as [l rest].
      intros Hrest. by apply IH in Hrest.
    + by intros [= <- _].
Qed.

(** A file the scanner does not take for ARFF is handed back rewound. *)
Lemma get_metadata_if_arff_rewinds fuel f f' md :
  utils.get_metadata_if_arff fuel f = (f', Ret md) →
  utils.is_arff md = false →
  f' = utils.Stream (utils.buffer f) (utils.buffer f).
Proof.
  unfold utils.get_metadata_if_arff, bind at 1, utils.readline.
  destruct (utils.cut_line (utils.unread f)) as [l rest].
  unfold bind at 1.
  destruct (utils.skip_comments fuel (py.strip l) [] _)
    as [f1 [[line all]| |]] eqn:Hskip; [|done..].
  apply skip_comments_buffer in Hskip. simpl in Hskip.
  destruct (utils.relation line).
  - unfold bind.
    destruct (utils.read_metadata _ _ _ _ _ _) as [f2 [[[names lines] all']| |]];
      [|done..].
    by intros [= _ <-].
  - unfold bind, utils.seek0, modify, ret. simpl.
    intros [= <- _] _. by rewrite Hskip.
Qed.

Lemma handle_metadata_arff fuel specs w f md cols sel :
  utils.get_metadata_if_arff fuel (arffselect.in_ w) = (f, Ret md) →
  utils.is_arff md = true →
  traverse (λ s, arffselect.get_column_to_select s (utils.is_arff md)
                   (utils.attr_names md)) specs = Ret cols →
  traverse (py.index "attr_lines[i]" (utils.attr_lines md)) cols = Ret sel →
  arffselect.handle_metadata_and_get_columns fuel specs w
  = (arffselect.World f
       (io.writelines
          (utils.create_metadata_rows (select_name (arffselect.out_ w)) sel)
          (arffselect.out_ w)),
     Ret cols).
Proof.
  intros Hscan Harff Hcols Hsel.
  unfold arffselect.handle_metadata_and_get_columns, bind at 1,
    arffselect.on_in, zoom.
  rewrite Hscan. unfold bind at 1, lift. rewrite Hcols, Harff.
  unfold bind at 1. unfold bind at 1. by rewrite Hsel.
Qed.

Lemma handle_metadata_plain fuel specs w f md cols :
  utils.get_metadata_if_arff fuel (arffselect.in_ w) = (f, Ret md) →
  utils.is_arff md = false →
  traverse (λ s, arffselect.get_column_to_select s (utils.is_arff md)
                   (utils.attr_names md)) specs = Ret cols →
  arffselect.handle_metadata_and_get_columns fuel specs w
  = (arffselect.World f (arffselect.out_ w), Ret cols).
Proof.
  intros Hscan Harff Hcols.
  unfold arffselect.handle_metadata_and_get_columns, bind at 1,
    arffselect.on_in, zoom.
  rewrite Hscan. unfold bind at 1, lift. by rewrite Hcols, Harff.
Qed.

Lemma select_after_header `{Csv} fuel specs input_delim output_delim w w1 cols :
  arffselect.handle_metadata_and_get_columns fuel specs w = (w1, Ret cols) →
  arffselect.select fuel specs input_delim output_delim w
  = for_each (arffselect.select_line output_delim cols)
      (csv_reader input_delim (utils.unread (arffselect.in_ w1)))
      (arffselect.World
         (utils.Stream (utils.buffer (arffselect.in_ w1)) EmptyString)
         (arffselect.out_ w1)).
Proof.
  intros Hhead. unfold arffselect.select, bind at 1. by rewrite Hhead.
Qed.






(** * Further properties of the sources *)

(** ** The scanner: blank lines *)

Lemma lstrip_head s c r : py.lstrip s = String c r → py.isspace c = false.
Proof.
  induction s as [|d s IH]; [done|]. simpl.
  destruct (py.isspace d) eqn:Hd; [done|]. by intros [= <- _].
Qed.

(** Lines are stripped before they are tested, so the pattern [empty],
    which asks for at least one whitespace character, matches none of
    them. *)
Lemma empty_never_matches_stripped l : utils.empty (py.strip l) = false.
Proof.
  unfold py.strip. destruct (py.lstrip (py.rstrip l)) as [|c r] eqn:Hl; [done|].
  simpl. by rewrite (lstrip_head _ _ _ Hl).
Qed.

(** X1: a file whose first line is blank is not taken for ARFF, whatever
    follows, an ARFF header included: the scanner returns at once with
    the file rewound and nothing recorded. *)
Theorem blank_first_line_is_not_arff :
  ∀ ws rest fuel,
    no_newline ws = true →
    py.strip ws = EmptyString →
    utils.get_metadata_if_arff (S fuel) (utils.from_text (ws +:+ py.nl +:+ rest))
    = (utils.from_text (ws +:+ py.nl +:+ rest),
       Ret (utils.Metadata false [] [] [])).
Proof.
  intros ws rest fuel Hnl Hws.
  erewrite get_metadata_if_arff_other; cycle 1.
  - by apply cut_line_app.
  - unfold py.strip in *. rewrite rstrip_app_nl, Hws. reflexivity.
  - reflexivity.
  - reflexivity.
Qed.

Lemma blank_first_line_is_not_arff_witness :
  utils.get_metadata_if_arff 9
    (utils.from_text (text [" "; "@relation foo"; "@attribute a numeric"; "@data"; "1"]))
  = (utils.from_text (text [" "; "@relation foo"; "@attribute a numeric"; "@data"; "1"]),
     Ret (utils.Metadata false [] [] [])).
Proof.
  apply (blank_first_line_is_not_arff " "
           (text ["@relation foo"; "@attribute a numeric"; "@data"; "1"]) 8%nat);
    reflexivity.
Defined.

(** ** The scanner: what a returned scan has recorded *)

Lemma cut_line_parts s l r : utils.cut_line s = (l, r) → s = l +:+ r.
Proof.
  revert l r. induction s as [|c s IH]; intros l r; simpl.
  - by intros [= <- <-].
  - destruct (Ascii.eqb c py.newline); [by intros [= <- <-]|].
    destruct (utils.cut_line s) as [l' r']. intros [= <- <-].
    by rewrite string_app_cons, <- (IH l' r').
Qed.

Lemma skipped_line l :
  utils.comment l || utils.empty l = true →
  utils.attribute l = false ∧ utils.datameta l = false.
Proof.
  destruct l as [|c r]; [done|].
  unfold utils.attribute, utils.datameta, utils.at_keyword. simpl.
  destruct (Ascii.eqb_spec c "@") as [->|]; [done|]. done.
Qed.

Lemma skip_comments_inv fuel :
  ∀ line all f f' line' all',
    utils.skip_comments fuel line all f = (f', Ret (line', all')) →
    ∃ skipped consumed,
      all' = all ++ skipped
      ∧ Forall (λ l, utils.comment l || utils.empty l = true) skipped
      ∧ utils.comment line' || utils.empty line' = false
      ∧ utils.buffer f' = utils.buffer f
      ∧ utils.unread f = consumed +:+ utils.unread f'.
Proof.
  induction fuel as [|fuel IH]; intros line all f f' line' all'; [done|].
  simpl. destruct (utils.comment line || utils.empty line) eqn:Hline.
  - unfold bind, utils.readline.
    destruct (utils.cut_line (utils.unread f)) as [l r] eqn:Hcut.
    intros Hrest. apply IH in Hrest
      as (skipped & consumed & -> & Hsk & Hline' & Hbuf & Hun).
    simpl in *. exists (line :: skipped), (l +:+ consumed).
    rewrite <- app_assoc. repeat split; try done.
    + by constructor.
    + by rewrite string_app_assoc, <- Hun, <- (cut_line_parts _ _ _ Hcut).
  - intros [= <- <- <-]. exists [], "".
    by rewrite app_nil_r.
Qed.

Lemma read_metadata_inv fuel :
  ∀ line names lines all f f' names' lines' all',
    utils.read_metadata fuel line names lines all f
    = (f', Ret (names', lines', all')) →
    ∃ more added init last consumed,
      all' = all ++ more
      ∧ lines' = lines ++ List.filter utils.attribute more
      ∧ names' = names ++ added
      ∧ Forall2 (λ l n, py.item (py.split l) 1 = Some n)
          (List.filter utils.attribute more) added
      ∧ line :: more = init ++ [last]
      ∧ Forall (λ l, utils.datameta l = false) init
      ∧ utils.datameta last = true
      ∧ utils.buffer f' = utils.buffer f
      ∧ utils.unread f = consumed +:+ utils.unread f'.
Proof.
  induction fuel as [|fuel IH];
    intros line names lines all f f' names' lines' all'; [done|].
  simpl. destruct (utils.datameta line) eqn:Hline.
  - intros [= <- <- <- <-]. exists [], [], [], line, "".
    rewrite !app_nil_r. repeat split; by try constructor.
  - unfold bind at 1, utils.readline.
    destruct (utils.cut_line (utils.unread f)) as [l r] eqn:Hcut.
    apply cut_line_parts in Hcut.
    destruct (utils.attribute (py.strip l)) eqn:Hattr.
    + unfold bind, lift, py.index.
      destruct (py.item (py.split (py.strip l)) 1) as [name|] eqn:Hname;
        [|done].
      intros Hrest. apply IH in Hrest
        as (more & added & init & last & consumed
            & -> & -> & -> & Hnames & Hinit & Hnot & Hlast & Hbuf & Hun).
      simpl in *.
      exists (py.strip l :: more), (name :: added), (line :: init), last,
        (l +:+ consumed).
      split_and!.
      * by rewrite <- app_assoc.
      * simpl. by rewrite Hattr, <- app_assoc.
      * by rewrite <- app_assoc.
      * simpl. rewrite Hattr. by constructor.
      * simpl. by rewrite Hinit.
      * by constructor.
      * done.
      * done.
      * by rewrite string_app_assoc, <- Hun.
    + intros Hrest. apply IH in Hrest
        as (more & added & init & last & consumed
            & -> & -> & -> & Hnames & Hinit & Hnot & Hlast & Hbuf & Hun).
      simpl in *.
      exists (py.strip l :: more), added, (line :: init), last,
        (l +:+ consumed).
      split_and!.
      * by rewrite <- app_assoc.
      * simpl. by rewrite Hattr.
      * done.
      * simpl. by rewrite Hattr.
      * simpl. by rewrite Hinit.
      * by constructor.
      * done.
      * done.
      * by rewrite string_app_assoc, <- Hun.
Qed.

(** The two ways [get_metadata_if_arff] returns. *)
Lemma get_metadata_if_arff_cases fuel f f' md :
  utils.get_metadata_if_arff fuel f = (f', Ret md) →
  ∃ l r f1 line skipped,
    utils.cut_line (utils.unread f) = (l, r)
    ∧ utils.skip_comments fuel (py.strip l) []
        (utils.Stream (utils.buffer f) r) = (f1, Ret (line, skipped))
    ∧ (utils.relation line = false
       ∧ md = utils.Metadata false [] [] skipped
       ∧ f' = utils.Stream (utils.buffer f1) (utils.buffer f1)
       ∨ utils.relation line = true
         ∧ ∃ names lines all,
             utils.read_metadata fuel line [] [] (skipped ++ [line]) f1
             = (f', Ret (names, lines, all))
             ∧ md = utils.Metadata true names lines all).
Proof.
  unfold utils.get_metadata_if_arff, bind at 1, utils.readline.
  destruct (utils.cut_line (utils.unread f)) as [l r] eqn:Hcut.
  unfold bind at 1.
  destruct (utils.skip_comments fuel (py.strip l) [] _)
    as [f1 [[line skipped]| |]] eqn:Hskip; [|done..].
  intros Hrest. exists l, r, f1, line, skipped.
  split; [done|]. split; [done|].
  destruct (utils.relation line).
  - right. split; [done|]. unfold bind in Hrest.
    destruct (utils.read_metadata _ _ _ _ _ _)
      as [f2 [[[names lines] all]| |]]; [|done..].
    injection Hrest as <- <-. by exists names, lines, all.
  - left. unfold bind, utils.seek0, modify, ret in Hrest. simpl in Hrest.
    by injection Hrest as <- <-.
Qed.

Lemma relation_not_attribute l :
  utils.relation l = true → utils.attribute l = false.
Proof.
  unfold utils.relation, utils.attribute.
  destruct (utils.at_keyword "relation" l) as [r|] eqn:Hr; [|done]. intros _.
  apply at_keyword_first in Hr as (s' & -> & Hr).
  destruct s' as [|c s']; [done|].
  apply keyword_head in Hr as [-> | ->]; by vm_compute.
Qed.

Lemma filter_nothing {A} (P : A → bool) l :
  Forall (λ x, P x = false) l → List.filter P l = [].
Proof. induction 1 as [|x l Hx _ IH]; [done|]. simpl. by rewrite Hx. Qed.

(** X2: whenever the scanner returns, the attribute lines it reports are
    exactly the recorded metadata lines that match the attribute
    pattern, in their order, and the attribute names are, one for one,
    the second whitespace-separated tokens of these lines; so there are
    as many names as lines. *)
Theorem scan_records_attribute_lines :
  ∀ fuel f f' md,
    utils.get_metadata_if_arff fuel f = (f', Ret md) →
    utils.attr_lines md
    = List.filter utils.attribute (utils.all_metadata_lines md)
    ∧ Forall2 (λ l n, py.item (py.split l) 1 = Some n)
        (utils.attr_lines md) (utils.attr_names md)
    ∧ length (utils.attr_names md) = length (utils.attr_lines md).
Proof.
  intros fuel f f' md Hscan.
  apply get_metadata_if_arff_cases in Hscan
    as (l & r & f1 & line & skipped & Hcut & Hskip & Hcase).
  apply skip_comments_inv in Hskip
    as (skipped' & consumed & Hsk & Hskipped & Hline & _ & _).
  simpl in Hsk. subst skipped'.
  assert (Hnone : List.filter utils.attribute skipped = []).
  { apply filter_nothing. eapply Forall_impl; [exact Hskipped|].
    intros x Hx. by apply skipped_line in Hx as [? _]. }
  destruct Hcase as [(Hrel & -> & _) | (Hrel & names & lines & all & Hread & ->)].
  - simpl. rewrite Hnone. by repeat split; try constructor.
  - apply read_metadata_inv in Hread
      as (more & added & init & last & consumed'
          & -> & -> & -> & Hnames & _).
    simpl. rewrite !List.filter_app, Hnone. simpl.
    rewrite (relation_not_attribute _ Hrel). simpl.
    split; [done|]. split; [done|].
    symmetry. by eapply Forall2_length.
Qed.

Lemma scan_records_attribute_lines_witness :
  ["@attribute a numeric"; "@ATTRIBUTE  b {x,y}"]
  = List.filter utils.attribute
      ["% c"; "@relation foo"; "@attribute a numeric"; "% d";
       "@ATTRIBUTE  b {x,y}"; "@data"]
  ∧ Forall2 (λ l n, py.item (py.split l) 1 = Some n)
      ["@attribute a numeric"; "@ATTRIBUTE  b {x,y}"] ["a"; "b"]
  ∧ length ["a"; "b"] = length ["@attribute a numeric"; "@ATTRIBUTE  b {x,y}"].
Proof.
  apply (scan_records_attribute_lines 9%nat
           (utils.from_text
              (text ["% c"; "@relation foo"; "@attribute a numeric"; "% d";
                     "@ATTRIBUTE  b {x,y}"; "@data"; "1,x"]))
           (utils.Stream
              (text ["% c"; "@relation foo"; "@attribute a numeric"; "% d";
                     "@ATTRIBUTE  b {x,y}"; "@data"; "1,x"])
              (text ["1,x"]))
           (utils.Metadata true ["a"; "b"]
              ["@attribute a numeric"; "@ATTRIBUTE  b {x,y}"]
              ["% c"; "@relation foo"; "@attribute a numeric"; "% d";
               "@ATTRIBUTE  b {x,y}"; "@data"])).
  vm_compute. reflexivity.
Defined.

Lemma readlines_cons s l r n ls r' :
  utils.cut_line s = (l, r) →
  readlines n r = (ls, r') →
  readlines (S n) s = (l :: ls, r').
Proof. intros Hcut Hrest. simpl. by rewrite Hcut, Hrest. Qed.

Lemma readlines_app n m :
  ∀ s a r b r',
    readlines n s = (a, r) →
    readlines m r = (b, r') →
    readlines (n + m) s = (a ++ b, r').
Proof.
  induction n as [|n IH]; intros s a r b r'; simpl.
  - by intros [= <- <-].
  - destruct (utils.cut_line s) as [l r0].
    destruct (readlines n r0) as [ls r1] eqn:Hn.
    intros [= <- <-] Hm. by rewrite (IH _ _ _ _ _ Hn Hm).
Qed.

Lemma readlines_concat n :
  ∀ s a r, readlines n s = (a, r) → length a = n ∧ s = py.concat a +:+ r.
Proof.
  induction n as [|n IH]; intros s a r; simpl.
  - by intros [= <- <-].
  - destruct (utils.cut_line s) as [l r0] eqn:Hcut.
    destruct (readlines n r0) as [ls r1] eqn:Hn.
    intros [= <- <-]. destruct (IH _ _ _ Hn) as [Hlen Hr0].
    split; [simpl; by rewrite Hlen|].
    simpl. by rewrite string_app_assoc, <- Hr0, <- (cut_line_parts _ _ _ Hcut).
Qed.

(** The lines the first loop has read, beyond the one it was entered
    with. *)
Lemma skip_comments_reads fuel :
  ∀ line all f f' line' all',
    utils.skip_comments fuel line all f = (f', Ret (line', all')) →
    ∃ raws,
      readlines (length raws) (utils.unread f) = (raws, utils.unread f')
      ∧ all' ++ [line'] = all ++ [line] ++ (py.strip <$> raws).
Proof.
  induction fuel as [|fuel IH]; intros line all f f' line' all'; [done|].
  simpl. destruct (utils.comment line || utils.empty line).
  - unfold bind, utils.readline.
    destruct (utils.cut_line (utils.unread f)) as [l r] eqn:Hcut.
    intros Hrest. apply IH in Hrest as (raws & Hraws & Hall).
    simpl in Hraws. exists (l :: raws). split.
    + by apply readlines_cons with (r := r).
    + rewrite Hall, <- !app_assoc. done.
  - intros [= <- <- <-]. by exists [].
Qed.

(** The lines the second loop has read. *)
Lemma read_metadata_reads fuel :
  ∀ line names lines all f f' names' lines' all',
    utils.read_metadata fuel line names lines all f
    = (f', Ret (names', lines', all')) →
    ∃ raws,
      readlines (length raws) (utils.unread f) = (raws, utils.unread f')
      ∧ all' = all ++ (py.strip <$> raws).
Proof.
  induction fuel as [|fuel IH];
    intros line names lines all f f' names' lines' all'; [done|].
  simpl. destruct (utils.datameta line).
  - intros [= <- <- <- <-]. exists []. by rewrite app_nil_r.
  - unfold bind at 1, utils.readline.
    destruct (utils.cut_line (utils.unread f)) as [l r] eqn:Hcut.
    assert (Hstep : ∀ names1 lines1,
      utils.read_metadata fuel (py.strip l) names1 lines1
        (all ++ [py.strip l]) (utils.Stream (utils.buffer f) r)
      = (f', Ret (names', lines', all')) →
      ∃ raws,
        readlines (length raws) (utils.unread f) = (raws, utils.unread f')
        ∧ all' = all ++ (py.strip <$> raws)).
    { intros names1 lines1 Hrest. apply IH in Hrest as (raws & Hraws & ->).
      simpl in Hraws. exists (l :: raws). split.
      - by apply readlines_cons with (r := r).
      - by rewrite <- app_assoc. }
    destruct (utils.attribute (py.strip l)).
    + unfold bind, lift.
      destruct (py.index "line.split()[1]" (py.split (py.strip l)) 1)
        as [name| |]; [|done..].
      apply Hstep.
    + apply Hstep.
Qed.

(** X3: when the scanner returns with a file taken for ARFF, the lines
    it has recorded are, stripped, the lines of the file from where it
    stood, one for one and in their order; the last of them matches the
    [@data] pattern and no earlier one does; the text of the file is
    untouched, and the file stands right after these lines, so right
    after its first [@data] line. *)
Theorem scan_stops_at_first_data_line :
  ∀ fuel f f' md,
    utils.get_metadata_if_arff fuel f = (f', Ret md) →
    utils.is_arff md = true →
    ∃ init last raws,
      utils.all_metadata_lines md = init ++ [last]
      ∧ Forall (λ l, utils.datameta l = false) init
      ∧ utils.datameta last = true
      ∧ utils.buffer f' = utils.buffer f
      ∧ readlines (length (utils.all_metadata_lines md)) (utils.unread f)
        = (raws, utils.unread f')
      ∧ py.strip <$> raws = utils.all_metadata_lines md
      ∧ utils.unread f = py.concat raws +:+ utils.unread f'.
Proof.
  intros fuel f f' md Hscan Harff.
  apply get_metadata_if_arff_cases in Hscan
    as (l & r & f1 & line & skipped & Hcut & Hskip & Hcase).
  pose proof (skip_comments_reads _ _ _ _ _ _ _ Hskip) as (raws1 & Hraws1 & Hall1).
  apply skip_comments_inv in Hskip
    as (skipped' & c1 & Hsk & Hskipped & Hline & Hbuf1 & Hun1).
  simpl in Hsk, Hbuf1, Hun1, Hraws1, Hall1. subst skipped'.
  destruct Hcase as [(_ & -> & _) | (Hrel & names & lines & all & Hread & ->)];
    [done|].
  pose proof (read_metadata_reads _ _ _ _ _ _ _ _ _ _ Hread)
    as (raws2 & Hraws2 & Hall2).
  apply read_metadata_inv in Hread
    as (more & added & init & last & c2
        & -> & _ & _ & _ & Hinit & Hnot & Hlast & Hbuf2 & Hun2).
  assert (Hreads : readlines (S (length raws1) + length raws2) (utils.unread f)
                   = ((l :: raws1) ++ raws2, utils.unread f')).
  { apply readlines_app with (r := utils.unread f1); [|done].
    by apply readlines_cons with (r := r). }
  assert (Hstrip : py.strip <$> ((l :: raws1) ++ raws2)
                   = (skipped ++ [line]) ++ more).
  { rewrite fmap_app, fmap_cons.
    apply app_inv_head in Hall2 as <-. by rewrite Hall1. }
  exists (skipped ++ init), last, ((l :: raws1) ++ raws2). simpl.
  split_and!.
  - rewrite <- !app_assoc. simpl. by rewrite Hinit.
  - apply Forall_app. split; [|done].
    eapply Forall_impl; [exact Hskipped|].
    intros x Hx. by apply skipped_line in Hx as [_ ?].
  - done.
  - congruence.
  - rewrite <- Hstrip, length_fmap, length_app. exact Hreads.
  - exact Hstrip.
  - by apply readlines_concat in Hreads as [_ ?].
Qed.

Lemma scan_stops_at_first_data_line_witness :
  ∃ init last raws,
    ["@relation foo"; "@attribute a numeric"; "@DATAbase"] = init ++ [last]
    ∧ Forall (λ l, utils.datameta l = false) init
    ∧ utils.datameta last = true
    ∧ text ["@relation foo"; " @attribute a numeric"; "@DATAbase"; "@data"]
      = text ["@relation foo"; " @attribute a numeric"; "@DATAbase"; "@data"]
    ∧ readlines (length ["@relation foo"; "@attribute a numeric"; "@DATAbase"])
        (text ["@relation foo"; " @attribute a numeric"; "@DATAbase"; "@data"])
      = (raws, text ["@data"])
    ∧ py.strip <$> raws
      = ["@relation foo"; "@attribute a numeric"; "@DATAbase"]
    ∧ text ["@relation foo"; " @attribute a numeric"; "@DATAbase"; "@data"]
      = py.concat raws +:+ text ["@data"].
Proof.
  apply (scan_stops_at_first_data_line 9%nat
           (utils.from_text
              (text ["@relation foo"; " @attribute a numeric"; "@DATAbase";
                     "@data"]))
           (utils.Stream
              (text ["@relation foo"; " @attribute a numeric"; "@DATAbase";
                     "@data"])
              (text ["@data"]))
           (utils.Metadata true ["a"] ["@attribute a numeric"]
              ["@relation foo"; "@attribute a numeric"; "@DATAbase"])).
  - vm_compute. reflexivity.
  - reflexivity.
Defined.

(** ** The scanner: files that are not ARFF *)

Lemma skip_comments_comments fuel :
  ∀ raw all f f' line' all',
    utils.skip_comments fuel (py.strip raw) all f = (f', Ret (line', all')) →
    ∃ skipped,
      all' = all ++ skipped ∧ Forall (λ l, utils.comment l = true) skipped.
Proof.
  induction fuel as [|fuel IH]; intros raw all f f' line' all'; [done|].
  simpl. rewrite empty_never_matches_stripped, orb_false_r.
  destruct (utils.comment (py.strip raw)) eqn:Hc.
  - unfold bind, utils.readline.
    destruct (utils.cut_line (utils.unread f)) as [l r].
    intros Hrest. apply IH in Hrest as (skipped & -> & Hsk).
    exists (py.strip raw :: skipped). rewrite <- app_assoc.
    split; [done|]. by constructor.
  - intros [= <- <- <-]. exists []. by rewrite app_nil_r.
Qed.

(** X4: when the scanner returns with a file it does not take for ARFF,
    the file is rewound to its start, no attribute is reported, and the
    recorded lines are the comment lines that opened the file. *)
Theorem scan_not_arff_rewinds :
  ∀ fuel f f' md,
    utils.get_metadata_if_arff fuel f = (f', Ret md) →
    utils.is_arff md = false →
    f' = utils.Stream (utils.buffer f) (utils.buffer f)
    ∧ utils.attr_names md = []
    ∧ utils.attr_lines md = []
    ∧ Forall (λ l, utils.comment l = true) (utils.all_metadata_lines md).
Proof.
  intros fuel f f' md Hscan Harff.
  split; [by eapply get_metadata_if_arff_rewinds|].
  apply get_metadata_if_arff_cases in Hscan
    as (l & r & f1 & line & skipped & Hcut & Hskip & Hcase).
  destruct Hcase as [(_ & -> & _) | (_ & names & lines & all & _ & ->)];
    [|done].
  apply skip_comments_comments in Hskip as (skipped' & Hsk & Hcomments).
  simpl in Hsk. subst skipped'. done.
Qed.

Lemma scan_not_arff_rewinds_witness :
  utils.Stream (text ["% c"; "%d"; "1,2"; "3,4"]) (text ["% c"; "%d"; "1,2"; "3,4"])
  = utils.Stream (text ["% c"; "%d"; "1,2"; "3,4"]) (text ["% c"; "%d"; "1,2"; "3,4"])
  ∧ @nil string = []
  ∧ @nil string = []
  ∧ Forall (λ l, utils.comment l = true) ["% c"; "%d"].
Proof.
  apply (scan_not_arff_rewinds 9%nat
           (utils.from_text (text ["% c"; "%d"; "1,2"; "3,4"]))
           (utils.from_text (text ["% c"; "%d"; "1,2"; "3,4"]))
           (utils.Metadata false [] [] ["% c"; "%d"])).
  - vm_compute. reflexivity.
  - reflexivity.
Defined.






(** ** The scanner: an attribute line without a name *)

Lemma read_metadata_nameless fuel line names lines all f l r :
  utils.datameta line = false →
  utils.cut_line (utils.unread f) = (l, r) →
  utils.attribute (py.strip l) = true →
  py.item (py.split (py.strip l)) 1 = None →
  utils.read_metadata (S fuel) line names lines all f
  = (utils.Stream (utils.buffer f) r, Raise (IndexError "line.split()[1]")).
Proof.
  intros Hd Hcut Ha Hn. simpl. rewrite Hd.
  unfold bind, utils.readline, lift, py.index. by rewrite Hcut, Ha, Hn.
Qed.

(** X6: in a file taken for ARFF, a line that matches the attribute
    pattern but holds a single whitespace-separated token, met before
    the [@data] line, makes the scanner raise IndexError when it takes
    the name; the file is left just after that line. *)
Theorem scan_raises_on_attribute_without_name :
  ∀ rel_line attrs names bad rest fuel,
    relation_line rel_line →
    Forall2 attribute_line attrs names →
    plain_line bad →
    utils.attribute bad = true →
    py.item (py.split bad) 1 = None →
    (length attrs + 1 ≤ fuel)%nat →
    utils.get_metadata_if_arff fuel
      (utils.from_text (text (rel_line :: attrs ++ [bad]) +:+ rest))
    = (utils.Stream (text (rel_line :: attrs ++ [bad]) +:+ rest) rest,
       Raise (IndexError "line.split()[1]")).
Proof.
  intros rel_line attrs names bad rest fuel [Hplain Hrel] Hattrs Hbad Ha Hn Hfuel.
  replace fuel with (length attrs + S (fuel - length attrs - 1))%nat by lia.
  set (k := (fuel - length attrs - 1)%nat).
  unfold utils.from_text. set (buf := text _ +:+ rest).
  assert (Hbuf : buf = rel_line +:+ py.nl +:+ (text (attrs ++ [bad]) +:+ rest))
    by (unfold buf; by rewrite text_cons_app).
  erewrite get_metadata_if_arff_relation; cycle 1.
  - simpl utils.unread. rewrite Hbuf at 1. apply cut_line_app, Hplain.
  - rewrite strip_plain_line by done.
    rewrite Nat.add_succ_r.
    by apply skip_comments_stop, relation_not_skipped.
  - done.
  - rewrite text_app, string_app_assoc.
    rewrite read_metadata_attributes with (names' := names)
      by (done || by apply relation_not_datameta).
    rewrite text_cons_app.
    erewrite read_metadata_nameless;
      [reflexivity | reflexivity | by apply cut_line_app, Hbad
       | by rewrite strip_plain_line | by rewrite strip_plain_line].
Qed.

Lemma scan_raises_on_attribute_without_name_witness :
  utils.get_metadata_if_arff 9
    (utils.from_text
       (text ("@relation foo" :: ["@attribute a numeric"] ++ ["@attributeb"])
          +:+ text ["@data"; "1,2"]))
  = (utils.Stream
       (text ("@relation foo" :: ["@attribute a numeric"] ++ ["@attributeb"])
          +:+ text ["@data"; "1,2"])
       (text ["@data"; "1,2"]),
     Raise (IndexError "line.split()[1]")).
Proof.
  apply (scan_raises_on_attribute_without_name "@relation foo"
           ["@attribute a numeric"] ["a"] "@attributeb"
           (text ["@data"; "1,2"]) 9%nat).
  - by repeat split.
  - by repeat constructor.
  - by split.
  - reflexivity.
  - reflexivity.
  - simpl. lia.
Defined.

(** ** [split_on_condition] *)

Section split_on_condition_properties.
Context {A : Type} (str : A → string) (cond : A → bool).

#[local] Abbreviation loop :=
  (utils_deprecated.split_on_condition_loop str cond).

(** A list is a run of items satisfying a test followed by nothing or by
    an item that fails it. *)
Lemma run_then (P : A → bool) l :
  ∃ l1 l2, l = l1 ++ l2 ∧ Forall (λ x, P x = true) l1
           ∧ (l2 = [] ∨ ∃ y l2', l2 = y :: l2' ∧ P y = false).
Proof.
  induction l as [|x l (l1 & l2 & -> & Hl1 & Hl2)].
  - exists [], []. split; [done|]. split; [constructor | by left].
  - destruct (P x) eqn:Hx.
    + exists (x :: l1), l2. split; [done|]. split; [by constructor | done].
    + exists [], (x :: l1 ++ l2). split; [done|]. split; [constructor|].
      right. by exists x, (l1 ++ l2).
Qed.

Lemma loop_post l :
  ∀ pre mid post,
    Forall (λ x, cond x = false) l →
    loop false false true pre mid post l = Returned (pre, mid, post ++ l).
Proof.
  induction l as [|x l IH]; intros pre mid post Hl; simpl.
  - by rewrite app_nil_r.
  - apply Forall_cons_1 in Hl as [Hx Hl].
    by rewrite Hx, IH, <- app_assoc.
Qed.

Lemma loop_post_raises l x rest :
  ∀ pre mid post,
    Forall (λ x, cond x = false) l →
    cond x = true →
    loop false false true pre mid post (l ++ x :: rest)
    = Failed (TypeError
        ("condition is true in post-condition segment of list on item "
           +:+ str x)).
Proof.
  induction l as [|y l IH]; intros pre mid post Hl Hx; simpl.
  - by rewrite Hx.
  - apply Forall_cons_1 in Hl as [Hy Hl]. by rewrite Hy, IH.
Qed.

Lemma loop_mid l rest :
  ∀ pre mid post,
    Forall (λ x, cond x = true) l →
    loop false true false pre mid post (l ++ rest)
    = loop false true false pre (mid ++ l) post rest.
Proof.
  induction l as [|x l IH]; intros pre mid post Hl; simpl.
  - by rewrite app_nil_r.
  - apply Forall_cons_1 in Hl as [Hx Hl].
    by rewrite Hx, IH, <- app_assoc.
Qed.

Lemma loop_pre l rest :
  ∀ pre mid post,
    Forall (λ x, cond x = false) l →
    loop true false false pre mid post (l ++ rest)
    = loop true false false (pre ++ l) mid post rest.
Proof.
  induction l as [|x l IH]; intros pre mid post Hl; simpl.
  - by rewrite app_nil_r.
  - apply Forall_cons_1 in Hl as [Hx Hl].
    by rewrite Hx, IH, <- app_assoc.
Qed.

(** Every list has one of the two shapes below; the first is split, the
    second refused. *)
Lemma split_on_condition_shapes lis_ :
  (∃ pre mid post,
     lis_ = pre ++ mid ++ post
     ∧ Forall (λ x, cond x = false) pre
     ∧ Forall (λ x, cond x = true) mid
     ∧ Forall (λ x, cond x = false) post
     ∧ (mid = [] → post = [])
     ∧ utils_deprecated.split_on_condition str lis_ cond
       = Returned (pre, mid, post))
  ∨ (∃ pre mid post x rest,
       lis_ = pre ++ mid ++ post ++ x :: rest
       ∧ Forall (λ x, cond x = false) pre
       ∧ Forall (λ x, cond x = true) mid ∧ mid ≠ []
       ∧ Forall (λ x, cond x = false) post ∧ post ≠ []
       ∧ cond x = true
       ∧ utils_deprecated.split_on_condition str lis_ cond
         = Failed (TypeError
             ("condition is true in post-condition segment of list on item "
                +:+ str x))).
Proof.
  unfold utils_deprecated.split_on_condition.
  destruct (run_then (λ x, negb (cond x)) lis_) as (pre & l2 & -> & Hpre & Hl2).
  assert (Hpre' : Forall (λ x, cond x = false) pre).
  { eapply Forall_impl; [exact Hpre|]. intros x Hx.
    by apply negb_true_iff in Hx. }
  rewrite (loop_pre pre) by done. simpl.
  destruct Hl2 as [->|(y & l2' & -> & Hy)].
  { left. exists pre, [], []. rewrite !app_nil_r.
    split_and!; by try constructor. }
  apply negb_false_iff in Hy. simpl. rewrite Hy.
  destruct (run_then cond l2') as (mid' & l3 & -> & Hmid & Hl3).
  rewrite (loop_mid mid') by done.
  destruct Hl3 as [->|(z & l3' & -> & Hz)].
  { left. exists pre, (y :: mid'), []. rewrite !app_nil_r. simpl.
    split_and!; by try constructor. }
  simpl. rewrite Hz.
  destruct (run_then (λ x, negb (cond x)) l3')
    as (post' & l4 & -> & Hpost & Hl4).
  assert (Hpost' : Forall (λ x, cond x = false) post').
  { eapply Forall_impl; [exact Hpost|]. intros x Hx.
    by apply negb_true_iff in Hx. }
  destruct Hl4 as [->|(u & l4' & -> & Hu)].
  - left. exists pre, (y :: mid'), (z :: post'). rewrite app_nil_r.
    rewrite loop_post by done.
    split_and!; try done; by constructor.
  - right. apply negb_false_iff in Hu.
    exists pre, (y :: mid'), (z :: post'), u, l4'.
    rewrite (loop_post_raises post') by done.
    split_and!; try done; by constructor.
Qed.

End split_on_condition_properties.

(** X7: when [split_on_condition] returns [(pre, mid, post)], the three
    parts put end to end are the list; no item of [pre] or of [post]
    satisfies the condition, every item of [mid] does, and [post] is
    empty when [mid] is. *)
Theorem split_on_condition_parts :
  ∀ {A} (str : A → string) (cond : A → bool) lis_ pre mid post,
    utils_deprecated.split_on_condition str lis_ cond
    = Returned (pre, mid, post) →
    lis_ = pre ++ mid ++ post
    ∧ Forall (λ x, cond x = false) pre
    ∧ Forall (λ x, cond x = true) mid
    ∧ Forall (λ x, cond x = false) post
    ∧ (mid = [] → post = []).
Proof.
  intros A str cond lis_ pre mid post Hrun.
  destruct (split_on_condition_shapes str cond lis_)
    as [(pre' & mid' & post' & Hl & Hpre & Hmid & Hpost & Hempty & Hres)
       |(pre' & mid' & post' & x & rest & _ & _ & _ & _ & _ & _ & _ & Hres)].
  - rewrite Hres in Hrun. by injection Hrun as <- <- <-.
  - by rewrite Hres in Hrun.
Qed.

Lemma split_on_condition_parts_witness :
  ["@rel foo"; ""; "@attr a"; "@attr b"; ""; "@data"]
  = ["@rel foo"; ""] ++ ["@attr a"; "@attr b"] ++ [""; "@data"]
  ∧ Forall (λ x, py.startswith "@attr" x = false) ["@rel foo"; ""]
  ∧ Forall (λ x, py.startswith "@attr" x = true) ["@attr a"; "@attr b"]
  ∧ Forall (λ x, py.startswith "@attr" x = false) [""; "@data"]
  ∧ (["@attr a"; "@attr b"] = [] → [""; "@data"] = []).
Proof.
  apply (split_on_condition_parts id (py.startswith "@attr")
           ["@rel foo"; ""; "@attr a"; "@attr b"; ""; "@data"]).
  reflexivity.
Defined.

(** X8: [split_on_condition] raises exactly on the lists in which an
    item satisfying the condition comes after the run of such items has
    been left; the TypeError names the first such item. *)
Theorem split_on_condition_raises :
  ∀ {A} (str : A → string) (cond : A → bool) lis_ e,
    utils_deprecated.split_on_condition str lis_ cond = Failed e
    ↔ ∃ pre mid post x rest,
        lis_ = pre ++ mid ++ post ++ x :: rest
        ∧ Forall (λ x, cond x = false) pre
        ∧ Forall (λ x, cond x = true) mid ∧ mid ≠ []
        ∧ Forall (λ x, cond x = false) post ∧ post ≠ []
        ∧ cond x = true
        ∧ e = TypeError
            ("condition is true in post-condition segment of list on item "
               +:+ str x).
Proof.
  intros A str cond lis_ e. split.
  - intros Hrun.
    destruct (split_on_condition_shapes str cond lis_)
      as [(pre & mid & post & _ & _ & _ & _ & _ & Hres)
         |(pre & mid & post & x & rest & Hl & Hpre & Hmid & Hne & Hpost
           & Hne' & Hx & Hres)].
    + by rewrite Hres in Hrun.
    + rewrite Hres in Hrun. injection Hrun as <-.
      by exists pre, mid, post, x, rest.
  - intros (pre & mid & post & x & rest & -> & Hpre & Hmid & Hne & Hpost
            & Hne' & Hx & ->).
    unfold utils_deprecated.split_on_condition.
    rewrite (loop_pre str cond pre) by done. simpl.
    destruct mid as [|y mid]; [done|].
    apply Forall_cons_1 in Hmid as [Hy Hmid]. simpl. rewrite Hy.
    rewrite (loop_mid str cond mid) by done.
    destruct post as [|z post]; [done|].
    apply Forall_cons_1 in Hpost as [Hz Hpost]. simpl. rewrite Hz.
    by rewrite (loop_post_raises str cond post).
Qed.

Lemma split_on_condition_raises_witness :
  utils_deprecated.split_on_condition id
    (["@rel foo"] ++ ["@attr a"] ++ [""; "@data"] ++ "@attr error" :: [])
    (py.startswith "@attr")
  = Failed (TypeError
      ("condition is true in post-condition segment of list on item "
         +:+ id "@attr error")).
Proof.
  apply (proj2 (split_on_condition_raises id (py.startswith "@attr") _ _)).
  exists ["@rel foo"], ["@attr a"], [""; "@data"], "@attr error", [].
  split_and!; by repeat constructor.
Defined.

(** ** [split_rows] and [join_rows] *)

Lemma split_on_nonempty sep s : py.split_on sep s ≠ [].
Proof.
  destruct s as [|c r]; [done|]. simpl.
  destruct (Ascii.eqb c sep); [done|]. by destruct (py.split_on sep r).
Qed.

Lemma join_split_on sep s :
  py.join (String sep EmptyString) (py.split_on sep s) = s.
Proof.
  induction s as [|c r IH]; [done|]. simpl.
  destruct (Ascii.eqb_spec c sep) as [->|Hne].
  - pose proof (split_on_nonempty sep r) as Hr.
    destruct (py.split_on sep r) as [|w ws]; [done|].
    rewrite <- IH. reflexivity.
  - pose proof (split_on_nonempty sep r) as Hr.
    destruct (py.split_on sep r) as [|w ws]; [done|].
    rewrite <- IH. by destruct ws.
Qed.

(** X9: joining the fields that [split_rows] cut gives every row back,
    whatever the row holds. *)
Theorem join_rows_split_rows :
  ∀ rows, utils_deprecated.join_rows (utils_deprecated.split_rows rows) = rows.
Proof.
  intros rows. unfold utils_deprecated.join_rows, utils_deprecated.split_rows.
  rewrite <- list_fmap_compose. rewrite <- (list_fmap_id rows) at 2.
  apply list_fmap_ext. intros _ row _. apply join_split_on.
Qed.

Lemma split_on_field sep x :
  contains sep x = false → py.split_on sep x = [x].
Proof.
  induction x as [|c x IH]; [done|]. simpl.
  intros [Hc Hx]%orb_false_iff. by rewrite Hc, (IH Hx).
Qed.

Lemma split_on_field_app sep x rest :
  contains sep x = false →
  py.split_on sep (x +:+ String sep rest) = x :: py.split_on sep rest.
Proof.
  induction x as [|c x IH].
  - intros _.
    change (py.split_on sep (String sep rest) = "" :: py.split_on sep rest).
    simpl. by rewrite Ascii.eqb_refl.
  - simpl. intros [Hc Hx]%orb_false_iff. by rewrite Hc, (IH Hx).
Qed.

Lemma split_on_join sep fields :
  fields ≠ [] →
  Forall (λ x, contains sep x = false) fields →
  py.split_on sep (py.join (String sep EmptyString) fields) = fields.
Proof.
  intros Hne Hfields. induction Hfields as [|x fields Hx Hfields IH]; [done|].
  destruct fields as [|y fields].
  - simpl. by apply split_on_field.
  - change (py.join (String sep "") (x :: y :: fields))
      with (x +:+ String sep "" +:+ py.join (String sep "") (y :: fields)).
    rewrite string_app_cons.
    change ("" +:+ py.join (String sep "") (y :: fields))
      with (py.join (String sep "") (y :: fields)).
    rewrite split_on_field_app by done. by rewrite IH.
Qed.

(** X10: cutting the rows that [join_rows] made gives the fields back,
    provided no row is empty and no field holds a comma. *)
Theorem split_rows_join_rows :
  ∀ rows : list row,
    Forall (λ fields, fields ≠ []
                      ∧ Forall (λ x, contains "," x = false) fields) rows →
    utils_deprecated.split_rows (utils_deprecated.join_rows rows) = rows.
Proof.
  intros rows Hrows.
  unfold utils_deprecated.join_rows, utils_deprecated.split_rows.
  induction Hrows as [|fields rows [Hne Hfields] _ IH]; [done|].
  rewrite !fmap_cons. f_equal; [|done].
  by apply (split_on_join ","%char).
Qed.

Lemma split_rows_join_rows_witness :
  utils_deprecated.split_rows
    (utils_deprecated.join_rows [["1"; "2"; ""]; ["a b"]])
  = [["1"; "2"; ""]; ["a b"]].
Proof.
  apply split_rows_join_rows. by repeat constructor.
Defined.

(** ** [get_column_pos_by_name] and [delete_columns] *)

Lemma elem_of_positions {A} (P : A → bool) l :
  ∀ k i,
    i ∈ (fst <$> List.filter (λ ic, P ic.2) (py.enumerate_from k l))
    ↔ ∃ j x, i = (k + j)%nat ∧ l !! j = Some x ∧ P x = true.
Proof.
  induction l as [|y l IH]; intros k i; simpl.
  - split; [by intros ?%elem_of_nil | by intros (j & x & _ & ? & _)].
  - split.
    + destruct (P y) eqn:Hy; simpl.
      * intros [->|Hin]%elem_of_cons.
        -- exists 0%nat, y. split; [lia | done].
        -- apply IH in Hin as (j & x & -> & Hj & Hx).
           exists (S j), x. split; [lia | done].
      * intros Hin. apply IH in Hin as (j & x & -> & Hj & Hx).
        exists (S j), x. split; [lia | done].
    + intros (j & x & -> & Hj & Hx). destruct j as [|j]; simpl in Hj.
      * injection Hj as ->. rewrite Hx. simpl.
        rewrite Nat.add_0_r. apply list_elem_of_here.
      * assert (Hin : (k + S j)%nat
                      ∈ (fst <$> List.filter (λ ic, P ic.2)
                                   (py.enumerate_from (S k) l))).
        { apply IH. exists j, x. split; [lia | done]. }
        destruct (P y); simpl; [by apply list_elem_of_further | done].
Qed.

Lemma positions_sorted {A} (P : A → bool) l :
  ∀ k,
    StronglySorted lt
      (fst <$> List.filter (λ ic, P ic.2) (py.enumerate_from k l)).
Proof.
  induction l as [|y l IH]; intros k; simpl; [constructor|].
  destruct (P y); simpl; [|apply IH].
  constructor; [apply IH|].
  apply Forall_forall. intros i Hin.
  apply elem_of_positions in Hin as (j & x & -> & _). lia.
Qed.

Lemma get_column_pos_by_name_positions :
  ∀ arff_cols names wanted_cols,
    Forall2 (λ row n, py.item (py.split row) 1 = Some n) arff_cols names →
    Forall (λ col, col ∈ names) wanted_cols →
    ∃ positions,
      utils_deprecated.get_column_pos_by_name arff_cols wanted_cols
      = Returned positions
      ∧ StronglySorted lt positions
      ∧ ∀ i, i ∈ positions
             ↔ ∃ n, names !! i = Some n ∧ n ∈ wanted_cols.
Proof.
  intros arff_cols names wanted_cols Hnames Hwanted.
  apply mapM_Some in Hnames.
  unfold utils_deprecated.get_column_pos_by_name. rewrite Hnames.
  rewrite filter_nothing.
  2:{ eapply Forall_impl; [exact Hwanted|]. intros col Hcol. simpl.
      apply negb_false_iff, bool_decide_eq_true.
      by apply elem_of_list_to_set. }
  rewrite bool_decide_eq_false_2 by (by intros []).
  pose (P := λ n : string,
          bool_decide (n ∈ (list_to_set wanted_cols : gset string))).
  eexists. split; [reflexivity|]. split.
  { exact (positions_sorted P names 0%nat). }
  intros i. etrans; [exact (elem_of_positions P names 0%nat i)|]. unfold P.
  split.
  - intros (j & n & -> & Hj & Hn). exists n. split; [done|].
    by apply bool_decide_eq_true, elem_of_list_to_set in Hn.
  - intros (n & Hi & Hn). exists i, n. split; [done|]. split; [done|].
    by apply bool_decide_eq_true, elem_of_list_to_set.
Qed.

(** X11: given a header all of whose lines have a second token, and
    wanted names that all occur among these tokens,
    [get_column_pos_by_name] returns the positions of the columns whose
    name is wanted, every one of them, in increasing order whatever the
    order of the request. *)
Theorem get_column_pos_by_name_returns :
  ∀ arff_cols names wanted_cols,
    Forall2 (λ row n, py.item (py.split row) 1 = Some n) arff_cols names →
    Forall (λ col, col ∈ names) wanted_cols →
    ∃ positions,
      utils_deprecated.get_column_pos_by_name arff_cols wanted_cols
      = Returned positions
      ∧ StronglySorted lt positions
      ∧ ∀ i, i ∈ positions
             ↔ ∃ n, names !! i = Some n ∧ n ∈ wanted_cols.
Proof. exact get_column_pos_by_name_positions. Qed.

Lemma get_column_pos_by_name_returns_witness :
  ∃ positions,
    utils_deprecated.get_column_pos_by_name
      ["@attribute col1 numeric"; "@attribute col2 numeric";
       "@attribute col3 {A,B}"]
      ["col3"; "col2"]
    = Returned positions
    ∧ StronglySorted lt positions
    ∧ ∀ i, i ∈ positions
           ↔ ∃ n, ["col1"; "col2"; "col3"] !! i = Some n
                  ∧ n ∈ ["col3"; "col2"].
Proof.
  apply (get_column_pos_by_name_returns
           ["@attribute col1 numeric"; "@attribute col2 numeric";
            "@attribute col3 {A,B}"]
           ["col1"; "col2"; "col3"] ["col3"; "col2"]).
  - by repeat constructor.
  - repeat constructor; set_solver.
Defined.

(** X12: when some wanted name is no second token of the header,
    [get_column_pos_by_name] raises KeyError and its message lists the
    missing names in the order of the request. *)
Theorem get_column_pos_by_name_missing :
  ∀ arff_cols names wanted_cols,
    Forall2 (λ row n, py.item (py.split row) 1 = Some n) arff_cols names →
    Exists (λ col, col ∉ names) wanted_cols →
    utils_deprecated.get_column_pos_by_name arff_cols wanted_cols
    = Failed (KeyError
        ("Missing column(s): "
           +:+ py.join ", "
                 (List.filter (λ col, negb (bool_decide (col ∈ names)))
                    wanted_cols))).
Proof.
  intros arff_cols names wanted_cols Hnames Hmissing.
  apply mapM_Some in Hnames.
  unfold utils_deprecated.get_column_pos_by_name. rewrite Hnames.
  assert (Hfilter :
    List.filter
      (λ col, negb (bool_decide (col ∈ (list_to_set names : gset string))))
      wanted_cols
    = List.filter (λ col, negb (bool_decide (col ∈ names))) wanted_cols).
  { apply List.filter_ext. intros col. f_equal.
    apply bool_decide_ext, elem_of_list_to_set. }
  rewrite Hfilter.
  rewrite bool_decide_eq_true_2; [done|].
  apply Exists_exists in Hmissing as (col & Hcol & Hnot).
  intros Hnil.
  assert (Hin : In col (List.filter
                          (λ col, negb (bool_decide (col ∈ names))) wanted_cols)).
  { apply List.filter_In. split; [by apply list_elem_of_In|].
    by apply negb_true_iff, bool_decide_eq_false. }
  by rewrite Hnil in Hin.
Qed.

Lemma get_column_pos_by_name_missing_witness :
  utils_deprecated.get_column_pos_by_name
    ["@attribute col1 numeric"; "@attribute col2 numeric"]
    ["foo"; "col2"; "bar"]
  = Failed (KeyError ("Missing column(s): " +:+ py.join ", " ["foo"; "bar"])).
Proof.
  apply (get_column_pos_by_name_missing
           ["@attribute col1 numeric"; "@attribute col2 numeric"]
           ["col1"; "col2"] ["foo"; "col2"; "bar"]).
  - by repeat constructor.
  - apply Exists_cons_hd. by apply (bool_decide_unpack _).
Defined.

Lemma delete_positions_by_name {A} (Q : string → bool) (poss : list nat)
    (l : list A) :
  ∀ names k,
    length l = length names →
    (∀ j n, names !! j = Some n → ((k + j)%nat ∈ poss ↔ Q n = true)) →
    snd <$> List.filter (λ ix, negb (bool_decide (ix.1 ∈ poss)))
              (py.enumerate_from k l)
    = fst <$> List.filter (λ xn, negb (Q xn.2)) (zip l names).
Proof.
  induction l as [|x l IH]; intros [|n names] k Hlen Hposs; try done.
  simpl in Hlen. simpl.
  assert (Hrest :
    snd <$> List.filter (λ ix, negb (bool_decide (ix.1 ∈ poss)))
              (py.enumerate_from (S k) l)
    = fst <$> List.filter (λ xn, negb (Q xn.2)) (zip l names)).
  { apply IH; [lia|]. intros j m Hj.
    rewrite <- (Hposs (S j) m Hj). by rewrite Nat.add_succ_r. }
  pose proof (Hposs 0%nat n eq_refl) as Hhead. rewrite Nat.add_0_r in Hhead.
  destruct (Q n) eqn:HQ; simpl.
  - rewrite bool_decide_eq_true_2 by (by apply Hhead). simpl. exact Hrest.
  - rewrite bool_decide_eq_false_2.
    2:{ intros Hin. apply Hhead in Hin. congruence. }
    simpl. f_equal. exact Hrest.
Qed.

Lemma keep_columns_length {A B} (names to_delete : list string)
    (l : list A) (l' : list B) :
  length l = length names → length l' = length names →
  length (keep_columns names to_delete l)
  = length (keep_columns names to_delete l').
Proof.
  unfold keep_columns. rewrite !length_fmap.
  revert l l'. induction names as [|n names IH]; intros [|x l] [|y l'];
    try done.
  simpl. intros Hl Hl'.
  destruct (negb (bool_decide (n ∈ to_delete))); simpl;
    [f_equal|]; apply IH; lia.
Qed.

(** X13: on a header whose attribute lines all have a second token and
    data rows with as many comma-separated fields as there are header
    lines, [delete_columns] with names that all occur in the header
    leaves [pre] and [post] alone, keeps exactly the attribute lines
    whose name is not to be deleted and, in every data row, exactly the
    fields of these columns, in their order; header and rows stay
    aligned. *)
Theorem delete_columns_keeps_other_columns :
  ∀ pre cols post data cols_to_delete names,
    Forall2 (λ row n, py.item (py.split row) 1 = Some n) cols names →
    Forall (λ col, col ∈ names) cols_to_delete →
    Forall (λ row, length (py.split_on ","%char row) = length names) data →
    utils_deprecated.delete_columns pre cols post data cols_to_delete
    = Returned
        (pre, keep_columns names cols_to_delete cols, post,
         (λ row, py.join ","
                   (keep_columns names cols_to_delete
                      (py.split_on ","%char row))) <$> data)
    ∧ Forall (λ row,
        length (keep_columns names cols_to_delete (py.split_on ","%char row))
        = length (keep_columns names cols_to_delete cols)) data.
Proof.
  intros pre cols post data cols_to_delete names Hnames Hwanted Hdata.
  pose proof (Forall2_length _ _ _ Hnames) as Hlen.
  destruct (get_column_pos_by_name_positions cols names cols_to_delete
              Hnames Hwanted) as (positions & Hpos & _ & Hin).
  assert (Hdelete : ∀ {A} (l : list A),
    length l = length names →
    utils_deprecated._delete_specified_positions l positions
    = keep_columns names cols_to_delete l).
  { intros A l Hl.
    pose (Q := λ n : string, bool_decide (n ∈ cols_to_delete)).
    unfold utils_deprecated._delete_specified_positions, py.enumerate.
    etrans; [apply (delete_positions_by_name Q positions l names 0%nat)|];
      [done| |done].
    intros j n Hj. unfold Q. simpl. rewrite Hin. rewrite bool_decide_eq_true. split.
    - intros (m & Hm & Hdel). congruence.
    - intros Hdel. by exists n. }
  split.
  - unfold utils_deprecated.delete_columns. rewrite Hpos.
    rewrite (Hdelete _ cols Hlen). do 2 f_equal.
    unfold utils_deprecated.join_rows, utils_deprecated.split_rows.
    rewrite <- !list_fmap_compose.
    apply Forall_fmap_ext_1. eapply Forall_impl; [exact Hdata|].
    intros row Hrow. simpl. by rewrite (Hdelete _ _ Hrow).
  - eapply Forall_impl; [exact Hdata|]. intros row Hrow.
    apply keep_columns_length; [done | done].
Qed.

Lemma delete_columns_keeps_other_columns_witness :
  utils_deprecated.delete_columns
    ["@relation r"]
    ["@attribute a numeric"; "@attribute b numeric"; "@attribute c numeric"]
    ["@data"] ["1,2,3"; "4,5,6"] ["b"]
  = Returned
      (["@relation r"],
       keep_columns ["a"; "b"; "c"] ["b"]
         ["@attribute a numeric"; "@attribute b numeric";
          "@attribute c numeric"],
       ["@data"],
       (λ row, py.join ","
                 (keep_columns ["a"; "b"; "c"] ["b"]
                    (py.split_on ","%char row))) <$> ["1,2,3"; "4,5,6"])
  ∧ Forall (λ row,
      length (keep_columns ["a"; "b"; "c"] ["b"] (py.split_on ","%char row))
      = length (keep_columns ["a"; "b"; "c"] ["b"]
                  ["@attribute a numeric"; "@attribute b numeric";
                   "@attribute c numeric"])) ["1,2,3"; "4,5,6"].
Proof.
  apply (delete_columns_keeps_other_columns
           ["@relation r"]
           ["@attribute a numeric"; "@attribute b numeric";
            "@attribute c numeric"]
           ["@data"] ["1,2,3"; "4,5,6"] ["b"] ["a"; "b"; "c"]).
  - by repeat constructor.
  - repeat constructor; by apply (bool_decide_unpack _).
  - by repeat constructor.
Defined.

(** ** [separate_arff_headers] *)

Lemma list_index_Some x l :
  ∀ p, py.list_index x l = Some p →
       ∃ before after,
         l = before ++ x :: after ∧ (x ∉ before) ∧ length before = p.
Proof.
  induction l as [|y l IH]; intros p; simpl; [done|].
  destruct (String.eqb_spec y x) as [->|Hne].
  - intros [= <-]. exists [], l. split_and!; [done | apply not_elem_of_nil | done].
  - destruct (py.list_index x l) as [q|] eqn:Hq; [|done]. simpl.
    intros [= <-]. destruct (IH q eq_refl) as (before & after & -> & Hnot & <-).
    exists (y :: before), after. split_and!; [done | | done].
    apply not_elem_of_cons. split; [congruence | done].
Qed.

Lemma slice_after_position {A} (before after : list A) x :
  let p := (1 + Z.of_nat (length before))%Z in
  py.slice (before ++ x :: after) None (Some p) = before ++ [x]
  ∧ py.slice (before ++ x :: after) (Some p) None = after.
Proof.
  intros p. unfold py.slice, py.clamp.
  rewrite length_app. simpl length.
  replace (p <? 0) with false by (symmetry; apply Z.ltb_ge; lia).
  rewrite Z.min_l by lia. split.
  - change (Z.to_nat 0) with 0%nat. rewrite drop_0.
    rewrite cons_middle, app_assoc.
    apply take_app_length'. rewrite length_app. simpl. lia.
  - rewrite cons_middle, app_assoc.
    rewrite drop_app_length' by (rewrite length_app; simpl; lia).
    apply take_ge. lia.
Qed.

Lemma separate_arff_headers_inv text meta data :
  utils_deprecated.separate_arff_headers text = Returned (meta, data) →
  ∃ before,
    meta = before ++ ["@data"] ∧ ("@data" ∉ before)
    ∧ utils_deprecated.read_file text = meta ++ data.
Proof.
  unfold utils_deprecated.separate_arff_headers.
  destruct (py.list_index "@data" (utils_deprecated.read_file text))
    as [p|] eqn:Hp; [|done].
  apply list_index_Some in Hp as (before & after & Hlines & Hnot & <-).
  rewrite Hlines.
  destruct (slice_after_position before after "@data") as [-> ->].
  intros [= <- <-]. exists before.
  split_and!; [done | done | by rewrite <- app_assoc].
Qed.

(** X14: when some line of the file is exactly [@data],
    [separate_arff_headers] cuts the lines right after the first such
    line: the metadata are the lines up to and including it, the data
    all the lines after it. *)
Theorem separate_arff_headers_cuts_after_data_line :
  ∀ text,
    "@data" ∈ utils_deprecated.read_file text →
    ∃ before after,
      utils_deprecated.read_file text = before ++ "@data" :: after
      ∧ ("@data" ∉ before)
      ∧ utils_deprecated.separate_arff_headers text
        = Returned (before ++ ["@data"], after).
Proof.
  intros text Hin. unfold utils_deprecated.separate_arff_headers.
  destruct (py.list_index "@data" (utils_deprecated.read_file text))
    as [p|] eqn:Hp.
  - apply list_index_Some in Hp as (before & after & Hlines & Hnot & <-).
    exists before, after. rewrite Hlines.
    destruct (slice_after_position before after "@data") as [-> ->].
    done.
  - by apply list_index_None in Hp.
Qed.

Lemma separate_arff_headers_cuts_after_data_line_witness :
  ∃ before after,
    utils_deprecated.read_file
      ("@relation r" +:+ py.nl +:+ "@attribute a numeric" +:+ py.nl
         +:+ "@data" +:+ py.nl +:+ "1" +:+ py.nl +:+ "@data" +:+ py.nl)
    = before ++ "@data" :: after
    ∧ ("@data" ∉ before)
    ∧ utils_deprecated.separate_arff_headers
        ("@relation r" +:+ py.nl +:+ "@attribute a numeric" +:+ py.nl
           +:+ "@data" +:+ py.nl +:+ "1" +:+ py.nl +:+ "@data" +:+ py.nl)
      = Returned (before ++ ["@data"], after).
Proof.
  apply (separate_arff_headers_cuts_after_data_line
           ("@relation r" +:+ py.nl +:+ "@attribute a numeric" +:+ py.nl
              +:+ "@data" +:+ py.nl +:+ "1" +:+ py.nl +:+ "@data" +:+ py.nl)).
  by apply (bool_decide_unpack _).
Defined.

(** X15: [separate_arff_headers] raises ValueError, as [list.index]
    does, when no line of the file is exactly [@data]; a data line in
    another case or with spaces around it, which the streaming scanner
    accepts, does not count. *)
Theorem separate_arff_headers_needs_exact_data_line :
  ∀ text,
    "@data" ∉ utils_deprecated.read_file text →
    utils_deprecated.separate_arff_headers text
    = Failed (Builtin (NotInList "@data")).
Proof.
  intros text Hnot. unfold utils_deprecated.separate_arff_headers.
  apply list_index_None in Hnot. by rewrite Hnot.
Qed.

Lemma separate_arff_headers_needs_exact_data_line_witness :
  utils.datameta ("@DATA" +:+ py.nl) = true
  ∧ utils_deprecated.separate_arff_headers
      ("@relation r" +:+ py.nl +:+ "@attribute a numeric" +:+ py.nl
         +:+ "@DATA" +:+ py.nl +:+ "1" +:+ py.nl)
    = Failed (Builtin (NotInList "@data")).
Proof.
  split; [reflexivity|].
  apply (separate_arff_headers_needs_exact_data_line
           ("@relation r" +:+ py.nl +:+ "@attribute a numeric" +:+ py.nl
              +:+ "@DATA" +:+ py.nl +:+ "1" +:+ py.nl)).
  by apply (bool_decide_unpack _).
Defined.

(** X16: when [separate_arff_headers] with [details=True] returns
    [(pre, cols, post, data)], the four parts put end to end are the
    lines of the file; [cols] are lines that start with [@attribute]
    (lower case, at the first column), no line of [pre] or [post] does,
    and the first three parts end with the first line that is exactly
    [@data]. *)
Theorem separate_arff_headers_details_parts :
  ∀ text pre cols post data,
    utils_deprecated.separate_arff_headers_details text
    = Returned (pre, cols, post, data) →
    utils_deprecated.read_file text = pre ++ cols ++ post ++ data
    ∧ Forall (λ row, py.startswith "@attribute" row = false) pre
    ∧ Forall (λ row, py.startswith "@attribute" row = true) cols
    ∧ Forall (λ row, py.startswith "@attribute" row = false) post
    ∧ ∃ before,
        pre ++ cols ++ post = before ++ ["@data"] ∧ ("@data" ∉ before).
Proof.
  intros text pre cols post data.
  unfold utils_deprecated.separate_arff_headers_details.
  destruct (utils_deprecated.separate_arff_headers text)
    as [[meta data']|e] eqn:Hsep; [|done].
  apply separate_arff_headers_inv in Hsep as (before & Hmeta & Hnot & Hlines).
  destruct (split_on_condition_shapes id (py.startswith "@attribute") meta)
    as [(pre' & mid' & post' & Hl & Hpre & Hmid & Hpost & _ & Hres)
       |(pre' & mid' & post' & x & rest & _ & _ & _ & _ & _ & _ & _ & Hres)];
    rewrite Hres; [|done].
  intros [= <- <- <- <-].
  split_and!; try done.
  - by rewrite Hlines, Hl, <- !app_assoc.
  - exists before. by rewrite <- Hl.
Qed.

Lemma separate_arff_headers_details_parts_witness :
  utils_deprecated.read_file
    ("@relation r" +:+ py.nl +:+ "@attribute a numeric" +:+ py.nl
       +:+ "@attribute b numeric" +:+ py.nl +:+ "@data" +:+ py.nl
       +:+ "1,2" +:+ py.nl)
  = ["@relation r"] ++ ["@attribute a numeric"; "@attribute b numeric"]
      ++ ["@data"] ++ ["1,2"]
  ∧ Forall (λ row, py.startswith "@attribute" row = false) ["@relation r"]
  ∧ Forall (λ row, py.startswith "@attribute" row = true)
      ["@attribute a numeric"; "@attribute b numeric"]
  ∧ Forall (λ row, py.startswith "@attribute" row = false) ["@data"]
  ∧ ∃ before,
      ["@relation r"] ++ ["@attribute a numeric"; "@attribute b numeric"]
        ++ ["@data"]
      = before ++ ["@data"] ∧ ("@data" ∉ before).
Proof.
  apply (separate_arff_headers_details_parts
           ("@relation r" +:+ py.nl +:+ "@attribute a numeric" +:+ py.nl
              +:+ "@attribute b numeric" +:+ py.nl +:+ "@data" +:+ py.nl
              +:+ "1,2" +:+ py.nl)).
  vm_compute. reflexivity.
Defined.

(** ** [get_columns_list] *)

Lemma rstrip_fixed c r :
  py.rstrip (String c r) = String c r →
  py.rstrip r = r ∧ (py.isspace c = true → r ≠ EmptyString).
Proof.
  simpl. destruct (py.rstrip r) as [|d r'] eqn:Hr.
  - destruct (py.isspace c); [done|]. by intros [= <-].
  - intros [= <-]. by split.
Qed.

Lemma rstrip_idemp s : py.rstrip (py.rstrip s) = py.rstrip s.
Proof.
  induction s as [|c s IH]; [done|]. simpl.
  destruct (py.rstrip s) as [|d r] eqn:Hr.
  - destruct (py.isspace c) eqn:Hc; [done|]. simpl. by rewrite Hc.
  - change (py.rstrip (String c (String d r)))
      with (match py.rstrip (String d r) with
            | EmptyString =>
                if py.isspace c then EmptyString else String c EmptyString
            | r' => String c r'
            end).
    by rewrite IH.
Qed.

Lemma lstrip_rstripped s :
  py.rstrip s = s → py.rstrip (py.lstrip s) = py.lstrip s.
Proof.
  induction s as [|c s IH]; [done|]. intros Hfix.
  change (py.lstrip (String c s))
    with (if py.isspace c then py.lstrip s else String c s).
  destruct (py.isspace c); [|done].
  apply IH. by apply rstrip_fixed in Hfix as [? _].
Qed.

Lemma split_go_lstrip s : py.split_go None (py.lstrip s) = py.split_go None s.
Proof.
  induction s as [|c s IH]; [done|].
  change (py.lstrip (String c s))
    with (if py.isspace c then py.lstrip s else String c s).
  destruct (py.isspace c) eqn:Hc; [|done]. simpl. by rewrite Hc.
Qed.

Lemma split_go_spaces s :
  py.rstrip s = EmptyString →
  (∀ w, py.split_go (Some w) s = [String.rev w]) ∧ py.split_go None s = [].
Proof.
  induction s as [|c s IH]; [done|]. simpl.
  destruct (py.rstrip s) as [|d r] eqn:Hr; [|done].
  destruct (py.isspace c); [|done]. intros _.
  destruct (IH eq_refl) as [_ ->]. done.
Qed.

Lemma split_go_rstrip s :
  ∀ cur, py.split_go cur (py.rstrip s) = py.split_go cur s.
Proof.
  induction s as [|c s IH]; intros cur; [done|].
  change (py.rstrip (String c s))
    with (match py.rstrip s with
          | EmptyString =>
              if py.isspace c then EmptyString else String c EmptyString
          | r' => String c r'
          end).
  destruct (py.rstrip s) as [|d r] eqn:Hr.
  - destruct (split_go_spaces s Hr) as [Hword Hnone].
    simpl. destruct (py.isspace c) eqn:Hc.
    + rewrite Hnone. by destruct cur.
    + simpl. rewrite Hc. by rewrite Hword.
  - simpl. destruct (py.isspace c); [destruct cur|]; by rewrite <- IH.
Qed.

(** On a text that does not end with whitespace, [re.split] on runs of
    whitespace and [str.split] read on in the same way, inside a word
    and inside a run. *)
Lemma re_split_spaces_go_rstripped s :
  py.rstrip s = s →
  (∀ w, py.re_split_spaces_go w false s = py.split_go (Some w) s)
  ∧ (s ≠ EmptyString →
     py.re_split_spaces_go EmptyString true s = py.split_go None s).
Proof.
  induction s as [|c s IH]; [done|]. intros Hfix.
  apply rstrip_fixed in Hfix as [Hs Hc].
  destruct (IH Hs) as [Hword Hrun]. simpl.
  destruct (py.isspace c) eqn:Hspace.
  - specialize (Hrun (Hc eq_refl)). split.
    + intros w. by rewrite Hrun.
    + intros _. exact Hrun.
  - split; [intros w | intros _]; apply Hword.
Qed.

Lemma rev_app_nonempty w :
  ∀ acc, acc ≠ EmptyString → String.rev_app w acc ≠ EmptyString.
Proof.
  induction w as [|d w IH]; intros acc Hacc; simpl; [done|]. by apply IH.
Qed.

Lemma split_tokens_nonempty s :
  ∀ cur, cur ≠ Some EmptyString →
         Forall (λ w, w ≠ EmptyString) (py.split_go cur s).
Proof.
  assert (Hrev : ∀ c w, String.rev (String c w) ≠ EmptyString).
  { intros c w. unfold String.rev. simpl. by apply rev_app_nonempty. }
  induction s as [|c s IH]; intros cur Hcur; simpl.
  - destruct cur as [[|d w]|]; [done| |constructor].
    constructor; [apply Hrev | constructor].
  - destruct (py.isspace c).
    + destruct cur as [[|d w]|]; [done| |by apply IH].
      constructor; [apply Hrev | by apply IH].
    + by apply IH.
Qed.

Lemma split_go_word s : ∀ w, py.split_go (Some w) s ≠ [].
Proof.
  induction s as [|c s IH]; intros w; simpl; [done|].
  destruct (py.isspace c); [done | apply IH].
Qed.

(** X17: the column list read from a config file is made of the
    whitespace-separated tokens of its text, as [str.split] gives them;
    a blank or empty config file gives one column, the empty string. *)
Theorem get_columns_list_config_tokens :
  ∀ config,
    arffselect.get_columns_list None (Some config)
    = Returned (match py.split config with
                | [] => [EmptyString]
                | tokens => tokens
                end)
    ∧ Forall (λ token, token ≠ EmptyString) (py.split config).
Proof.
  intros config. split; [|by apply split_tokens_nonempty].
  unfold arffselect.get_columns_list, py.strip, py.split. f_equal.
  rewrite <- (split_go_rstrip config None), <- split_go_lstrip.
  pose proof (lstrip_rstripped _ (rstrip_idemp config)) as Hfix.
  pose proof (lstrip_head (py.rstrip config)) as Hhead.
  destruct (py.lstrip (py.rstrip config)) as [|c t]; [done|].
  specialize (Hhead c t eq_refl).
  apply rstrip_fixed in Hfix as [Ht _].
  destruct (re_split_spaces_go_rstripped t Ht) as [Hword _].
  unfold py.re_split_spaces. simpl. rewrite Hhead, Hword.
  pose proof (split_go_word t (String c EmptyString)) as Hne.
  by destruct (py.split_go _ t).
Qed.

(** ** Split: reading the key sets *)

Lemma item_nil {A} i : py.item ([] : list A) i = None.
Proof. unfold py.item. simpl. by destruct (_ && _). Qed.

Lemma read_set_keys_spec key_column rows :
  Forall (λ line : row, line = [] ∨ is_Some (py.item line key_column)) rows →
  ∃ ks,
    arffsplit.read_set_keys key_column rows = Ret ks
    ∧ ∀ k, k ∈ ks
           ↔ ∃ line, line ∈ rows ∧ py.item line key_column = Some k.
Proof.
  induction 1 as [|line rows Hline _ (ks & Hks & Hin)]; simpl.
  - exists []. split; [done|]. intros k. split.
    + by intros ?%elem_of_nil.
    + by intros (line & ?%elem_of_nil & _).
  - destruct (bool_decide (line = [])) eqn:Hempty.
    + apply bool_decide_eq_true in Hempty as ->.
      exists ks. split; [done|]. intros k. rewrite Hin. split.
      * intros (line & Hl & Hk). exists line. split; [|done].
        by apply list_elem_of_further.
      * intros (line & [->|Hl]%elem_of_cons & Hk).
        -- by rewrite item_nil in Hk.
        -- by exists line.
    + apply bool_decide_eq_false in Hempty.
      destruct Hline as [->|[k0 Hk0]]; [done|].
      unfold py.index. rewrite Hk0, Hks.
      exists (k0 :: ks). split; [done|]. intros k.
      rewrite elem_of_cons, Hin. split.
      * intros [->|(l & Hl & Hk)].
        -- exists line. split; [apply list_elem_of_here | done].
        -- exists l. split; [by apply list_elem_of_further | done].
      * intros (l & [->|Hl]%elem_of_cons & Hk).
        -- left. congruence.
        -- right. by exists l.
Qed.

(** X18: when every row of a key-set file is empty or has the key
    column, [read_set] returns the set of the keys of its rows: a key is
    in the set exactly when some row has it in the key column.  Empty
    rows, which [csv.reader] yields for blank lines, add nothing. *)
Theorem read_set_collects_keys :
  ∀ (C : Csv) key_column delimiter file_,
    Forall (λ line : row, line = [] ∨ is_Some (py.item line key_column))
      (csv_reader delimiter file_) →
    ∃ keys,
      arffsplit.read_set key_column delimiter file_ = Ret keys
      ∧ ∀ k, k ∈ keys
             ↔ ∃ line, line ∈ csv_reader delimiter file_
                       ∧ py.item line key_column = Some k.
Proof.
  intros C key_column delimiter file_ Hrows.
  destruct (read_set_keys_spec key_column _ Hrows) as (ks & Hks & Hin).
  exists (list_to_set ks). unfold arffsplit.read_set. rewrite Hks.
  split; [done|]. intros k. by rewrite elem_of_list_to_set.
Qed.

Lemma read_set_collects_keys_witness :
  ∃ keys,
    @arffsplit.read_set plain.csv 1 ","
      (text ["a,1"; ""; "b,2"; "c,1"]) = Ret keys
    ∧ ∀ k, k ∈ keys
           ↔ ∃ line, line ∈ @csv_reader plain.csv ","
                              (text ["a,1"; ""; "b,2"; "c,1"])
                     ∧ py.item line 1 = Some k.
Proof.
  apply (read_set_collects_keys plain.csv 1 ","
           (text ["a,1"; ""; "b,2"; "c,1"])).
  assert (Hrows : @csv_reader plain.csv "," (text ["a,1"; ""; "b,2"; "c,1"])
                  = [["a"; "1"]; []; ["b"; "2"]; ["c"; "1"]])
    by (vm_compute; reflexivity).
  rewrite Hrows.
  repeat (apply List.Forall_cons; [first [by left | right; by eexists]|]).
  apply List.Forall_nil.
Defined.

(** X19: [read_set] raises IndexError as soon as a row that is not
    empty lacks the key column; the rows before it do not matter. *)
Theorem read_set_raises_on_short_row :
  ∀ (C : Csv) key_column delimiter file_,
    Exists (λ line : row, line ≠ [] ∧ py.item line key_column = None)
      (csv_reader delimiter file_) →
    arffsplit.read_set key_column delimiter file_
    = Raise (IndexError "line[key_column]").
Proof.
  intros C key_column delimiter file_ Hrows. unfold arffsplit.read_set.
  assert (Hkeys : arffsplit.read_set_keys key_column
                    (csv_reader delimiter file_)
                  = Raise (IndexError "line[key_column]")).
  { induction (csv_reader delimiter file_) as [|line rows IH];
      [by apply Exists_nil in Hrows|].
    simpl. destruct (bool_decide (line = [])) eqn:Hempty.
    - apply bool_decide_eq_true in Hempty as ->.
      apply Exists_cons in Hrows as [[? _]|Hrows]; [done | by apply IH].
    - unfold py.index. destruct (py.item line key_column) as [k|] eqn:Hk.
      + apply Exists_cons in Hrows as [[_ ?]|Hrows]; [congruence|].
        by rewrite (IH Hrows).
      + done. }
  by rewrite Hkeys.
Qed.

Lemma read_set_raises_on_short_row_witness :
  @arffsplit.read_set plain.csv 1 "," (text ["a,1"; "b"; "c,1"])
  = Raise (IndexError "line[key_column]").
Proof.
  apply (read_set_raises_on_short_row plain.csv 1 ","
           (text ["a,1"; "b"; "c,1"])).
  assert (Hrows : @csv_reader plain.csv "," (text ["a,1"; "b"; "c,1"])
                  = [["a"; "1"]; ["b"]; ["c"; "1"]])
    by (vm_compute; reflexivity).
  rewrite Hrows. apply Exists_cons_tl, Exists_cons_hd. by split.
Defined.

(** ** Split: a row without its key column, and the whole run *)

Section split_more.
Context `{Csv}.
Variables (delimiter : string) (key_column : Z) (key_sets : list (gset string)).

Lemma split_rows_cons line rest i w :
  arffsplit.split_rows delimiter key_column key_sets i (line :: rest) w
  = match arffsplit.split_rows delimiter key_column key_sets i [line] w with
    | (w1, Ret _) =>
        arffsplit.split_rows delimiter key_column key_sets (i + 1)%N rest w1
    | (w1, r) => (w1, r)
    end.
Proof.
  simpl. unfold bind, lift.
  destruct ((if (i mod 500000 =? 0)%N
             then arffsplit.print (arffsplit.Progress i) else ret tt) w)
    as [w1 [[]| |]]; [|done..].
  destruct (py.index "line[key_column]" line key_column) as [key_| |];
    [|done..].
  destruct (arffsplit.write_to_sets delimiter key_ line 0 key_sets false w1)
    as [w2 [written| |]]; [|done..].
  by destruct ((if negb written
                then arffsplit.on_rmdr (io.write (csv_writerow delimiter line))
                else ret tt) w2) as [w3 [[]| |]].
Qed.

Lemma split_rows_app l1 l2 :
  ∀ i w,
    arffsplit.split_rows delimiter key_column key_sets i (l1 ++ l2) w
    = match arffsplit.split_rows delimiter key_column key_sets i l1 w with
      | (w1, Ret _) =>
          arffsplit.split_rows delimiter key_column key_sets
            (i + N.of_nat (length l1))%N l2 w1
      | (w1, r) => (w1, r)
      end.
Proof.
  induction l1 as [|line l1 IH]; intros i w.
  - simpl. by rewrite N.add_0_r.
  - rewrite <- app_comm_cons, split_rows_cons, (split_rows_cons line l1).
    destruct (arffsplit.split_rows delimiter key_column key_sets i [line] w)
      as [w1 [[]| |]]; [|done..].
    rewrite IH.
    replace (i + 1 + N.of_nat (length l1))%N
      with (i + N.of_nat (length (line :: l1)))%N by (simpl; lia).
    done.
Qed.

Lemma split_rows_short_row bad rest i w :
  py.item bad key_column = None →
  ∃ log,
    arffsplit.split_rows delimiter key_column key_sets i (bad :: rest) w
    = (arffsplit.World (arffsplit.in_file w) (arffsplit.out_files w)
         (arffsplit.rmdr_file w) (arffsplit.stdout w ++ log),
       Raise (IndexError "line[key_column]")).
Proof.
  intros Hbad. simpl. unfold bind, lift, py.index. rewrite Hbad.
  destruct (i mod 500000 =? 0)%N; simpl.
  - by eexists.
  - exists []. rewrite app_nil_r. by destruct w.
Qed.

End split_more.

(** X20: [split_file] stops at the first row that lacks the key column,
    an empty row for instance, with the IndexError of [line[key_column]].
    The rows before it have been routed as usual, to the outputs whose
    key sets hold their key and else to the remainder; the row itself
    and the rows after it are written nowhere. *)
Theorem split_file_stops_at_short_row :
  ∀ (C : Csv) delimiter key_column key_sets good bad rest w,
    length (arffsplit.out_files w) = length key_sets →
    Forall (λ line, is_Some (py.item line key_column)) good →
    py.item bad key_column = None →
    ∃ w',
      arffsplit.split_file delimiter (good ++ bad :: rest) key_column key_sets w
      = (w', Raise (IndexError "line[key_column]"))
      ∧ arffsplit.out_files w'
        = zip_with (λ out ks,
              io.write (rows_text delimiter
                          (List.filter (key_in key_column ks) good)) out)
            (arffsplit.out_files w) key_sets
      ∧ arffsplit.rmdr_file w'
        = io.write (rows_text delimiter
                      (List.filter (key_in_none key_column key_sets) good))
            (arffsplit.rmdr_file w).
Proof.
  intros C delimiter key_column key_sets good bad rest w Hlen Hgood Hbad.
  destruct (split_rows_spec delimiter key_column key_sets good Hgood 0%N w Hlen)
    as [log Hsplit].
  unfold arffsplit.split_file, bind. rewrite split_rows_app, Hsplit.
  destruct (split_rows_short_row delimiter key_column key_sets bad rest
              (0 + N.of_nat (length good))%N
              (arffsplit.World (arffsplit.in_file w)
                 (zip_with (λ out ks,
                      io.write (rows_text delimiter
                                  (List.filter (key_in key_column ks) good)) out)
                    (arffsplit.out_files w) key_sets)
                 (io.write (rows_text delimiter
                              (List.filter (key_in_none key_column key_sets) good))
                    (arffsplit.rmdr_file w))
                 (arffsplit.stdout w ++ log)) Hbad) as [log' ->].
  eexists. split; [reflexivity|]. done.
Qed.

Lemma split_file_stops_at_short_row_witness :
  ∃ w',
    @arffsplit.split_file plain.csv ","
      ([["1"; "a"]; ["5"; "e"]] ++ [] :: [["2"; "b"]]) 0 [{["1"; "2"]}]
      (arffsplit.World (utils.from_text EmptyString)
         [io.OFile None EmptyString] (io.OFile None EmptyString) [])
    = (w', Raise (IndexError "line[key_column]"))
    ∧ arffsplit.out_files w'
      = zip_with (λ out ks,
            io.write (@rows_text plain.csv ","
                        (List.filter (key_in 0 ks) [["1"; "a"]; ["5"; "e"]])) out)
          [io.OFile None EmptyString] [{["1"; "2"]}]
    ∧ arffsplit.rmdr_file w'
      = io.write (@rows_text plain.csv ","
                    (List.filter (key_in_none 0 [{["1"; "2"]}])
                       [["1"; "a"]; ["5"; "e"]]))
          (io.OFile None EmptyString).
Proof.
  apply (split_file_stops_at_short_row plain.csv "," 0 [{["1"; "2"]}]
           [["1"; "a"]; ["5"; "e"]] [] [["2"; "b"]]
           (arffsplit.World (utils.from_text EmptyString)
              [io.OFile None EmptyString] (io.OFile None EmptyString) [])).
  - reflexivity.
  - repeat (apply List.Forall_cons; [by eexists|]). apply List.Forall_nil.
  - reflexivity.
Defined.

Lemma fmap_write_empty (outs : list io.ofile) :
  (λ out, io.write EmptyString out) <$> outs = outs.
Proof.
  induction outs as [|o os IH]; [done|]. by rewrite fmap_cons, write_empty, IH.
Qed.

(** X21: the whole of [set_up_and_do_split].  Let the scanner return on
    the file to split, let every data row have the key column and let
    there be one output file per key set (each with a name when the
    file is ARFF).  Then the run completes; output file [i] receives, for
    an ARFF input, its own header and then the data rows whose key is in
    key set [i], the remainder file its own header and the rows whose
    key is in no set; for an input that is not ARFF no header is
    written and the rows are those of the whole file, first line
    included. *)
Theorem set_up_and_do_split_routes_data_rows :
  ∀ (C : Csv) fuel delimiter key_column key_sets w f md,
    utils.get_metadata_if_arff fuel (arffsplit.in_file w) = (f, Ret md) →
    (utils.is_arff md = true →
     Forall (λ out, is_Some (io.name out))
       (arffsplit.out_files w ++ [arffsplit.rmdr_file w])) →
    length (arffsplit.out_files w) = length key_sets →
    Forall (λ line, is_Some (py.item line key_column))
      (csv_reader delimiter (utils.unread f)) →
    let rows := csv_reader delimiter (utils.unread f) in
    let header := λ out,
      if utils.is_arff md then split_header (utils.attr_lines md) out
      else EmptyString in
    (utils.is_arff md = false
     → utils.unread f = utils.buffer (arffsplit.in_file w))
    ∧ ∃ w',
        arffsplit.set_up_and_do_split fuel delimiter key_column key_sets w
        = (w', Ret tt)
        ∧ (∀ i key_set out,
             key_sets !! i = Some key_set →
             arffsplit.out_files w !! i = Some out →
             arffsplit.out_files w' !! i
             = Some (io.write
                       (header out
                          +:+ rows_text delimiter
                                (List.filter (key_in key_column key_set) rows))
                       out))
        ∧ arffsplit.rmdr_file w'
          = io.write
              (header (arffsplit.rmdr_file w)
                 +:+ rows_text delimiter
                       (List.filter (key_in_none key_column key_sets) rows))
              (arffsplit.rmdr_file w).
Proof.
  intros C fuel delimiter key_column key_sets w f md Hscan Hnames Hlen Hrows
    rows header.
  split.
  { intros Harff.
    by rewrite (get_metadata_if_arff_rewinds _ _ _ _ Hscan Harff). }
  assert (Hcopy :
    arffsplit.copy_metadata_if_arff fuel w
    = (arffsplit.World f
         ((λ out, io.write (header out) out) <$> arffsplit.out_files w)
         (io.write (header (arffsplit.rmdr_file w)) (arffsplit.rmdr_file w))
         (arffsplit.stdout w),
       Ret tt)).
  { unfold header. destruct (utils.is_arff md) eqn:Harff.
    - by apply copy_metadata_if_arff_spec; [| |apply Hnames].
    - unfold arffsplit.copy_metadata_if_arff, bind, arffsplit.on_in_file, zoom.
      rewrite Hscan, Harff. unfold ret.
      by rewrite write_empty, fmap_write_empty. }
  unfold arffsplit.set_up_and_do_split, bind at 1. rewrite Hcopy.
  unfold bind at 1, arffsplit.on_in_file, zoom, read_rows. simpl.
  unfold arffsplit.split_file, bind.
  edestruct (split_rows_spec delimiter key_column key_sets rows Hrows 0%N)
    as [log ->]; [|eexists; split; [reflexivity|]].
  { simpl. by rewrite length_fmap. }
  simpl. split.
  - intros i key_set out Hks Hout.
    rewrite lookup_zip_with, list_lookup_fmap, Hout. simpl. rewrite Hks. simpl.
    by rewrite write_write.
  - by rewrite write_write.
Qed.

Lemma set_up_and_do_split_routes_data_rows_witness :
  (false = false
   → text ["1,a"; "2,b"; "3,c"]
     = text ["1,a"; "2,b"; "3,c"])
  ∧ ∃ w',
      @arffsplit.set_up_and_do_split plain.csv 9 "," 0 [{["1"; "3"]}]
        (arffsplit.World (utils.from_text (text ["1,a"; "2,b"; "3,c"]))
           [io.OFile None EmptyString] (io.OFile None EmptyString) [])
      = (w', Ret tt)
      ∧ (∀ i key_set out,
           [{["1"; "3"]}] !! i = Some key_set →
           [io.OFile None EmptyString] !! i = Some out →
           arffsplit.out_files w' !! i
           = Some (io.write
                     (EmptyString
                        +:+ @rows_text plain.csv ","
                              (List.filter (key_in 0 key_set)
                                 [["1"; "a"]; ["2"; "b"]; ["3"; "c"]]))
                     out))
      ∧ arffsplit.rmdr_file w'
        = io.write
            (EmptyString
               +:+ @rows_text plain.csv ","
                     (List.filter (key_in_none 0 [{["1"; "3"]}])
                        [["1"; "a"]; ["2"; "b"]; ["3"; "c"]]))
            (io.OFile None EmptyString).
Proof.
  apply (set_up_and_do_split_routes_data_rows plain.csv 9%nat "," 0
           [{["1"; "3"]}]
           (arffsplit.World (utils.from_text (text ["1,a"; "2,b"; "3,c"]))
              [io.OFile None EmptyString] (io.OFile None EmptyString) [])
           (utils.from_text (text ["1,a"; "2,b"; "3,c"]))
           (utils.Metadata false [] [] [])).
  - vm_compute. reflexivity.
  - discriminate.
  - reflexivity.
  - assert (Hrows : @csv_reader plain.csv "," (text ["1,a"; "2,b"; "3,c"])
                    = [["1"; "a"]; ["2"; "b"]; ["3"; "c"]])
      by (vm_compute; reflexivity).
    simpl utils.unread. rewrite Hrows.
    repeat (apply List.Forall_cons; [by eexists|]). apply List.Forall_nil.
Defined.

(** ** Select: projection, and the rows and columns that are not there *)

Lemma traverse_index_items {A} site (l : list A) cols out :
  Forall2 (λ i x, py.item l i = Some x) cols out →
  traverse (py.index site l) cols = Ret out.
Proof.
  induction 1 as [|i x cols out Hi _ IH]; [done|].
  simpl. unfold py.index at 1. by rewrite Hi, IH.
Qed.

Lemma traverse_index_missing {A} site (l : list A) cols :
  Exists (λ i, py.item l i = None) cols →
  traverse (py.index site l) cols = Raise (IndexError site).
Proof.
  induction cols as [|i cols IH]; [by intros ?%Exists_nil|].
  intros Hcols. simpl. unfold py.index at 1.
  destruct (py.item l i) as [x|] eqn:Hi; [|done].
  apply Exists_cons in Hcols as [?|Hcols]; [congruence|].
  by rewrite (IH Hcols).
Qed.

Lemma for_each_app {S A} (body : A → M S unit) l1 l2 :
  ∀ s,
    for_each body (l1 ++ l2) s
    = match for_each body l1 s with
      | (s1, Ret _) => for_each body l2 s1
      | (s1, r) => (s1, r)
      end.
Proof.
  induction l1 as [|x l1 IH]; intros s; [done|].
  simpl. unfold bind. destruct (body x s) as [s1 [[]| |]]; [|done..].
  apply IH.
Qed.

Section select_more.
Context `{Csv}.
Variables (output_delim : string) (cols : list Z).

Lemma select_rows_project rows outs :
  Forall2 (λ (line out_line : row),
      Forall2 (λ i x, py.item line i = Some x) cols out_line) rows outs →
  ∀ w,
    for_each (arffselect.select_line output_delim cols) rows w
    = (arffselect.World (arffselect.in_ w)
         (io.write (rows_text output_delim outs) (arffselect.out_ w)),
       Ret tt).
Proof.
  induction 1 as [|line out_line rows outs Hline _ IH]; intros w.
  - simpl. unfold ret, rows_text. simpl. rewrite write_empty. by destruct w.
  - simpl. unfold bind at 1, arffselect.select_line, bind at 1, lift.
    rewrite (traverse_index_items _ _ _ _ Hline).
    unfold arffselect.on_out, modify. rewrite IH. simpl.
    by rewrite write_write.
Qed.

Lemma select_rows_short_row bad rest w :
  Exists (λ i, py.item bad i = None) cols →
  for_each (arffselect.select_line output_delim cols) (bad :: rest) w
  = (w, Raise (IndexError "line[i]")).
Proof.
  intros Hbad. simpl. unfold bind at 1, arffselect.select_line, bind, lift.
  by rewrite (traverse_index_missing _ _ _ Hbad).
Qed.

End select_more.

(** The header step of Select, for both kinds of input. *)
Lemma handle_metadata_and_get_columns_spec fuel specs w f md cols sel :
  utils.get_metadata_if_arff fuel (arffselect.in_ w) = (f, Ret md) →
  traverse (λ s, arffselect.get_column_to_select s (utils.is_arff md)
                   (utils.attr_names md)) specs = Ret cols →
  (utils.is_arff md = true →
   Forall2 (λ i l, py.item (utils.attr_lines md) i = Some l) cols sel) →
  arffselect.handle_metadata_and_get_columns fuel specs w
  = (arffselect.World f
       (io.write
          (if utils.is_arff md
           then py.concat (utils.create_metadata_rows
                             (select_name (arffselect.out_ w)) sel)
           else EmptyString)
          (arffselect.out_ w)),
     Ret cols).
Proof.
  intros Hscan Hcols Hsel. destruct (utils.is_arff md) eqn:Harff.
  - erewrite handle_metadata_arff; [reflexivity | exact Hscan | done | | ].
    + by rewrite Harff.
    + apply traverse_index_items. by apply Hsel.
  - erewrite handle_metadata_plain; [|exact Hscan|done|by rewrite Harff].
    by rewrite write_empty.
Qed.

(** X22: what Select writes.  Let the scanner return on the input, let
    the column specs resolve to the positions [cols] and let every
    position exist in every data row (and, for an ARFF input, in the
    list of attribute lines); a negative position counts from the end.
    Then Select completes and appends to the output, for an ARFF input,
    the header made of the attribute lines at these positions in the
    order asked for, under the relation name of the output, and then
    one row per data row, holding the fields at these positions in the
    order asked for. *)
Theorem select_projects_rows :
  ∀ (C : Csv) fuel specs input_delim output_delim w f md cols sel outs,
    utils.get_metadata_if_arff fuel (arffselect.in_ w) = (f, Ret md) →
    traverse (λ s, arffselect.get_column_to_select s (utils.is_arff md)
                     (utils.attr_names md)) specs = Ret cols →
    (utils.is_arff md = true →
     Forall2 (λ i l, py.item (utils.attr_lines md) i = Some l) cols sel) →
    Forall2 (λ (line out_line : row),
        Forall2 (λ i x, py.item line i = Some x) cols out_line)
      (csv_reader input_delim (utils.unread f)) outs →
    arffselect.select fuel specs input_delim output_delim w
    = (arffselect.World (utils.Stream (utils.buffer f) EmptyString)
         (io.write
            ((if utils.is_arff md
              then py.concat (utils.create_metadata_rows
                                (select_name (arffselect.out_ w)) sel)
              else EmptyString)
               +:+ rows_text output_delim outs)
            (arffselect.out_ w)),
       Ret tt).
Proof.
  intros C fuel specs input_delim output_delim w f md cols sel outs
    Hscan Hcols Hsel Hrows.
  erewrite select_after_header;
    [|exact (handle_metadata_and_get_columns_spec fuel specs w f md cols sel
               Hscan Hcols Hsel)].
  simpl. rewrite (select_rows_project output_delim cols _ outs Hrows). simpl.
  by rewrite write_write.
Qed.

Lemma select_projects_rows_witness :
  @arffselect.select plain.csv 9 ["b"; "-1"; "0"] "," ";"
    (arffselect.World
       (utils.from_text
          (text ["@relation r"; "@attribute a numeric"; "@attribute b numeric";
                 "@attribute c {x,y}"; "@data"; "1,2,x"; "3,4,y"]))
       (io.OFile (Some "out/picked.arff") EmptyString))
  = (arffselect.World
       (utils.Stream
          (text ["@relation r"; "@attribute a numeric"; "@attribute b numeric";
                 "@attribute c {x,y}"; "@data"; "1,2,x"; "3,4,y"])
          EmptyString)
       (io.write
          ((if true
            then py.concat
                   (utils.create_metadata_rows
                      (select_name (io.OFile (Some "out/picked.arff") EmptyString))
                      ["@attribute b numeric"; "@attribute c {x,y}";
                       "@attribute a numeric"])
            else EmptyString)
             +:+ @rows_text plain.csv ";" [["2"; "x"; "1"]; ["4"; "y"; "3"]])
          (io.OFile (Some "out/picked.arff") EmptyString)),
     Ret tt).
Proof.
  apply (select_projects_rows plain.csv 9%nat ["b"; "-1"; "0"] "," ";"
           (arffselect.World
              (utils.from_text
                 (text ["@relation r"; "@attribute a numeric";
                        "@attribute b numeric"; "@attribute c {x,y}"; "@data";
                        "1,2,x"; "3,4,y"]))
              (io.OFile (Some "out/picked.arff") EmptyString))
           (utils.Stream
              (text ["@relation r"; "@attribute a numeric";
                     "@attribute b numeric"; "@attribute c {x,y}"; "@data";
                     "1,2,x"; "3,4,y"])
              (text ["1,2,x"; "3,4,y"]))
           (utils.Metadata true ["a"; "b"; "c"]
              ["@attribute a numeric"; "@attribute b numeric";
               "@attribute c {x,y}"]
              ["@relation r"; "@attribute a numeric"; "@attribute b numeric";
               "@attribute c {x,y}"; "@data"])
           [1; -1; 0]).
  - vm_compute. reflexivity.
  - vm_compute. reflexivity.
  - intros _. by repeat constructor.
  - assert (Hrows : @csv_reader plain.csv "," (text ["1,2,x"; "3,4,y"])
                    = [["1"; "2"; "x"]; ["3"; "4"; "y"]])
      by (vm_compute; reflexivity).
    simpl utils.unread. rewrite Hrows. by repeat constructor.
Defined.

(** X23: for an ARFF input, a column position that resolves but lies
    outside the attribute lines ends Select with the IndexError of
    [attr_lines[i]] before anything is written: the output file is as
    it was. *)
Theorem select_arff_position_out_of_range :
  ∀ (C : Csv) fuel specs input_delim output_delim w f md cols,
    utils.get_metadata_if_arff fuel (arffselect.in_ w) = (f, Ret md) →
    utils.is_arff md = true →
    traverse (λ s, arffselect.get_column_to_select s (utils.is_arff md)
                     (utils.attr_names md)) specs = Ret cols →
    Exists (λ i, py.item (utils.attr_lines md) i = None) cols →
    arffselect.select fuel specs input_delim output_delim w
    = (arffselect.World f (arffselect.out_ w),
       Raise (IndexError "attr_lines[i]")).
Proof.
  intros C fuel specs input_delim output_delim w f md cols
    Hscan Harff Hcols Hmissing.
  unfold arffselect.select, bind at 1,
    arffselect.handle_metadata_and_get_columns, bind at 1,
    arffselect.on_in, zoom.
  rewrite Hscan. unfold bind at 1, lift. rewrite Hcols, Harff.
  unfold bind at 1. unfold bind at 1.
  by rewrite (traverse_index_missing _ _ _ Hmissing).
Qed.

Lemma select_arff_position_out_of_range_witness :
  @arffselect.select plain.csv 9 ["0"; "2"] "," ","
    (arffselect.World
       (utils.from_text
          (text ["@relation r"; "@attribute a numeric"; "@attribute b numeric";
                 "@data"; "1,2"]))
       (io.OFile None EmptyString))
  = (arffselect.World
       (utils.Stream
          (text ["@relation r"; "@attribute a numeric"; "@attribute b numeric";
                 "@data"; "1,2"])
          (text ["1,2"]))
       (io.OFile None EmptyString),
     Raise (IndexError "attr_lines[i]")).
Proof.
  apply (select_arff_position_out_of_range plain.csv 9%nat ["0"; "2"] "," ","
           (arffselect.World
              (utils.from_text
                 (text ["@relation r"; "@attribute a numeric";
                        "@attribute b numeric"; "@data"; "1,2"]))
              (io.OFile None EmptyString))
           (utils.Stream
              (text ["@relation r"; "@attribute a numeric";
                     "@attribute b numeric"; "@data"; "1,2"])
              (text ["1,2"]))
           (utils.Metadata true ["a"; "b"]
              ["@attribute a numeric"; "@attribute b numeric"]
              ["@relation r"; "@attribute a numeric"; "@attribute b numeric";
               "@data"])
           [0; 2]).
  - vm_compute. reflexivity.
  - reflexivity.
  - vm_compute. reflexivity.
  - apply Exists_cons_tl, Exists_cons_hd. reflexivity.
Defined.

(** X24: a data row that lacks one of the selected positions ends Select
    with the IndexError of [line[i]].  By then the header, if any, and
    the projections of the rows before it are in the output; the row
    itself and the rows after it are not. *)
Theorem select_stops_at_short_row :
  ∀ (C : Csv) fuel specs input_delim output_delim w f md cols sel
    good outs bad rest,
    utils.get_metadata_if_arff fuel (arffselect.in_ w) = (f, Ret md) →
    traverse (λ s, arffselect.get_column_to_select s (utils.is_arff md)
                     (utils.attr_names md)) specs = Ret cols →
    (utils.is_arff md = true →
     Forall2 (λ i l, py.item (utils.attr_lines md) i = Some l) cols sel) →
    csv_reader input_delim (utils.unread f) = good ++ bad :: rest →
    Forall2 (λ (line out_line : row),
        Forall2 (λ i x, py.item line i = Some x) cols out_line) good outs →
    Exists (λ i, py.item bad i = None) cols →
    let run := arffselect.select fuel specs input_delim output_delim w in
    run.2 = Raise (IndexError "line[i]")
    ∧ arffselect.out_ run.1
      = io.write
          ((if utils.is_arff md
            then py.concat (utils.create_metadata_rows
                              (select_name (arffselect.out_ w)) sel)
            else EmptyString)
             +:+ rows_text output_delim outs)
          (arffselect.out_ w).
Proof.
  intros C fuel specs input_delim output_delim w f md cols sel
    good outs bad rest Hscan Hcols Hsel Hrows Hgood Hbad run.
  unfold run.
  erewrite select_after_header;
    [|exact (handle_metadata_and_get_columns_spec fuel specs w f md cols sel
               Hscan Hcols Hsel)].
  simpl. rewrite Hrows, for_each_app.
  rewrite (select_rows_project output_delim cols _ outs Hgood).
  rewrite (select_rows_short_row output_delim cols bad rest _ Hbad). simpl.
  by rewrite write_write.
Qed.

Lemma select_stops_at_short_row_witness :
  let run :=
    @arffselect.select plain.csv 9 ["1"] "," ","
      (arffselect.World (utils.from_text (text ["a,b"; "c"; "d,e"]))
         (io.OFile None EmptyString)) in
  run.2 = Raise (IndexError "line[i]")
  ∧ arffselect.out_ run.1
    = io.write
        ((if false
          then py.concat (utils.create_metadata_rows
                            (select_name (io.OFile None EmptyString)) [])
          else EmptyString)
           +:+ @rows_text plain.csv "," [["b"]])
        (io.OFile None EmptyString).
Proof.
  apply (select_stops_at_short_row plain.csv 9%nat ["1"] "," ","
           (arffselect.World (utils.from_text (text ["a,b"; "c"; "d,e"]))
              (io.OFile None EmptyString))
           (utils.from_text (text ["a,b"; "c"; "d,e"]))
           (utils.Metadata false [] [] [])
           [1] [] [["a"; "b"]] [["b"]] ["c"] [["d"; "e"]]).
  - vm_compute. reflexivity.
  - vm_compute. reflexivity.
  - discriminate.
  - vm_compute. reflexivity.
  - by repeat constructor.
  - apply Exists_cons_hd. reflexivity.
Defined.

(** ** Merge: the additional data *)

Lemma dict_get_set {V} k k' (v : V) (d : py.dict V) :
  py.dict_get k (py.dict_set k' v d)
  = if String.eqb k' k then Some v else py.dict_get k d.
Proof.
  induction d as [|[k0 v0] d IH]; simpl; [done|].
  destruct (String.eqb_spec k0 k') as [->|Hne]; simpl.
  - by destruct (String.eqb k' k).
  - rewrite IH. destruct (String.eqb_spec k0 k) as [->|Hk]; [|done].
    destruct (String.eqb_spec k' k) as [->|_]; done.
Qed.

Lemma build_add_data_spec key_col first last_ rows keys :
  Forall2 (λ (line : row) k, py.item line key_col = Some k) rows keys →
  ∀ d0, ∃ d,
    arffmerge.build_add_data key_col first last_ rows d0 = Ret d
    ∧ ∀ k,
        py.dict_get k d
        = match last (List.filter
                        (λ line, bool_decide (py.item line key_col = Some k))
                        rows) with
          | Some line => Some (py.slice line (Some first) last_)
          | None => py.dict_get k d0
          end.
Proof.
  induction 1 as [|line k0 rows keys Hk0 _ IH]; intros d0.
  - by exists d0.
  - simpl. unfold py.index. rewrite Hk0.
    destruct (IH (py.dict_set k0 (py.slice line (Some first) last_) d0))
      as (d & -> & Hget).
    exists d. split; [done|]. intros k. rewrite Hget, dict_get_set.
    destruct (String.eqb_spec k0 k) as [->|Hne].
    + rewrite bool_decide_eq_true_2 by done. rewrite last_cons.
      by destruct (last _).
    + rewrite bool_decide_eq_false_2 by congruence. done.
Qed.

(** X25: when every row of the additional file has the key column,
    [get_additional_csv] builds a mapping in which a key stands for the
    slice [first:last] of the last row that has this key, earlier rows
    with the same key being overwritten, and a key no row has is
    absent. *)
Theorem build_add_data_last_row_wins :
  ∀ key_col first last_ rows keys,
    Forall2 (λ (line : row) k, py.item line key_col = Some k) rows keys →
    ∃ add_data,
      arffmerge.build_add_data key_col first last_ rows [] = Ret add_data
      ∧ ∀ k,
          py.dict_get k add_data
          = (λ line, py.slice line (Some first) last_)
              <$> last (List.filter
                          (λ line, bool_decide (py.item line key_col = Some k))
                          rows).
Proof.
  intros key_col first last_ rows keys Hkeys.
  destruct (build_add_data_spec key_col first last_ rows keys Hkeys [])
    as (d & Hd & Hget).
  exists d. split; [done|]. intros k. rewrite Hget. by destruct (last _).
Qed.

Lemma build_add_data_last_row_wins_witness :
  ∃ add_data,
    arffmerge.build_add_data 0 1 None
      [["1"; "a"; "b"]; ["2"; "c"; "d"]; ["1"; "e"; "f"]] [] = Ret add_data
    ∧ ∀ k,
        py.dict_get k add_data
        = (λ line, py.slice line (Some 1) None)
            <$> last (List.filter
                        (λ line, bool_decide (py.item line 0 = Some k))
                        [["1"; "a"; "b"]; ["2"; "c"; "d"]; ["1"; "e"; "f"]]).
Proof.
  apply (build_add_data_last_row_wins 0 1 None
           [["1"; "a"; "b"]; ["2"; "c"; "d"]; ["1"; "e"; "f"]]
           ["1"; "2"; "1"]).
  by repeat constructor.
Defined.

Lemma slice_length_eq {A B} (l : list A) (l' : list B) lo hi :
  length l = length l' →
  length (py.slice l lo hi) = length (py.slice l' lo hi).
Proof.
  intros Hlen. unfold py.slice.
  by rewrite !length_take, !length_drop, Hlen.
Qed.

Lemma dict_set_Forall {V} (P : string * V → Prop) k v (d : py.dict V) :
  P (k, v) → Forall P d → Forall P (py.dict_set k v d).
Proof.
  intros Hkv. induction 1 as [|[k0 v0] d Hx Hd IH]; simpl.
  - by constructor.
  - destruct (String.eqb k0 k); by constructor.
Qed.

Lemma dict_set_nonempty {V} k (v : V) (d : py.dict V) : py.dict_set k v d ≠ [].
Proof. destruct d as [|[k0 v0] d]; simpl; [done|]. by destruct (String.eqb k0 k). Qed.

Lemma build_add_data_widths key_col first last_ (n width : nat) rows :
  Forall (λ line : row, length line = n) rows →
  Forall (λ line : row, is_Some (py.item line key_col)) rows →
  (∀ line : row, length line = n →
                 length (py.slice line (Some first) last_) = width) →
  ∀ d0,
    Forall (λ kv : string * row, length kv.2 = width) d0 →
    ∃ d,
      arffmerge.build_add_data key_col first last_ rows d0 = Ret d
      ∧ Forall (λ kv : string * row, length kv.2 = width) d
      ∧ (rows ≠ [] → d ≠ []).
Proof.
  intros Hlen Hkeys Hwidth. revert Hkeys.
  induction Hlen as [|line rows Hline _ IH]; intros Hkeys d0 Hd0.
  - by exists d0.
  - apply Forall_cons in Hkeys as [[k Hk] Hkeys].
    simpl. unfold py.index. rewrite Hk.
    destruct (IH Hkeys (py.dict_set k (py.slice line (Some first) last_) d0))
      as (d & Hd & Hall & Hne).
    { apply dict_set_Forall; [|done]. simpl. by apply Hwidth. }
    exists d. split; [done|]. split; [done|]. intros _.
    destruct rows as [|line' rows]; [|by apply Hne].
    simpl in Hd. injection Hd as <-. apply dict_set_nonempty.
Qed.

(** X26: a rectangular additional file gives segments of one width.
    Let the scanner return on the additional file, let the column
    argument parse as [first:last], let every data row have [n] fields
    and the key column and, for an ARFF file, let the header declare
    [n] attributes.  Then [get_additional_csv] returns, every segment of
    the mapping has the same width, the mapping is not empty when there
    is a data row, and for an ARFF file the attribute lines returned
    are as many as that width: header and rows of the merge stay
    aligned. *)
Theorem get_additional_csv_rectangular :
  ∀ (C : Csv) fuel a w f md first last_ (n : nat),
    utils.get_metadata_if_arff fuel (arffmerge.add_file w) = (f, Ret md) →
    arffmerge.parse_additional_cols_args (arffmerge.add_input_position a)
      (utils.is_arff md) (utils.attr_names md) = Ret (first, last_) →
    Forall (λ line : row, length line = n)
      (csv_reader (arffmerge.add_csv_delim a) (utils.unread f)) →
    Forall (λ line : row, is_Some (py.item line (arffmerge.add_key_col a)))
      (csv_reader (arffmerge.add_csv_delim a) (utils.unread f)) →
    (utils.is_arff md = true → length (utils.attr_lines md) = n) →
    ∃ w' add_attr_lines add_data width,
      arffmerge.get_additional_csv fuel a w
      = (w', Ret (add_attr_lines, add_data))
      ∧ Forall (λ kv : string * row, length kv.2 = width) add_data
      ∧ (csv_reader (arffmerge.add_csv_delim a) (utils.unread f) ≠ []
         → add_data ≠ [])
      ∧ (utils.is_arff md = true → length add_attr_lines = width)
      ∧ add_attr_lines = py.slice (utils.attr_lines md) (Some first) last_.
Proof.
  intros C fuel a w f md first last_ n Hscan Hparse Hlen Hkeys Hattrs.
  set (width := length (py.slice (replicate n EmptyString) (Some first) last_)).
  destruct (build_add_data_widths (arffmerge.add_key_col a) first last_
              n width _ Hlen Hkeys) with (d0 := ([] : py.dict row))
    as (d & Hd & Hall & Hne).
  { intros line Hline. apply slice_length_eq. by rewrite length_replicate. }
  { constructor. }
  eexists _, _, d, width.
  unfold arffmerge.get_additional_csv, bind at 1, arffmerge.on_add_file, zoom.
  rewrite Hscan. unfold bind at 1, lift. rewrite Hparse.
  unfold bind at 1, read_rows. simpl.
  unfold bind, lift, ret. rewrite Hd.
  split; [reflexivity|]. split; [done|]. split; [done|]. split; [|done].
  intros Harff. apply slice_length_eq.
  by rewrite length_replicate, Hattrs.
Qed.

Lemma get_additional_csv_rectangular_witness :
  ∃ w' add_attr_lines add_data width,
    @arffmerge.get_additional_csv plain.csv 9
      (arffmerge.Args (-1) "1:" "," "," "," 0 0)
      (arffmerge.World
         (utils.from_text
            (text ["@relation add"; "@attribute key numeric";
                   "@attribute x numeric"; "@attribute y numeric"; "@data";
                   "1,11,a"; "2,12,b"]))
         (utils.from_text EmptyString) (io.OFile None EmptyString) [])
    = (w', Ret (add_attr_lines, add_data))
    ∧ Forall (λ kv : string * row, length kv.2 = width) add_data
    ∧ (@csv_reader plain.csv "," (text ["1,11,a"; "2,12,b"]) ≠ []
       → add_data ≠ [])
    ∧ (true = true → length add_attr_lines = width)
    ∧ add_attr_lines
      = py.slice
          ["@attribute key numeric"; "@attribute x numeric";
           "@attribute y numeric"] (Some 1) None.
Proof.
  apply (get_additional_csv_rectangular plain.csv 9%nat
           (arffmerge.Args (-1) "1:" "," "," "," 0 0)
           (arffmerge.World
              (utils.from_text
                 (text ["@relation add"; "@attribute key numeric";
                        "@attribute x numeric"; "@attribute y numeric"; "@data";
                        "1,11,a"; "2,12,b"]))
              (utils.from_text EmptyString) (io.OFile None EmptyString) [])
           (utils.Stream
              (text ["@relation add"; "@attribute key numeric";
                     "@attribute x numeric"; "@attribute y numeric"; "@data";
                     "1,11,a"; "2,12,b"])
              (text ["1,11,a"; "2,12,b"]))
           (utils.Metadata true ["key"; "x"; "y"]
              ["@attribute key numeric"; "@attribute x numeric";
               "@attribute y numeric"]
              ["@relation add"; "@attribute key numeric";
               "@attribute x numeric"; "@attribute y numeric"; "@data"])
           1 None 3%nat).
  - vm_compute. reflexivity.
  - vm_compute. reflexivity.
  - assert (Hrows : @csv_reader plain.csv "," (text ["1,11,a"; "2,12,b"])
                    = [["1"; "11"; "a"]; ["2"; "12"; "b"]])
      by (vm_compute; reflexivity).
    simpl utils.unread. simpl arffmerge.add_csv_delim. rewrite Hrows.
    by repeat constructor.
  - assert (Hrows : @csv_reader plain.csv "," (text ["1,11,a"; "2,12,b"])
                    = [["1"; "11"; "a"]; ["2"; "12"; "b"]])
      by (vm_compute; reflexivity).
    simpl utils.unread. simpl arffmerge.add_csv_delim. rewrite Hrows.
    repeat (apply List.Forall_cons; [by eexists|]). apply List.Forall_nil.
  - reflexivity.
Defined.

(** ** Merge: the header step and the insertion position *)

Lemma not_arff_no_attributes fuel f f' md :
  utils.get_metadata_if_arff fuel f = (f', Ret md) →
  utils.is_arff md = false →
  utils.attr_names md = [] ∧ utils.attr_lines md = [].
Proof.
  intros Hscan Harff.
  apply get_metadata_if_arff_cases in Hscan
    as (l & r & f1 & line & skipped & _ & _ & Hcase).
  destruct Hcase as [(_ & -> & _) | (_ & names & lines & all & _ & ->)];
    [done | by simpl in Harff].
Qed.

(** X27: Merge writes an ARFF header whatever the primary file is.  When
    the scanner does not take the primary file for ARFF,
    [handle_arff_headers] still appends to the named output a header
    without attributes, the relation line named after the output file,
    two blank lines and the data line; it prints the hand-edit warning
    and answers that the file is not ARFF. *)
Theorem handle_arff_headers_plain_primary :
  ∀ fuel add_attr_lines output_pos w f md n,
    utils.get_metadata_if_arff fuel (arffmerge.in_file w) = (f, Ret md) →
    utils.is_arff md = false →
    io.name (arffmerge.out_file w) = Some n →
    arffmerge.handle_arff_headers fuel add_attr_lines output_pos w
    = (arffmerge.World (arffmerge.add_file w) f
         (io.write
            (text ["@relation "
                     +:+ arffmerge.remove_known_extensions (py.basename n);
                   EmptyString; EmptyString; "@data"])
            (arffmerge.out_file w))
         (arffmerge.stderr w
            ++ ["Warning: merging non-arff csv into arff; you'll need to hand-edit the metadata."]),
       Ret false).
Proof.
  intros fuel add_attr_lines output_pos w f md n Hscan Harff Hname.
  destruct (not_arff_no_attributes _ _ _ _ Hscan Harff) as [_ Hlines].
  unfold arffmerge.handle_arff_headers, bind at 1, arffmerge.on_in_file, zoom.
  rewrite Hscan, Hlines, Harff.
  rewrite (bool_decide_eq_false_2 ([] ≠ [])) by (by intros []).
  simpl. unfold bind, io.get_name. simpl. rewrite Hname. reflexivity.
Qed.

Lemma handle_arff_headers_plain_primary_witness :
  arffmerge.handle_arff_headers 9 [] (-1)
    (arffmerge.World (utils.from_text EmptyString)
       (utils.from_text (text ["1,a"; "2,b"]))
       (io.OFile (Some "dir/merged.csv") EmptyString) [])
  = (arffmerge.World (utils.from_text EmptyString)
       (utils.from_text (text ["1,a"; "2,b"]))
       (io.write
          (text ["@relation "
                   +:+ arffmerge.remove_known_extensions
                         (py.basename "dir/merged.csv");
                 EmptyString; EmptyString; "@data"])
          (io.OFile (Some "dir/merged.csv") EmptyString))
       ([] ++ ["Warning: merging non-arff csv into arff; you'll need to hand-edit the metadata."]),
     Ret false).
Proof.
  apply (handle_arff_headers_plain_primary 9%nat [] (-1)
           (arffmerge.World (utils.from_text EmptyString)
              (utils.from_text (text ["1,a"; "2,b"]))
              (io.OFile (Some "dir/merged.csv") EmptyString) [])
           (utils.from_text (text ["1,a"; "2,b"]))
           (utils.Metadata false [] [] [])
           "dir/merged.csv").
  - vm_compute. reflexivity.
  - reflexivity.
  - reflexivity.
Defined.

(** X28: Merge needs a named output.  When the output file object has
    no [name] attribute, as an in-memory buffer has none,
    [read_add_write] ends in the header step with AttributeError once
    the primary file has been scanned, and nothing is written. *)
Theorem read_add_write_unnamed_output :
  ∀ (C : Csv) fuel a add_attr_lines add_data w f md,
    utils.get_metadata_if_arff fuel (arffmerge.in_file w) = (f, Ret md) →
    io.name (arffmerge.out_file w) = None →
    let run := arffmerge.read_add_write fuel a add_attr_lines add_data w in
    run.2 = Raise (AttributeError "name")
    ∧ arffmerge.out_file run.1 = arffmerge.out_file w.
Proof.
  intros C fuel a add_attr_lines add_data w f md Hscan Hname run.
  assert (Hrun : ∃ w', run = (w', Raise (AttributeError "name"))
                       ∧ arffmerge.out_file w' = arffmerge.out_file w).
  { unfold run, arffmerge.read_add_write, bind at 1,
      arffmerge.handle_arff_headers, bind at 1, arffmerge.on_in_file, zoom.
    rewrite Hscan.
    destruct (bool_decide _ && bool_decide _); simpl;
      unfold bind, io.get_name; simpl; rewrite Hname;
      (eexists; split; [reflexivity | done]). }
  by destruct Hrun as (w' & -> & Hout).
Qed.

Lemma read_add_write_unnamed_output_witness :
  let run :=
    @arffmerge.read_add_write plain.csv 9
      (arffmerge.Args (-1) "1:" "," "," "," 0 0) [] [("1", ["x"])]
      (arffmerge.World (utils.from_text EmptyString)
         (utils.from_text (text ["1,a"]))
         (io.OFile None EmptyString) []) in
  run.2 = Raise (AttributeError "name")
  ∧ arffmerge.out_file run.1 = io.OFile None EmptyString.
Proof.
  apply (read_add_write_unnamed_output plain.csv 9%nat
           (arffmerge.Args (-1) "1:" "," "," "," 0 0) [] [("1", ["x"])]
           (arffmerge.World (utils.from_text EmptyString)
              (utils.from_text (text ["1,a"]))
              (io.OFile None EmptyString) [])
           (utils.from_text (text ["1,a"]))
           (utils.Metadata false [] [] [])).
  - vm_compute. reflexivity.
  - reflexivity.
Defined.

Lemma slice_at {A} (before after : list A) p :
  p = Z.of_nat (length before)
  ∨ (after ≠ [] ∧ p = - Z.of_nat (length after))
  ∨ (after = [] ∧ Z.of_nat (length before) ≤ p)
  ∨ (before = [] ∧ p ≤ - Z.of_nat (length after)) →
  py.slice (before ++ after) None (Some p) = before
  ∧ py.slice (before ++ after) (Some p) None = after.
Proof.
  intros Hp.
  assert (Hclamp : py.clamp (Z.of_nat (length (before ++ after))) p
                   = Z.of_nat (length before)).
  { unfold py.clamp. rewrite length_app.
    destruct Hp as [->|[[Hne ->]|[[-> Hp]|[-> Hp]]]]; simpl.
    - destruct (Z.ltb_spec (Z.of_nat (length before)) 0); lia.
    - destruct after as [|x after]; [done|]. simpl length.
      destruct (Z.ltb_spec (- Z.of_nat (S (length after))) 0); lia.
    - destruct (Z.ltb_spec p 0); lia.
    - destruct (Z.ltb_spec p 0); lia. }
  unfold py.slice. rewrite Hclamp, Z.sub_0_r, Nat2Z.id.
  change (Z.to_nat 0) with 0%nat. rewrite drop_0. split.
  - by rewrite take_app_length.
  - rewrite drop_app_length. apply take_ge. rewrite length_app. lia.
Qed.

(** X29: where Merge inserts.  The output row is the primary row with
    the segment of its key (or the placeholders) put in at the insertion
    position [p]: after the first [p] fields for [p] from 0 up to the
    width of the row, before the last [-p] fields for a negative [p], so
    before the last column for the default [-1]; a position beyond
    either end is clamped, the segment then going last or first. *)
Theorem merge_line_inserts_at_position :
  ∀ (C : Csv) a add_data missing (before after : row) key_ w,
    arffmerge.output_position a = Z.of_nat (length before)
    ∨ (after ≠ []
       ∧ arffmerge.output_position a = - Z.of_nat (length after))
    ∨ (after = [] ∧ Z.of_nat (length before) ≤ arffmerge.output_position a)
    ∨ (before = []
       ∧ arffmerge.output_position a ≤ - Z.of_nat (length after)) →
    py.item (before ++ after) (arffmerge.main_key_col a) = Some key_ →
    arffmerge.out_file
      (arffmerge.merge_line a add_data missing (before ++ after) w).1
    = io.write
        (csv_writerow (arffmerge.output_csv_delim a)
           (before ++ default missing (py.dict_get key_ add_data) ++ after))
        (arffmerge.out_file w).
Proof.
  intros C a add_data missing before after key_ w Hp Hkey.
  rewrite (merge_line_spec a add_data missing _ key_ w Hkey). simpl.
  unfold merged_row. by destruct (slice_at before after _ Hp) as [-> ->].
Qed.

Lemma merge_line_inserts_at_position_witness :
  arffmerge.out_file
    (@arffmerge.merge_line plain.csv
       (arffmerge.Args (-1) "1:" "," "," "," 0 0)
       [("1", ["11"; "12"])] ["?"; "?"] (["1"; "a"] ++ ["true"])
       (arffmerge.World (utils.from_text EmptyString)
          (utils.from_text EmptyString) (io.OFile None EmptyString) [])).1
  = io.write
      (@csv_writerow plain.csv ","
         (["1"; "a"]
            ++ default ["?"; "?"] (py.dict_get "1" [("1", ["11"; "12"])])
            ++ ["true"]))
      (io.OFile None EmptyString).
Proof.
  apply (merge_line_inserts_at_position plain.csv
           (arffmerge.Args (-1) "1:" "," "," "," 0 0)
           [("1", ["11"; "12"])] ["?"; "?"] ["1"; "a"] ["true"] "1"
           (arffmerge.World (utils.from_text EmptyString)
              (utils.from_text EmptyString) (io.OFile None EmptyString) [])).
  - right. left. by split.
  - reflexivity.
Defined.

(** ** [io_handler] on normal completion *)

(** X30: when the enclosed body returns, [io_handler] has closed the
    handle it opened for a path, and only that one; given a file object
    it opens and closes nothing, the statement being the body run on
    that object. *)
Theorem io_handler_closes_only_its_own_handle :
  ∀ {A} (p mode : string) (body : nat → M io.files A) σ σ' a,
    body (io.fresh σ)
      (io.Files ({[io.fresh σ]} ∪ io.opened σ) (S (io.fresh σ)))
    = (σ', Ret a) →
    io.with_ (io.io_handler (io.Path p) mode) body σ
    = (io.Files (io.opened σ' ∖ {[io.fresh σ]}) (io.fresh σ'), Ret a)
    ∧ ∀ h (body' : nat → M io.files A) σ0,
        io.with_ (io.io_handler (io.Handle h) mode) body' σ0 = body' h σ0.
Proof.
  intros A p mode body σ σ' a Hbody. split.
  - by apply io_handler_closes_own_handle_on_return.
  - intros h body' σ0. apply io_handler_returns_callers_handle.
Qed.

Lemma io_handler_closes_only_its_own_handle_witness :
  io.with_ (io.io_handler (io.Path "in.csv") "rt")
    (λ h, io.with_ (io.io_handler (io.Handle h) "rt") (λ h', ret h'))
    (io.Files {[0%nat]} 1)
  = (io.Files (({[1%nat]} ∪ {[0%nat]}) ∖ {[1%nat]}) 2, Ret 1%nat)
  ∧ ∀ h (body' : nat → M io.files nat) σ0,
      io.with_ (io.io_handler (io.Handle h) "rt") body' σ0 = body' h σ0.
Proof.
  exact (io_handler_closes_only_its_own_handle "in.csv" "rt"
           (λ h, io.with_ (io.io_handler (io.Handle h) "rt") (λ h', ret h'))
           (io.Files {[0%nat]} 1) (io.Files ({[1%nat]} ∪ {[0%nat]}) 2) 1%nat
           eq_refl).
Defined.
